(** * Trial by Hex: review panel, fallback chain, synthesis and verdict

  A shallow embedding of [trial_by_hex.py] and [trial_by_hex_plus.py].

  Representation choices.
  - A Python [str] is a Rocq [string] holding its UTF-8 bytes.
    Concatenation, [join], [in] and [split('/')] commute with that encoding.
    [upper] and slicing are modelled on ASCII text; general statements
    about [upper] carry an [ascii_text] hypothesis.
  - A call of [openrouter_request] is an external exchange.  The remote side
    is an oracle [net] that answers a request in view of the requests sent
    before it, with the response text or with an exception.  Every request
    is logged in the world, so that theorems can speak about which models
    were invoked, and in which order.
  - Statements of the scripts run in a state-and-exception monad [M] over
    the world (requests sent, lines printed, files, directories made).
  - The file system can refuse: what [read_text] raises at a path that is
    no readable text file (a directory, a file that is not UTF-8), and the
    failures of [mkdir] and [write_text], are given by the environment, so
    that a run can raise at each of these calls.

  The command-line entry points of the two scripts and the first version
  of the script, [.py/trial_by_hex.py], are embedded after them. *)

From Stdlib Require Import ZArith Ascii String List Lia.
From stdpp Require Import base option list strings gmap pretty.

Local Open Scope string_scope.

(** ** Python strings *)

Module Py.

Definition is_lower (c : ascii) : bool :=
  (97 <=? nat_of_ascii c)%nat && (nat_of_ascii c <=? 122)%nat.

Definition is_upper (c : ascii) : bool :=
  (65 <=? nat_of_ascii c)%nat && (nat_of_ascii c <=? 90)%nat.

(** [str.upper] on one ASCII character. *)
Definition upper_char (c : ascii) : ascii :=
  if is_lower c then ascii_of_nat (nat_of_ascii c - 32) else c.

(** [s.upper()] *)
Fixpoint upper (s : string) : string :=
  match s with
  | EmptyString => EmptyString
  | String c s' => String (upper_char c) (upper s')
  end.

(** [s.lower()] on one character; used to phrase case-insensitive
    matching independently of [upper]. *)
Definition lower_char (c : ascii) : ascii :=
  if is_upper c then ascii_of_nat (nat_of_ascii c + 32) else c.

Definition ascii_char (c : ascii) : bool := (nat_of_ascii c <? 128)%nat.

Fixpoint ascii_text (s : string) : bool :=
  match s with
  | EmptyString => true
  | String c s' => ascii_char c && ascii_text s'
  end.

(** [hay.startswith(needle)] *)
Fixpoint startswith (needle hay : string) : bool :=
  match needle, hay with
  | EmptyString, _ => true
  | String _ _, EmptyString => false
  | String a needle', String b hay' =>
      if Ascii.eqb a b then startswith needle' hay' else false
  end.

(** [needle in hay] *)
Fixpoint contains (needle hay : string) : bool :=
  startswith needle hay ||
  match hay with
  | EmptyString => false
  | String _ hay' => contains needle hay'
  end.

(** [c in s] for a character [c] *)
Fixpoint occurs (c : ascii) (s : string) : bool :=
  match s with
  | EmptyString => false
  | String x s' => Ascii.eqb x c || occurs c s'
  end.

(** [sep.join(parts)] *)
Fixpoint join (sep : string) (parts : list string) : string :=
  match parts with
  | [] => ""
  | [p] => p
  | p :: rest => p +:+ sep +:+ join sep rest
  end.

(** [s[:n]] for a non-negative [n] *)
Fixpoint slice_to (n : nat) (s : string) : string :=
  match n, s with
  | O, _ => ""
  | S _, EmptyString => ""
  | S n', String c s' => String c (slice_to n' s')
  end.

(** [s.split(sep)] for a one-character separator; the result is never
    empty. *)
Fixpoint split (sep : ascii) (s : string) : list string :=
  match s with
  | EmptyString => [""]
  | String c s' =>
      if Ascii.eqb c sep then "" :: split sep s'
      else
        match split sep s' with
        | piece :: pieces => String c piece :: pieces
        | [] => [String c ""]
        end
  end.

(** [s.split(sep)[-1]]: what follows the last separator, the whole string
    when there is none. *)
Definition last_segment (sep : ascii) (s : string) : string :=
  List.last (split sep s) "".

(** [s * n] *)
Fixpoint repeat_str (s : string) (n : nat) : string :=
  match n with
  | O => ""
  | S n' => s +:+ repeat_str s n'
  end.

(** [f"{n:2}"]: an integer right-aligned in a field of width 2. *)
Definition pad2 (n : nat) : string :=
  if (n <? 10)%nat then " " +:+ pretty n else pretty n.

(** [s.split("\n")] *)
Definition lines (s : string) : list string := split "010"%char s.

(** The newline character as a string. *)
Definition nl : string := String "010"%char "".

(** The double-quote character as a string. *)
Definition dq : string := String "034"%char "".

(** A value stored in a result dictionary. *)
Inductive value :=
| VBool (b : bool)
| VStr (s : string).

End Py.

(** ** Effects: the world, exceptions and the monad of statements *)

Module Eff.

(** An exception instance; [str(e)] is its message. *)
Inductive exn := Exception (msg : string).

Definition str_exn (e : exn) : string := let 'Exception msg := e in msg.

Inductive result (A : Type) :=
| Return (a : A)
| Raise (e : exn).
Arguments Return {A} a.
Arguments Raise {A} e.

(** One entry of the [messages] list of a chat request. *)
Record Message := { role : string; content : string }.

(** The payload of one POST to the chat-completions endpoint. *)
Record Request := {
  req_model : string;
  req_messages : list Message;
  req_max_tokens : Z
}.

(** What the process cannot change during a run. *)
Record Env := {
  (** [os.environ.get('OPENROUTER_API_KEY')], read at import *)
  OPENROUTER_API_KEY : option string;
  (** the remote service: requests sent so far, the request, its outcome,
      the content string of the response or the exception of the exchange *)
  net : list Request -> Request -> result string;
  (** [datetime.now().isoformat()] *)
  now_isoformat : string;
  (** [str(Path(p).resolve())] *)
  resolve : string -> string;
  (** [Path(p).name] of a resolved path *)
  path_name : string -> string;
  (** [str(Path(p).parent)] of a resolved path *)
  path_parent : string -> string;
  (** what is at a path that holds no readable text file, as the exception
      [read_text] raises there: a directory ([IsADirectoryError]), a file
      that is not UTF-8 ([UnicodeDecodeError]), a file the process may not
      read; [None] when nothing of the kind is there *)
  unreadable : string -> option exn;
  (** the failure of [Path(p).mkdir(parents=True, exist_ok=True)], if any,
      for a reason other than a text file of the world at [p] (no
      permission, an ancestor that is no directory) *)
  mkdir_failure : string -> option exn;
  (** the failure of [Path(p).write_text(text, encoding='utf-8')], if any
      (no permission, no such directory, a text that does not encode, a
      full disk), with what the failed call leaves at [p]: [Some t] when the
      file was opened and holds [t] ([""] when the text did not encode),
      [None] when the path was not touched *)
  write_failure : string -> string -> option (exn * option string)
}.

Record World := {
  sent : list Request;        (** requests made, oldest first *)
  stdout : list string;       (** lines printed, oldest first *)
  (** the readable text files by resolved path, each with its text as
      [read_text(encoding='utf-8')] returns it and [write_text] takes it *)
  files : gmap string string;
  (** the directories a completed [mkdir] ensured *)
  mkdirs : list string
}.

Definition M (A : Type) : Type := World -> result A * World.

Definition ret {A} (a : A) : M A := fun w => (Return a, w).

Definition raise {A} (e : exn) : M A := fun w => (Raise e, w).

Definition bind {A B} (m : M A) (k : A -> M B) : M B :=
  fun w =>
    match m w with
    | (Return a, w') => k a w'
    | (Raise e, w') => (Raise e, w')
    end.

(** [try: body  except Exception as e: handler(e)]; the world keeps the
    effects the body had before it raised.  A failed exchange raises an
    instance of [Exception] (an error of [requests], a [KeyError] on the
    response body, ...), so the bare [except:] of the fallback loop catches
    what [except Exception] catches. *)
Definition try_except {A} (body : M A) (handler : exn -> M A) : M A :=
  fun w =>
    match body w with
    | (Return a, w') => (Return a, w')
    | (Raise e, w') => handler e w'
    end.

(** The world after a line was printed. *)
Definition say (line : string) (w : World) : World :=
  {| sent := sent w; stdout := stdout w ++ [line];
     files := files w; mkdirs := mkdirs w |}.

(** The world after several lines were printed. *)
Definition say_all (lines : list string) (w : World) : World :=
  {| sent := sent w; stdout := stdout w ++ lines;
     files := files w; mkdirs := mkdirs w |}.

(** The world after a text file was written. *)
Definition store (p text : string) (w : World) : World :=
  {| sent := sent w; stdout := stdout w;
     files := <[p := text]> (files w); mkdirs := mkdirs w |}.

(** The world after a directory was ensured. *)
Definition ensure_dir (p : string) (w : World) : World :=
  {| sent := sent w; stdout := stdout w;
     files := files w; mkdirs := mkdirs w ++ [p] |}.

(** The world after a request was sent. *)
Definition log_request (request : Request) (w : World) : World :=
  {| sent := sent w ++ [request]; stdout := stdout w;
     files := files w; mkdirs := mkdirs w |}.

Definition print (line : string) : M unit :=
  fun w => (Return tt, say line w).

(** [Path(p).exists()]: true of a file and of a directory alike. *)
Definition path_exists (env : Env) (p : string) : M bool :=
  fun w =>
    (Return (bool_decide (is_Some (files w !! p))
             || bool_decide (is_Some (unreadable env p))
             || bool_decide (p ∈ mkdirs w)), w).

(** [Path(p).read_text(encoding='utf-8')] *)
Definition read_text (env : Env) (p : string) : M string :=
  fun w =>
    match files w !! p with
    | Some text => (Return text, w)
    | None =>
        match unreadable env p with
        | Some e => (Raise e, w)
        | None =>
            if bool_decide (p ∈ mkdirs w)
            then (Raise (Exception ("[Errno 21] Is a directory: '" +:+ p +:+ "'")), w)
            else (Raise (Exception ("[Errno 2] No such file or directory: '"
                                    +:+ p +:+ "'")), w)
        end
    end.

(** [Path(p).write_text(text, encoding='utf-8')]: it can fail, and a
    failed call can leave a file behind. *)
Definition write_text (env : Env) (p text : string) : M unit :=
  fun w =>
    if bool_decide (p ∈ mkdirs w)
    then (Raise (Exception ("[Errno 21] Is a directory: '" +:+ p +:+ "'")), w)
    else
      match write_failure env p text with
      | Some (e, Some partial) => (Raise e, store p partial w)
      | Some (e, None) => (Raise e, w)
      | None => (Return tt, store p text w)
      end.

(** [Path(p).mkdir(parents=True, exist_ok=True)]: it raises
    [FileExistsError] when [p] is a regular file, and can fail otherwise. *)
Definition mkdir (env : Env) (p : string) : M unit :=
  fun w =>
    if bool_decide (is_Some (files w !! p))
    then (Raise (Exception ("[Errno 17] File exists: '" +:+ p +:+ "'")), w)
    else
      match mkdir_failure env p with
      | Some e => (Raise e, w)
      | None => (Return tt, ensure_dir p w)
      end.

(** The exchange itself: log the request, let the remote side answer. *)
Definition post (env : Env) (request : Request) : M string :=
  fun w => (net env (sent w) request, log_request request w).

(** [if not key]: [None] and the empty string are falsy. *)
Definition truthy (key : option string) : bool :=
  match key with
  | None => false
  | Some EmptyString => false
  | Some (String _ _) => true
  end.

End Eff.

Declare Scope py_scope.
Delimit Scope py_scope with py.
Notation "x <- m ;; k" := (Eff.bind m (fun x => k))
(at level 100, m at next level, right associativity) : py_scope.
Notation "m ;;; k" := (Eff.bind m (fun _ => k))
(at level 100, right associativity) : py_scope.

(** ** trial_by_hex.py: the panel of six *)

Module TrialByHex.
Import Py Eff.
Local Open Scope py_scope.

Record Reviewer := { model : string; persona : string }.

Definition REVIEWERS : list Reviewer := [
  {| model := "anthropic/claude-sonnet-4.5";
     persona := "technical specialist focused on methodology and rigor" |};
  {| model := "openai/gpt-5.1";
     persona := "skeptical critic looking for weaknesses and logical gaps" |};
  {| model := "google/gemini-3-pro-preview";
     persona := "constructive reviewer focused on practical improvement" |};
  {| model := "x-ai/grok-4.1-fast:free";
     persona := "accessibility reviewer checking clarity for general audience" |};
  {| model := "deepseek/deepseek-chat-v3.1";
     persona := "literature reviewer checking connections to existing work" |};
  {| model := "openai/gpt-5-mini";
     persona := "experimental design and reproducibility reviewer" |}
].

Definition FALLBACK_MODELS : list string := [
  "x-ai/grok-4.1-fast:free";
  "anthropic/claude-haiku-4.5";
  "openai/gpt-5-nano"
].

Definition review_system_prompt (persona : string) : string :=
  "You are a " +:+ persona +:+ " conducting a blind peer review.

Evaluate this work on:
1. Technical accuracy
2. Clarity of argument
3. Evidence quality
4. Novel contribution
5. Weaknesses and gaps

Be specific. Cite sections. Provide actionable feedback.
Do NOT reference author credentials or affiliations - this is blind review.
Focus purely on the quality of the work itself.".

Definition synthesis_system_prompt : string :=
  "Synthesize these 6 blind reviews into a single actionable summary.

OUTPUT FORMAT:
## High Consensus (4+ reviewers agree)
[Issues most reviewers flagged]

## Moderate Consensus (2-3 reviewers)
[Issues some reviewers noted]

## Minority Concerns (1 reviewer, but substantive)
[Individual concerns worth considering]

## Strengths (what reviewers praised)
[Positive feedback]

## VERDICT
PASS: Ready for publication with minor edits
REVISE: Needs significant revision, re-review recommended
REJECT: Fundamental issues need addressing

Remove any credentialism-based dismissals. Focus on substance.".

Definition REVIEW_DELIMITER : string := nl +:+ nl +:+ "---REVIEW---" +:+ nl +:+ nl.

Definition default_synthesis_model : string := "anthropic/claude-opus-4.5".

(** [passed = "PASS" in synthesis.upper()] *)
Definition passed_of (synthesis : string) : bool :=
  contains "PASS" (upper synthesis).

Definition verdict_label (passed : bool) : string :=
  if passed then "✓ PASSED" else "⚠ NEEDS REVISION".

Definition report_head (name date : string) (passed : bool) (synthesis : string) : string :=
  "# Trial by Hex Review

**Document:** " +:+ name +:+ "
**Date:** " +:+ date +:+ "
**Verdict:** " +:+ verdict_label passed +:+ "
**Reviewers:** 6 diverse AI models via OpenRouter

---

## Synthesized Review

" +:+ synthesis +:+ "

---

## Individual Reviews

".

Definition review_section (i : nat) (reviewer : Reviewer) (r : string) : string :=
  "### Reviewer " +:+ pretty (i + 1)%nat +:+ ": " +:+ last_segment "/" (model reviewer) +:+ "
**Persona:** " +:+ persona reviewer +:+ "

" +:+ r +:+ "

---

".

Definition result_dict (passed : bool) (synthesis : string) : gmap string value :=
  <["passed" := VBool passed]> (<["synthesis" := VStr synthesis]> ∅).

(** [payload] in [openrouter_request] *)
Definition payload (model : string) (messages : list Message) (max_tokens : Z)
    : Request :=
  {| req_model := model; req_messages := messages; req_max_tokens := max_tokens |}.

(** [messages] in [get_review] *)
Definition review_messages (content persona : string) : list Message := [
  {| role := "system"; content := review_system_prompt persona |};
  {| role := "user"; content := content |}
].

(** [combined] in [synthesize_reviews] *)
Definition combined (reviews : list string) : string :=
  join REVIEW_DELIMITER reviews.

(** [messages] in [synthesize_reviews] *)
Definition synthesis_messages (reviews : list string) : list Message := [
  {| role := "system"; content := synthesis_system_prompt |};
  {| role := "user"; content := combined reviews |}
].

Section Run.
Context (env : Env).

(** The POST of the payload; [raise_for_status], the decoding of the body
    and the lookup of [choices][0][message][content] are the remote side's
    answer: the text, or the exception one of them raises. *)
Definition openrouter_request (model : string) (messages : list Message)
    (max_tokens : Z) : M string :=
  post env (payload model messages max_tokens).

(** The [for fallback in FALLBACK_MODELS] loop of the handler, ending in
    [raise e] with the primary's exception. *)
Fixpoint try_fallbacks (fallbacks : list string) (messages : list Message)
    (e : exn) : M string :=
  match fallbacks with
  | [] => raise e
  | fallback :: rest =>
      try_except
        (print ("    Falling back to " +:+ fallback +:+ "...") ;;;
         openrouter_request fallback messages 1500)
        (fun _ => try_fallbacks rest messages e)
  end.

Definition get_review (content persona model : string) : M string :=
  let messages := review_messages content persona in
  try_except
    (openrouter_request model messages 1500)
    (fun e => try_fallbacks FALLBACK_MODELS messages e).

Definition synthesize_reviews (reviews : list string) (synthesis_model : string)
    : M string :=
  let messages := synthesis_messages reviews in
  openrouter_request synthesis_model messages 2000.

(** The body of [for i, reviewer in enumerate(REVIEWERS)], from index [i]
    on, with [reviews] the list built so far. *)
Fixpoint review_loop (content : string) (i : nat) (panel : list Reviewer)
    (reviews : list string) : M (list string) :=
  match panel with
  | [] => ret reviews
  | reviewer :: rest =>
      let model_short := last_segment "/" (model reviewer) in
      print ("  [" +:+ pretty (i + 1)%nat +:+ "/6] " +:+ model_short +:+ ": "
             +:+ slice_to 40 (persona reviewer) +:+ "...") ;;;
      reviews' <-
        try_except
          (review <- get_review content (persona reviewer) (model reviewer) ;;
           print "        ✓ Complete" ;;;
           ret (reviews ++ [review])%list)
          (fun e =>
             print ("        ✗ Error: " +:+ str_exn e) ;;;
             ret (reviews ++ ["Review failed: " +:+ str_exn e])%list) ;;
      review_loop content (S i) rest reviews'
  end.

(** The generator [f"### Reviewer {i+1}: {REVIEWERS[i]...}" for i, r in
    enumerate(reviews)], joined by the empty string. *)
Fixpoint individual_reviews (panel : list Reviewer) (i : nat)
    (reviews : list string) : M string :=
  match reviews with
  | [] => ret ""
  | r :: rest =>
      match panel !! i with
      | None => raise (Exception "list index out of range")
      | Some reviewer =>
          tail <- individual_reviews panel (S i) rest ;;
          ret (review_section i reviewer r +:+ tail)
      end
  end.

Definition print_key_help : M unit :=
  print (repeat_str "=" 60) ;;;
  print "ERROR: OPENROUTER_API_KEY not set!" ;;;
  print (repeat_str "=" 60) ;;;
  print (nl +:+ "Option 1 - Environment variable:") ;;;
  print "  Linux/Mac:       export OPENROUTER_API_KEY='your-key-here'" ;;;
  print "  Windows (PS):    $env:OPENROUTER_API_KEY = 'your-key-here'" ;;;
  print "  Windows (CMD):   set OPENROUTER_API_KEY=your-key-here" ;;;
  print (nl +:+ "Option 2 - Create a .env file:") ;;;
  print "  Copy .env.example to .env and add your key" ;;;
  print (nl +:+ "To get an API key:") ;;;
  print "  1. Go to https://openrouter.ai" ;;;
  print "  2. Sign in or create account" ;;;
  print "  3. Navigate to Keys section" ;;;
  print "  4. Create new API key".

(** The banner and the dispatch loop: from the first [print] after the
    document is read to the end of [for i, reviewer in enumerate(REVIEWERS)]. *)
Definition collect_reviews (panel : list Reviewer) (input_path content : string)
    : M (list string) :=
  print (repeat_str "=" 60) ;;;
  print "  TRIAL BY HEX - Multi-Model Blind Peer Review" ;;;
  print "  Powered by OpenRouter (Claude, GPT, Gemini, Llama)" ;;;
  print (repeat_str "=" 60) ;;;
  print (nl +:+ "Document: " +:+ input_path) ;;;
  print ("Collecting 6 diverse blind reviews..." +:+ nl) ;;;
  review_loop content 0 panel [].

(** [trial_by_hex], with the module constant [REVIEWERS] it iterates over
    taken as the argument [panel]. *)
Definition trial_by_hex_with (panel : list Reviewer)
    (input_file output_file : string) : M (gmap string value) :=
  if negb (truthy (OPENROUTER_API_KEY env)) then
    print_key_help ;;;
    ret (result_dict false "API key not set")
  else
    let input_path := resolve env input_file in
    found <- path_exists env input_path ;;
    if negb found then
      print ("ERROR: Input file not found: " +:+ input_path) ;;;
      ret (result_dict false "Input file not found")
    else
      content <- read_text env input_path ;;
      reviews <- collect_reviews panel input_path content ;;
      print (nl +:+ "Synthesizing reviews with Claude Opus 4.5...") ;;;
      synthesis <- synthesize_reviews reviews default_synthesis_model ;;
      let passed := passed_of synthesis in
      let output_path := resolve env output_file in
      mkdir env (path_parent env output_path) ;;;
      individual <- individual_reviews panel 0 reviews ;;
      write_text env output_path
        (report_head (path_name env input_path) (now_isoformat env) passed synthesis
         +:+ individual) ;;;
      print (nl +:+ repeat_str "=" 60) ;;;
      print ("  Review saved to: " +:+ output_path) ;;;
      print ("  Verdict: " +:+ verdict_label passed) ;;;
      print (repeat_str "=" 60) ;;;
      ret (result_dict passed synthesis).

Definition trial_by_hex : string -> string -> M (gmap string value) :=
  trial_by_hex_with REVIEWERS.

End Run.

End TrialByHex.

(** ** trial_by_hex_plus.py: the panel of twelve *)

Module TrialByHexPlus.
Import Py Eff.
Local Open Scope py_scope.

(** A reviewer dictionary; [name] is [None] when the key is absent. *)
Record Reviewer := { model : string; name : option string; persona : string }.

Definition ORIGINAL_REVIEWERS : list Reviewer := [
  {| model := "anthropic/claude-sonnet-4.5";
     name := None;
     persona := "technical specialist focused on methodology and rigor" |};
  {| model := "openai/gpt-5.1";
     name := None;
     persona := "skeptical critic looking for weaknesses and logical gaps" |};
  {| model := "google/gemini-3-pro-preview";
     name := None;
     persona := "constructive reviewer focused on practical improvement" |};
  {| model := "x-ai/grok-4.1-fast:free";
     name := None;
     persona := "accessibility reviewer checking clarity for general audience" |};
  {| model := "deepseek/deepseek-chat-v3.1";
     name := None;
     persona := "literature reviewer checking connections to existing work" |};
  {| model := "openai/gpt-5-mini";
     name := None;
     persona := "experimental design and reproducibility reviewer" |}
].

Definition PLUS_REVIEWERS : list Reviewer := [
  {| model := "anthropic/claude-opus-4.5";
     name := Some "The Logical Consistency Reviewer";
     persona := "logician and meta-theorist enforcing the Laws of Logic.

Your mandate:
1. Enforce the Laws of Logic:
   - Law of Identity (A = A)
   - Law of Non-Contradiction (¬(A ∧ ¬A))
   - Law of Excluded Middle (A ∨ ¬A)

2. Apply Godel's Incompleteness Theorems as meta-constraints:
   - Identify claims the system cannot self-validate
   - Flag statements requiring axioms outside the work's framework
   - Note where the work attempts to prove its own consistency

3. Detect:
   - Category errors (treating unlike things as equivalent)
   - Hidden assumptions masquerading as conclusions
   - Self-referential loops and paradoxes
   - Statements unprovable within the stated system
   - Claims requiring unstated extra axioms
   - Places where the work transcends its own formal definitions

Output format:
## Logical Violations
[Specific violations of identity, non-contradiction, excluded middle]

## Godelian Concerns
[Self-validation attempts, incompleteness issues]

## Category Errors
[Misapplied categories, type mismatches]

## Hidden Assumptions
[Unstated premises, smuggled axioms]

## Self-Referential Issues
[Loops, paradoxes, bootstrap problems]

## Formal Boundary Transgressions
[Where work exceeds its stated scope]" |};
  {| model := "anthropic/claude-sonnet-4.5";
     name := Some "The Semantic Analyst (The Wittgensteinian)";
     persona := "Wittgensteinian language analyst focused on linguistic precision and meaning-as-use.

Your mandate is to DEBUG THE LANGUAGE ITSELF:

1. Catch where the author is " +:+ dq +:+ "bewitched by language" +:+ dq +:+ ":
   - Words used to hide lack of understanding
   - Technical jargon creating illusion of precision
   - Metaphors mistaken for explanations
   - Language games misapplied across contexts

2. Examine definitions:
   - Are key terms defined operationally or circularly?
   - Do definitions shift mid-argument (equivocation)?
   - Are there ostensive definitions that actually point to nothing?

3. Check " +:+ dq +:+ "meaning as use" +:+ dq +:+ ":
   - Would this language mean anything in practice?
   - Is the author using private language impossible to verify?
   - Are there language games that have no clear rules?

4. Identify:
   - Meaningless sentences disguised as profound
   - Category mistakes from linguistic confusion
   - Pseudo-problems created by grammatical illusions
   - Where " +:+ dq +:+ "whereof one cannot speak, thereof one must be silent" +:+ dq +:+ " applies

Output format:
## Linguistic Bewitchments
[Where language creates illusions]

## Definition Problems
[Circular, shifting, or empty definitions]

## Meaning-as-Use Failures
[Language without practical grounding]

## Pseudo-Problems
[Issues created by language confusion, not reality]

## Recommended Clarifications
[Specific rewrites for clarity]" |};
  {| model := "openai/gpt-5.1";
     name := Some "The Ethical Alignment Sentinel";
     persona := "ethical analyst focused on bias, societal impact, and safety.

Your mandate is to check SECOND-ORDER EFFECTS:

1. Who gets hurt?
   - Direct harm from proposed ideas
   - Indirect harm from implementation
   - Harm to marginalized groups
   - Power asymmetries created or reinforced

2. Is the language exclusionary?
   - Gatekeeping terminology
   - Cultural assumptions presented as universal
   - Accessibility barriers (cognitive, educational, linguistic)
   - Who is implicitly addressed vs. excluded?

3. What are the unintended consequences?
   - Dual-use concerns
   - Weaponization potential
   - Surveillance/control implications
   - Environmental/resource costs
   - Labor displacement effects

4. Bias detection:
   - Dataset biases (if empirical)
   - Selection biases in evidence
   - Confirmation bias in argumentation
   - WEIRD (Western, Educated, Industrialized, Rich, Democratic) assumptions

5. Safety considerations:
   - Infohazards
   - Misuse pathways
   - Reversibility of proposed changes
   - Precautionary principle violations

Output format:
## Direct Harm Vectors
[Who could be harmed and how]

## Exclusionary Elements
[Language, framing, or assumptions that exclude]

## Unintended Consequences
[Second and third-order effects]

## Detected Biases
[Systematic blind spots]

## Safety Concerns
[Risks, misuse potential, irreversibility]

## Recommendations
[How to mitigate identified issues]" |};
  {| model := "google/gemini-3-pro-preview";
     name := Some "The Systems Architect";
     persona := "systems engineer focused on feasibility, scalability, and implementation.

IGNORE whether the idea is TRUE. Focus on whether it can be BUILT and SUSTAINED.

Your mandate:

1. Feasibility analysis:
   - Technical prerequisites
   - Resource requirements (compute, data, personnel)
   - Dependency chains
   - Current state of enabling technologies

2. Scalability assessment:
   - Does it work at 10x? 100x? 1000x?
   - What breaks first under load?
   - Bottlenecks and chokepoints
   - Coordination costs at scale

3. Implementation roadmap:
   - Critical path to MVP
   - Irreducible complexity
   - Integration points with existing systems
   - Migration pathways

4. Technical debt detection:
   - Shortcuts that will compound
   - Abstractions that leak
   - Maintenance burden over time
   - Documentation debt

5. Resource constraints:
   - Capital requirements
   - Human expertise availability
   - Time-to-implementation
   - Opportunity costs

6. Failure modes:
   - Single points of failure
   - Cascade failure risks
   - Recovery pathways
   - Graceful degradation options

Output format:
## Feasibility Assessment
[Can this be built? What's missing?]

## Scalability Analysis
[Where does it break at scale?]

## Implementation Critical Path
[Key milestones and dependencies]

## Technical Debt
[Hidden costs and shortcuts]

## Resource Requirements
[What's actually needed?]

## Failure Modes
[How will this break?]

## VERDICT: Build / Prototype First / Redesign / Infeasible" |};
  {| model := "deepseek/deepseek-chat-v3.1";
     name := Some "The Interdisciplinary Catalyst";
     persona := "interdisciplinary synthesist focused on lateral thinking and cross-domain connections.

Your mandate is to BREAK SILOED THINKING:

1. Cross-domain connections the author missed:
   - Biology: evolutionary parallels, ecological dynamics, homeostasis
   - Physics: thermodynamics, information theory, symmetry/conservation
   - Mathematics: topology, category theory, dynamical systems
   - History: precedents, cycles, analogous transformations
   - Art: aesthetic principles, creative processes, perception
   - Anthropology: cultural variations, ritual structures
   - Economics: incentive structures, market dynamics
   - Psychology: cognitive biases, behavioral patterns

2. Structural isomorphisms:
   - What other systems exhibit the same pattern?
   - What metaphors from other fields illuminate this?
   - Where has this problem been solved under a different name?

3. Missed literature:
   - Obscure but relevant fields
   - Historical work predating modern framing
   - Non-Western intellectual traditions
   - Practitioner knowledge not in academic literature

4. Synthesis opportunities:
   - How could insights from other fields strengthen the argument?
   - What would a physicist/biologist/historian notice immediately?
   - Where is the author reinventing an existing wheel?

5. Anti-siloing prompts:
   - " +:+ dq +:+ "This is isomorphic to [X] in [field]" +:+ dq +:+ "
   - " +:+ dq +:+ "The [field] literature calls this [term]" +:+ dq +:+ "
   - " +:+ dq +:+ "This was solved by [person] in [year] via [method]" +:+ dq +:+ "

Output format:
## Missed Connections
[Relevant work from other fields]

## Structural Isomorphisms
[Same pattern under different names]

## Cross-Domain Insights
[What other fields would notice]

## Synthesis Opportunities
[How to strengthen via interdisciplinary bridging]

## Reinvented Wheels
[Where existing solutions apply]

## Recommended Reading
[Specific sources from unexpected fields]" |};
  {| model := "x-ai/grok-4.1-fast:free";
     name := Some "The Steel Man Advocate";
     persona := "charitable interpreter focused on making the STRONGEST possible version of the argument.

Unlike skeptical reviewers, your job is to STRENGTHEN the author's case.

Your mandate:

1. Charitable interpretation:
   - Assume the author means the most defensible version
   - Fill gaps with the best possible arguments
   - Steelman weak points into strong ones
   - Find the insight even in confused exposition

2. Potential identification:
   - What is the author TRYING to say that they failed to articulate?
   - What's the diamond in the rough?
   - If this idea were fully developed, what would it become?
   - What adjacent ideas would make this stronger?

3. Argument reconstruction:
   - Rebuild weak arguments in their strongest form
   - Supply missing premises that would make conclusions valid
   - Reframe in more defensible language
   - Connect to established frameworks that support the claim

4. Defense preparation:
   - Anticipate objections and prepare responses
   - Identify which criticisms the author can actually answer
   - Find evidence the author could have cited
   - Suggest framings that preempt common attacks

5. Vision articulation:
   - If this is right, why does it matter?
   - What's the best-case scenario if this succeeds?
   - Who would this help and how?
   - What does the world look like if this idea wins?

Output format:
## Core Insight (Steel Manned)
[The strongest version of the main claim]

## Unrealized Potential
[What the author is reaching for but not quite grasping]

## Reconstructed Arguments
[Weak points made strong]

## Defense Preparation
[Answers to likely objections]

## Best-Case Vision
[Why this matters if it succeeds]

## Suggested Strengthening
[Specific additions that would make this compelling]" |}
].

Definition REVIEWERS : list Reviewer := (ORIGINAL_REVIEWERS ++ PLUS_REVIEWERS)%list.

Definition FALLBACK_MODELS : list string := [
  "x-ai/grok-4.1-fast:free";
  "anthropic/claude-haiku-4.5";
  "openai/gpt-5-nano"
].

Definition synthesis_system_prompt : string :=
  "Synthesize these 12 specialized blind reviews into a comprehensive actionable summary.

The reviewers include:
- 6 traditional academic reviewers (methodology, skeptic, constructive, accessibility, literature, reproducibility)
- 6 specialized philosophical/systems reviewers:
  - Logical Consistency Reviewer (Godelian analysis)
  - Semantic Analyst (Wittgensteinian language debugging)
  - Ethical Alignment Sentinel (bias and impact)
  - Systems Architect (feasibility and implementation)
  - Interdisciplinary Catalyst (cross-domain connections)
  - Steel Man Advocate (charitable strongest interpretation)

OUTPUT FORMAT:

## CRITICAL ISSUES (Consensus across multiple reviewers)
[Issues flagged by 4+ reviewers - these are blockers]

## SIGNIFICANT CONCERNS (2-3 reviewers)
[Important issues worth addressing]

## CONSIDERATIONS (Single reviewer, but substantive)
[Individual concerns that deserve thought]

## STRENGTHS (What reviewers praised)
[Positive consensus]

## LOGICAL/FORMAL ISSUES
[From the Logical Consistency Reviewer - Godelian concerns, self-reference issues]

## LINGUISTIC CLARITY
[From the Semantic Analyst - language bewitchments, definition problems]

## ETHICAL CONSIDERATIONS
[From the Ethical Alignment Sentinel - bias, impact, safety]

## IMPLEMENTATION FEASIBILITY
[From the Systems Architect - can it be built?]

## INTERDISCIPLINARY CONNECTIONS
[From the Interdisciplinary Catalyst - missed connections, synthesis opportunities]

## STEEL MANNED VERSION
[From the Steel Man Advocate - the strongest form of the argument]

## VERDICT

**Technical Quality:** [1-5 stars]
**Logical Coherence:** [1-5 stars]
**Ethical Alignment:** [1-5 stars]
**Feasibility:** [1-5 stars]
**Novelty:** [1-5 stars]

**Overall:** PASS | REVISE | REJECT

**Priority Actions:**
1. [Most important fix]
2. [Second priority]
3. [Third priority]

Remove any credentialism-based dismissals. Focus on substance.".

Definition specialist_system_prompt (name persona : string) : string :=
  "You are " +:+ name +:+ ", a " +:+ persona +:+ "

You are conducting a blind peer review. Focus ONLY on your specialized domain.
Do NOT reference author credentials or affiliations - this is blind review.
Be specific. Cite sections. Provide actionable feedback.".

Definition original_system_prompt (persona : string) : string :=
  "You are a " +:+ persona +:+ " conducting a blind peer review.

Evaluate this work on:
1. Technical accuracy
2. Clarity of argument
3. Evidence quality
4. Novel contribution
5. Weaknesses and gaps

Be specific. Cite sections. Provide actionable feedback.
Do NOT reference author credentials or affiliations - this is blind review.
Focus purely on the quality of the work itself.".

(** [if "name" in reviewer: ... else: ...] *)
Definition system_prompt (reviewer : Reviewer) : string :=
  match name reviewer with
  | Some n => specialist_system_prompt n (persona reviewer)
  | None => original_system_prompt (persona reviewer)
  end.

Definition REVIEW_DELIMITER : string := nl +:+ nl +:+ "---REVIEW---" +:+ nl +:+ nl.

Definition default_synthesis_model : string := "anthropic/claude-opus-4.5".

(** [reviewer.get('name', f"Reviewer {i+1}")] *)
Definition display_name (i : nat) (reviewer : Reviewer) : string :=
  default ("Reviewer " +:+ pretty (i + 1)%nat) (name reviewer).

(** The loop over [enumerate(zip(reviews, reviewer_info))] that fills
    [formatted_reviews]; [zip] stops at the shorter list. *)
Fixpoint formatted_reviews (i : nat) (reviews : list string)
    (reviewer_info : list Reviewer) : list string :=
  match reviews, reviewer_info with
  | review :: reviews', reviewer :: reviewer_info' =>
      ("### " +:+ display_name i reviewer +:+ nl +:+ review)
      :: formatted_reviews (S i) reviews' reviewer_info'
  | _, _ => []
  end.

(** [passed = "PASS" in synthesis.upper() and "REJECT" not in synthesis.upper()] *)
Definition passed_of (synthesis : string) : bool :=
  contains "PASS" (upper synthesis) && negb (contains "REJECT" (upper synthesis)).

Definition verdict_label (passed : bool) : string :=
  if passed then "PASSED" else "NEEDS REVISION".

Definition review_section (i : nat) (reviewer : Reviewer) (review : string) : string :=
  let persona := slice_to 200 (persona reviewer) in
  "### " +:+ pretty (i + 1)%nat +:+ ". " +:+ display_name i reviewer +:+ "
**Model:** " +:+ model reviewer +:+ "
**Focus:** " +:+ slice_to 100 persona +:+
  (if (100 <? String.length persona)%nat then "..." else "") +:+ "

" +:+ review +:+ "

---

".

(** The loop over [enumerate(zip(reviews, REVIEWERS))] that builds the
    string [individual_reviews]. *)
Fixpoint individual_reviews (i : nat) (reviews : list string)
    (panel : list Reviewer) : string :=
  match reviews, panel with
  | review :: reviews', reviewer :: panel' =>
      review_section i reviewer review +:+ individual_reviews (S i) reviews' panel'
  | _, _ => ""
  end.

Definition report_text (name date : string) (passed : bool)
    (synthesis individual : string) : string :=
  "# Trial by Hex+ Review

**Document:** " +:+ name +:+ "
**Date:** " +:+ date +:+ "
**Verdict:** " +:+ verdict_label passed +:+ "
**Reviewers:** 12 specialized AI reviewers via OpenRouter

---

## Synthesized Review

" +:+ synthesis +:+ "

---

## Individual Reviews

" +:+ individual +:+ "
".

Definition result_dict (passed : bool) (synthesis : string) : gmap string value :=
  <["passed" := VBool passed]> (<["synthesis" := VStr synthesis]> ∅).

(** [payload] in [openrouter_request] *)
Definition payload (model : string) (messages : list Message) (max_tokens : Z)
    : Request :=
  {| req_model := model; req_messages := messages; req_max_tokens := max_tokens |}.

(** [messages] in [get_review] *)
Definition review_messages (content : string) (reviewer : Reviewer) : list Message := [
  {| role := "system"; content := system_prompt reviewer |};
  {| role := "user"; content := content |}
].

(** [combined] in [synthesize_reviews] *)
Definition combined (reviews : list string) (reviewer_info : list Reviewer) : string :=
  join REVIEW_DELIMITER (formatted_reviews 0 reviews reviewer_info).

(** [messages] in [synthesize_reviews] *)
Definition synthesis_messages (reviews : list string) (reviewer_info : list Reviewer)
    : list Message := [
  {| role := "system"; content := synthesis_system_prompt |};
  {| role := "user"; content := combined reviews reviewer_info |}
].

Section Run.
Context (env : Env).

(** The POST of the payload; [raise_for_status], the decoding of the body
    and the lookup of [choices][0][message][content] are the remote side's
    answer: the text, or the exception one of them raises. *)
Definition openrouter_request (model : string) (messages : list Message)
    (max_tokens : Z) : M string :=
  post env (payload model messages max_tokens).

Fixpoint try_fallbacks (fallbacks : list string) (messages : list Message)
    (e : exn) : M string :=
  match fallbacks with
  | [] => raise e
  | fallback :: rest =>
      try_except
        (print ("    Falling back to " +:+ fallback +:+ "...") ;;;
         openrouter_request fallback messages 2000)
        (fun _ => try_fallbacks rest messages e)
  end.

Definition get_review (content : string) (reviewer : Reviewer) : M string :=
  let messages := review_messages content reviewer in
  try_except
    (openrouter_request (model reviewer) messages 2000)
    (fun e => try_fallbacks FALLBACK_MODELS messages e).

Definition synthesize_reviews (reviews : list string)
    (reviewer_info : list Reviewer) (synthesis_model : string) : M string :=
  let messages := synthesis_messages reviews reviewer_info in
  openrouter_request synthesis_model messages 3000.

Fixpoint review_loop (content : string) (i : nat) (panel : list Reviewer)
    (reviews : list string) : M (list string) :=
  match panel with
  | [] => ret reviews
  | reviewer :: rest =>
      let model_short := last_segment "/" (model reviewer) in
      let name := default (slice_to 40 (persona reviewer)) (name reviewer) in
      print ("  [" +:+ pad2 (i + 1) +:+ "/12] " +:+ name +:+ "...") ;;;
      reviews' <-
        try_except
          (review <- get_review content reviewer ;;
           print ("          Complete (" +:+ model_short +:+ ")") ;;;
           ret (reviews ++ [review])%list)
          (fun e =>
             print ("          Error: " +:+ str_exn e) ;;;
             ret (reviews ++ ["Review failed: " +:+ str_exn e])%list) ;;
      review_loop content (S i) rest reviews'
  end.

Definition print_key_help : M unit :=
  print (repeat_str "=" 70) ;;;
  print "ERROR: OPENROUTER_API_KEY not set!" ;;;
  print (repeat_str "=" 70) ;;;
  print (nl +:+ "Option 1 - Environment variable:") ;;;
  print "  Linux/Mac:       export OPENROUTER_API_KEY='your-key-here'" ;;;
  print "  Windows (PS):    $env:OPENROUTER_API_KEY = 'your-key-here'" ;;;
  print "  Windows (CMD):   set OPENROUTER_API_KEY=your-key-here" ;;;
  print (nl +:+ "Option 2 - Create a .env file:") ;;;
  print "  Copy .env.example to .env and add your key" ;;;
  print (nl +:+ "To get an API key:") ;;;
  print "  1. Go to https://openrouter.ai" ;;;
  print "  2. Sign in or create account" ;;;
  print "  3. Navigate to Keys section" ;;;
  print "  4. Create new API key".

(** [for i, r in enumerate(ORIGINAL_REVIEWERS): print(...)] *)
Fixpoint print_originals (i : nat) (rs : list Reviewer) : M unit :=
  match rs with
  | [] => ret tt
  | r :: rest =>
      print ("   [" +:+ pretty (i + 1)%nat +:+ "] " +:+ last_segment "/" (model r)
             +:+ ": " +:+ slice_to 50 (persona r) +:+ "...") ;;;
      print_originals (S i) rest
  end.

(** [for i, r in enumerate(PLUS_REVIEWERS): print(f"   [{i+7}] {r['name']}")];
    a dictionary without the key raises [KeyError]. *)
Fixpoint print_plus (i : nat) (rs : list Reviewer) : M unit :=
  match rs with
  | [] => ret tt
  | r :: rest =>
      match name r with
      | None => raise (Exception "'name'")
      | Some n =>
          print ("   [" +:+ pretty (i + 7)%nat +:+ "] " +:+ n) ;;;
          print_plus (S i) rest
      end
  end.

(** The banner and the dispatch loop: from the first [print] after the
    document is read to the end of [for i, reviewer in enumerate(REVIEWERS)]. *)
Definition collect_reviews (panel : list Reviewer) (input_path content : string)
    : M (list string) :=
  print (repeat_str "=" 70) ;;;
  print "  TRIAL BY HEX+ - Enhanced Multi-Model Blind Peer Review" ;;;
  print "  12 Specialized Reviewers (6 Traditional + 6 Philosophical)" ;;;
  print "  Powered by OpenRouter" ;;;
  print (repeat_str "=" 70) ;;;
  print (nl +:+ "Document: " +:+ input_path) ;;;
  print (nl +:+ "Original Reviewers (1-6):") ;;;
  print_originals 0 ORIGINAL_REVIEWERS ;;;
  print (nl +:+ "Plus Reviewers (7-12):") ;;;
  print_plus 0 PLUS_REVIEWERS ;;;
  print (nl +:+ "Collecting 12 specialized blind reviews..." +:+ nl) ;;;
  review_loop content 0 panel [].

(** [trial_by_hex_plus], with the module constant [REVIEWERS] it iterates
    over taken as the argument [panel]. *)
Definition trial_by_hex_plus_with (panel : list Reviewer)
    (input_file output_file : string) : M (gmap string value) :=
  if negb (truthy (OPENROUTER_API_KEY env)) then
    print_key_help ;;;
    ret (result_dict false "API key not set")
  else
    let input_path := resolve env input_file in
    found <- path_exists env input_path ;;
    if negb found then
      print ("ERROR: Input file not found: " +:+ input_path) ;;;
      ret (result_dict false "Input file not found")
    else
      content <- read_text env input_path ;;
      reviews <- collect_reviews panel input_path content ;;
      print (nl +:+ "Synthesizing 12 reviews with Claude Opus 4.5...") ;;;
      synthesis <- synthesize_reviews reviews panel default_synthesis_model ;;
      let passed := passed_of synthesis in
      let output_path := resolve env output_file in
      mkdir env (path_parent env output_path) ;;;
      let individual := individual_reviews 0 reviews panel in
      write_text env output_path
        (report_text (path_name env input_path) (now_isoformat env) passed
           synthesis individual) ;;;
      print (nl +:+ repeat_str "=" 70) ;;;
      print ("  Review saved to: " +:+ output_path) ;;;
      print ("  Verdict: " +:+ verdict_label passed) ;;;
      print (repeat_str "=" 70) ;;;
      ret (result_dict passed synthesis).

Definition trial_by_hex_plus : string -> string -> M (gmap string value) :=
  trial_by_hex_plus_with REVIEWERS.

End Run.

End TrialByHexPlus.

(** ** Vocabulary of the statements *)

Module Spec.
Import Py Eff.

(** The text of the delimiter between two reviews, without its newlines. *)
Definition marker : string := "---REVIEW---".

(** [marker not in s] *)
Definition marker_free (s : string) : Prop := contains marker s = false.

(** Equality of two characters up to ASCII case. *)
Definition eqb_nocase (a b : ascii) : bool :=
  Ascii.eqb (lower_char a) (lower_char b).

Fixpoint startswith_nocase (needle hay : string) : bool :=
  match needle, hay with
  | EmptyString, _ => true
  | String _ _, EmptyString => false
  | String a needle', String b hay' =>
      eqb_nocase a b && startswith_nocase needle' hay'
  end.

(** [hay] has an occurrence of [needle] up to ASCII case. *)
Fixpoint contains_nocase (needle hay : string) : bool :=
  startswith_nocase needle hay ||
  match hay with
  | EmptyString => false
  | String _ hay' => contains_nocase needle hay'
  end.

(** What a reviewer contributes to [reviews]: the text of the review, or
    the placeholder [f"Review failed: {e}"]. *)
Definition outcome_text (r : result string) : string :=
  match r with
  | Return text => text
  | Raise e => "Review failed: " +:+ str_exn e
  end.

Definition failed {A} (r : result A) : Prop := exists e, r = Raise e.

(** The needle consists of upper-case ASCII letters. *)
Definition upper_needle (n : string) : Prop :=
  forall c, occurs c n = true -> is_upper c = true.

(** The computation leaves files and directories as they are. *)
Definition disk_kept {A} (m : M A) : Prop :=
  forall w, files (m w).2 = files w /\ mkdirs (m w).2 = mkdirs w.

(** The request [get_review] of trial_by_hex.py sends to a model. *)
Definition hex_request (content persona mdl : string) : Request :=
  TrialByHex.payload mdl (TrialByHex.review_messages content persona) 1500.

(** The request [get_review] of trial_by_hex_plus.py sends to a model. *)
Definition plus_request (content : string) (reviewer : TrialByHexPlus.Reviewer)
    (mdl : string) : Request :=
  TrialByHexPlus.payload mdl (TrialByHexPlus.review_messages content reviewer) 2000.

(** The request [synthesize_reviews] sends, in each script. *)
Definition hex_synthesis_request (reviews : list string) (mdl : string) : Request :=
  TrialByHex.payload mdl (TrialByHex.synthesis_messages reviews) 2000.

Definition plus_synthesis_request (reviews : list string)
    (reviewer_info : list TrialByHexPlus.Reviewer) (mdl : string) : Request :=
  TrialByHexPlus.payload mdl (TrialByHexPlus.synthesis_messages reviews reviewer_info) 3000.

(** The label [synthesize_reviews] of trial_by_hex_plus.py gives each
    reviewer of the panel does not contain the marker. *)
Definition labels_marker_free (reviewer_info : list TrialByHexPlus.Reviewer) : Prop :=
  forall i reviewer, reviewer_info !! i = Some reviewer ->
    marker_free (TrialByHexPlus.display_name i reviewer).

(** Each request of the list fails when the list is sent, in order, after
    the requests of [history]. *)
Definition all_fail (env : Env) (history requests : list Request) : Prop :=
  forall k q, requests !! k = Some q ->
    failed (net env (history ++ take k requests) q).

(** The requests [sent] after [w0], oldest first, as model ids. *)
Definition models_since (w0 w : World) : list string :=
  map req_model (drop (length (sent w0)) (sent w)).

(** The world of a fresh process that sees the given files. *)
Definition boot (disk : gmap string string) : World :=
  {| sent := []; stdout := []; files := disk; mkdirs := [] |}.

(** A remote side that answers the k-th request of the run with the k-th
    entry of a script, and fails once the script is exhausted. *)
Definition scripted (answers : list (result string)) : list Request -> Request -> result string :=
  fun history _ =>
    nth (length history) answers (Raise (Exception "503 Server Error")).

(** A remote side on which exactly the listed models answer, each with
    its own name; every other model fails with a message naming it. *)
Definition only_up (up : list string) : list Request -> Request -> result string :=
  fun _ request =>
    if bool_decide (req_model request ∈ up)
    then Return ("review by " +:+ req_model request)
    else Raise (Exception ("404 " +:+ req_model request)).

(** A POSIX-like process environment around a remote side: [/work] is a
    directory, and the file system refuses no directory and no write. *)
Definition posix (key : option string) (remote : list Request -> Request -> result string) : Env :=
  {| OPENROUTER_API_KEY := key;
     net := remote;
     now_isoformat := "2025-12-01T09:30:00.000000";
     resolve := fun p => p;
     path_name := last_segment "/";
     path_parent := fun p => "/out";
     unreadable := fun p =>
       if bool_decide (p = "/work")
       then Some (Exception "[Errno 21] Is a directory: '/work'")
       else None;
     mkdir_failure := fun _ => None;
     write_failure := fun _ _ => None |}.

Definition sample_key : option string := Some "sk-or-v1-0000".

Definition sample_disk : gmap string string := {[ "/work/thesis.md" := "A short thesis." ]}.

Definition sample_content : string := "A short thesis.".

(** The skeptical critic of trial_by_hex.py (index 1 of [REVIEWERS]). *)
Definition skeptic : TrialByHex.Reviewer :=
  {| TrialByHex.model := "openai/gpt-5.1";
     TrialByHex.persona := "skeptical critic looking for weaknesses and logical gaps" |}.

(** The accessibility reviewer of trial_by_hex.py (index 3 of [REVIEWERS]),
    whose model is also the first fallback. *)
Definition accessibility : TrialByHex.Reviewer :=
  {| TrialByHex.model := "x-ai/grok-4.1-fast:free";
     TrialByHex.persona := "accessibility reviewer checking clarity for general audience" |}.

(** A named reviewer for trial_by_hex_plus.py. *)
Definition sentinel : TrialByHexPlus.Reviewer :=
  {| TrialByHexPlus.model := "openai/gpt-5.1";
     TrialByHexPlus.name := Some "The Ethical Alignment Sentinel";
     TrialByHexPlus.persona := "AI ethicist and safety researcher." |}.

(** Only the primary of the skeptic answers. *)
Definition env_primary_up : Env := posix sample_key (only_up ["openai/gpt-5.1"]).

(** No model answers; each failure names the model that failed. *)
Definition env_all_down : Env := posix sample_key (only_up []).

(** The first request of the run fails, the second one is answered. *)
Definition env_second_try : Env :=
  posix sample_key
    (scripted [Raise (Exception "429 Too Many Requests"); Return "a late review"]).

(** Every model of the fallback list answers; the synthesis model is down. *)
Definition env_synthesis_down : Env :=
  posix sample_key (only_up TrialByHex.FALLBACK_MODELS).

Definition passing_synthesis : string :=
  "## VERDICT
PASS: Ready for publication with minor edits".

Definition rejecting_synthesis : string :=
  "## VERDICT
REJECT: Fundamental issues need addressing. The argument does not pass basic scrutiny.".

(** The first [n] requests are answered with a review, the next one with
    the given text, and every later one fails. *)
Definition env_reviews_then (n : nat) (last : list (result string)) : Env :=
  posix sample_key (scripted (replicate n (Return "Sound method.") ++ last)).

(** A process started without the credential. *)
Definition env_no_key : Env := posix None (scripted []).

(** A synthesis that asks for a revision; it holds neither "pass" nor
    "reject". *)
Definition revising_synthesis : string :=
  "## VERDICT
REVISE: Needs significant revision, re-review recommended".

(** A file name that holds two newlines, and after them the text of a
    Verdict line with the passed label of trial_by_hex.py. *)
Definition forged_name : string :=
  "thesis.md
**Date:** 2025-12-01
**Verdict:** ✓ PASSED".

(** The same, with the passed label of trial_by_hex_plus.py. *)
Definition forged_plus_name : string :=
  "thesis.md
**Date:** 2025-12-01
**Verdict:** PASSED".

(** A disk that holds the document under the two forged names. *)
Definition forged_disk : gmap string string :=
  {[ "/work/" +:+ forged_name := "A short thesis.";
     "/work/" +:+ forged_plus_name := "A short thesis." ]}.

(** Two lists of six review texts in which a text quotes the delimiter. *)
Definition quoting_reviews_a : list string :=
  ("Clear." +:+ TrialByHex.REVIEW_DELIMITER +:+ "Too long.")
  :: "Well argued." :: replicate 4 "Sound method.".

Definition quoting_reviews_b : list string :=
  "Clear."
  :: ("Too long." +:+ TrialByHex.REVIEW_DELIMITER +:+ "Well argued.")
  :: replicate 4 "Sound method.".

(** Two lists of twelve review texts in which a text quotes the delimiter
    and the label line that follows it. *)
Definition labelled_reviews_a : list string :=
  ("Clear." +:+ TrialByHexPlus.REVIEW_DELIMITER +:+ "### Reviewer 2" +:+ nl +:+ "Too long.")
  :: "Well argued." :: replicate 10 "Sound method.".

Definition labelled_reviews_b : list string :=
  "Clear."
  :: ("Too long." +:+ TrialByHexPlus.REVIEW_DELIMITER +:+ "### Reviewer 2" +:+ nl
      +:+ "Well argued.")
  :: replicate 10 "Sound method.".

End Spec.

(** ** The command line of the scripts *)

Module Proc.

(** How a [__main__] block ends: by [sys.exit(code)], or after its last
    statement. *)
Inductive ending :=
| SysExit (code : Z)
| Done.

End Proc.

Module TrialByHexCli.
Import Py Eff Proc TrialByHex.
Local Open Scope py_scope.

(** [for r in REVIEWERS: print(f"  • {r['model']}: {r['persona']}")] *)
Fixpoint print_reviewers (rs : list Reviewer) : M unit :=
  match rs with
  | [] => ret tt
  | r :: rest =>
      print ("  • " +:+ model r +:+ ": " +:+ persona r) ;;;
      print_reviewers rest
  end.

Definition print_usage : M unit :=
  print (repeat_str "=" 60) ;;;
  print "  TRIAL BY HEX - Multi-Model Blind Peer Review" ;;;
  print (repeat_str "=" 60) ;;;
  print (nl +:+ "Usage: python trial_by_hex.py <input_file> <output_file>") ;;;
  print (nl +:+ "Examples:") ;;;
  print "  python trial_by_hex.py ./thesis.md ./thesis_review.md" ;;;
  print ("  python trial_by_hex.py " +:+ dq +:+ "path/to/document.txt" +:+ dq +:+ " "
         +:+ dq +:+ "path/to/review.md" +:+ dq) ;;;
  print (nl +:+ "Reviewers (6 diverse models):") ;;;
  print_reviewers REVIEWERS ;;;
  print (nl +:+ "Setup:") ;;;
  print "  1. pip install -r requirements.txt" ;;;
  print "  2. Set OPENROUTER_API_KEY (env var or .env file)" ;;;
  print (nl +:+ "Get your API key at: https://openrouter.ai").

(** The [if __name__ == "__main__":] block, on [sys.argv]. *)
Definition main (env : Env) (argv : list string) : M ending :=
  if (length argv <? 3)%nat then
    print_usage ;;;
    ret (SysExit 1)
  else
    match argv !! 1%nat, argv !! 2%nat with
    | Some input_file, Some output_file =>
        trial_by_hex env input_file output_file ;;;
        ret Done
    | _, _ => raise (Exception "list index out of range")
    end.

End TrialByHexCli.

Module TrialByHexPlusCli.
Import Py Eff Proc TrialByHexPlus.
Local Open Scope py_scope.

(** [for i, r in enumerate(ORIGINAL_REVIEWERS)]: two lines each *)
Fixpoint print_originals (i : nat) (rs : list Reviewer) : M unit :=
  match rs with
  | [] => ret tt
  | r :: rest =>
      print ("  " +:+ pretty (i + 1)%nat +:+ ". " +:+ model r) ;;;
      print ("     -> " +:+ persona r) ;;;
      print_originals (S i) rest
  end.

(** [for i, r in enumerate(PLUS_REVIEWERS)]: two lines each; a dictionary
    without the key "name" raises [KeyError]. *)
Fixpoint print_plus (i : nat) (rs : list Reviewer) : M unit :=
  match rs with
  | [] => ret tt
  | r :: rest =>
      match name r with
      | None => raise (Exception "'name'")
      | Some n =>
          print ("  " +:+ pretty (i + 7)%nat +:+ ". " +:+ n) ;;;
          print ("     -> " +:+ model r) ;;;
          print_plus (S i) rest
      end
  end.

Definition print_usage : M unit :=
  print (repeat_str "=" 70) ;;;
  print "  TRIAL BY HEX+ - Enhanced Multi-Model Blind Peer Review" ;;;
  print "  12 Specialized Reviewers for Rigorous Analysis" ;;;
  print (repeat_str "=" 70) ;;;
  print (nl +:+ "Usage: python trial_by_hex_plus.py <input_file> <output_file>") ;;;
  print (nl +:+ "Examples:") ;;;
  print "  python trial_by_hex_plus.py ./thesis.md ./thesis_review.md" ;;;
  print ("  python trial_by_hex_plus.py " +:+ dq +:+ "path/to/document.txt" +:+ dq +:+ " "
         +:+ dq +:+ "path/to/review.md" +:+ dq) ;;;
  print (nl +:+ "Original Reviewers (1-6):") ;;;
  print_originals 0 ORIGINAL_REVIEWERS ;;;
  print (nl +:+ "Plus Reviewers (7-12):") ;;;
  print_plus 0 PLUS_REVIEWERS ;;;
  print (nl +:+ "Setup:") ;;;
  print "  1. pip install -r requirements.txt" ;;;
  print "  2. Set OPENROUTER_API_KEY (env var or .env file)" ;;;
  print (nl +:+ "Get your API key at: https://openrouter.ai").

Definition main (env : Env) (argv : list string) : M ending :=
  if (length argv <? 3)%nat then
    print_usage ;;;
    ret (SysExit 1)
  else
    match argv !! 1%nat, argv !! 2%nat with
    | Some input_file, Some output_file =>
        trial_by_hex_plus env input_file output_file ;;;
        ret Done
    | _, _ => raise (Exception "list index out of range")
    end.

End TrialByHexPlusCli.

(** ** .py/trial_by_hex.py: the earlier copy of the script *)

Module TrialByHexLegacy.
Import Py Eff Proc.
Local Open Scope py_scope.

Definition REVIEWERS : list TrialByHex.Reviewer := [
  {| TrialByHex.model := "anthropic/claude-sonnet-4.5";
     TrialByHex.persona := "technical specialist focused on methodology and rigor" |};
  {| TrialByHex.model := "openai/gpt-5.1";
     TrialByHex.persona := "skeptical critic looking for weaknesses and logical gaps" |};
  {| TrialByHex.model := "google/gemini-3-pro-preview";
     TrialByHex.persona := "constructive reviewer focused on practical improvement" |};
  {| TrialByHex.model := "x-ai/grok-4.1-fast:free";
     TrialByHex.persona := "accessibility reviewer checking clarity for general audience" |};
  {| TrialByHex.model := "deepseek/deepseek-chat-v3.1";
     TrialByHex.persona := "literature reviewer checking connections to existing work" |};
  {| TrialByHex.model := "openai/gpt-5-mini";
     TrialByHex.persona := "experimental design and reproducibility reviewer" |}
].

Definition FALLBACK_MODELS : list string := [
  "x-ai/grok-4.1-fast:free";
  "anthropic/claude-haiku-4.5";
  "openai/gpt-5-nano"
].

(** The second line of this prompt holds twelve spaces. *)
Definition review_system_prompt (persona : string) : string :=
  "You are a " +:+ persona +:+ " conducting a blind peer review." +:+ nl
  +:+ repeat_str " " 12 +:+ nl +:+
"Evaluate this work on:
1. Technical accuracy
2. Clarity of argument
3. Evidence quality
4. Novel contribution
5. Weaknesses and gaps

Be specific. Cite sections. Provide actionable feedback.
Do NOT reference author credentials or affiliations - this is blind review.
Focus purely on the quality of the work itself.".

Definition synthesis_system_prompt : string :=
  "Synthesize these 6 blind reviews into a single actionable summary.

OUTPUT FORMAT:
## High Consensus (4+ reviewers agree)
[Issues most reviewers flagged]

## Moderate Consensus (2-3 reviewers)
[Issues some reviewers noted]

## Minority Concerns (1 reviewer, but substantive)
[Individual concerns worth considering]

## Strengths (what reviewers praised)
[Positive feedback]

## VERDICT
PASS: Ready for publication with minor edits
REVISE: Needs significant revision, re-review recommended
REJECT: Fundamental issues need addressing

Remove any credentialism-based dismissals. Focus on substance.".

Definition REVIEW_DELIMITER : string := nl +:+ nl +:+ "---REVIEW---" +:+ nl +:+ nl.

Definition default_synthesis_model : string := "anthropic/claude-opus-4.5".

Definition passed_of (synthesis : string) : bool :=
  contains "PASS" (upper synthesis).

Definition verdict_label (passed : bool) : string :=
  if passed then "✓ PASSED" else "⚠ NEEDS REVISION".

(** The header of the report; its first three fields end in two spaces. *)
Definition report_head (input_file date : string) (passed : bool) (synthesis : string)
    : string :=
  "# Trial by Hex Review

**Document:** " +:+ input_file +:+ "  " +:+ nl +:+
"**Date:** " +:+ date +:+ "  " +:+ nl +:+
"**Verdict:** " +:+ verdict_label passed +:+ "  " +:+ nl +:+
"**Reviewers:** 6 diverse AI models via OpenRouter

---

## Synthesized Review

" +:+ synthesis +:+ "

---

## Individual Reviews

".

Definition review_section (i : nat) (reviewer : TrialByHex.Reviewer) (r : string) : string :=
  "### Reviewer " +:+ pretty (i + 1)%nat +:+ ": "
  +:+ last_segment "/" (TrialByHex.model reviewer) +:+ "
**Persona:** " +:+ TrialByHex.persona reviewer +:+ "

" +:+ r +:+ "

---

".

Definition result_dict (passed : bool) (synthesis : string) : gmap string value :=
  <["passed" := VBool passed]> (<["synthesis" := VStr synthesis]> ∅).

Definition payload (model : string) (messages : list Message) (max_tokens : Z)
    : Request :=
  {| req_model := model; req_messages := messages; req_max_tokens := max_tokens |}.

Definition review_messages (content persona : string) : list Message := [
  {| role := "system"; content := review_system_prompt persona |};
  {| role := "user"; content := content |}
].

Definition combined (reviews : list string) : string :=
  join REVIEW_DELIMITER reviews.

Definition synthesis_messages (reviews : list string) : list Message := [
  {| role := "system"; content := synthesis_system_prompt |};
  {| role := "user"; content := combined reviews |}
].

Section Run.
Context (env : Env).

(** [Path(p).read_text()] on the path as given: the file system resolves
    it.  The message of the FileNotFoundError names the path in pathlib's
    spelling, which is the path as given when that is already normalised. *)
Definition read_given (p : string) : M string :=
  fun w =>
    match files w !! resolve env p with
    | Some text => (Return text, w)
    | None =>
        match unreadable env (resolve env p) with
        | Some e => (Raise e, w)
        | None =>
            if bool_decide (resolve env p ∈ mkdirs w)
            then (Raise (Exception ("[Errno 21] Is a directory: '" +:+ p +:+ "'")), w)
            else (Raise (Exception ("[Errno 2] No such file or directory: '"
                                    +:+ p +:+ "'")), w)
        end
    end.

Definition openrouter_request (model : string) (messages : list Message)
    (max_tokens : Z) : M string :=
  post env (payload model messages max_tokens).

Fixpoint try_fallbacks (fallbacks : list string) (messages : list Message)
    (e : exn) : M string :=
  match fallbacks with
  | [] => raise e
  | fallback :: rest =>
      try_except
        (print ("    Falling back to " +:+ fallback +:+ "...") ;;;
         openrouter_request fallback messages 1500)
        (fun _ => try_fallbacks rest messages e)
  end.

Definition get_review (content persona model : string) : M string :=
  let messages := review_messages content persona in
  try_except
    (openrouter_request model messages 1500)
    (fun e => try_fallbacks FALLBACK_MODELS messages e).

Definition synthesize_reviews (reviews : list string) (synthesis_model : string)
    : M string :=
  let messages := synthesis_messages reviews in
  openrouter_request synthesis_model messages 2000.

Fixpoint review_loop (content : string) (i : nat) (panel : list TrialByHex.Reviewer)
    (reviews : list string) : M (list string) :=
  match panel with
  | [] => ret reviews
  | reviewer :: rest =>
      let model_short := last_segment "/" (TrialByHex.model reviewer) in
      print ("  [" +:+ pretty (i + 1)%nat +:+ "/6] " +:+ model_short +:+ ": "
             +:+ slice_to 40 (TrialByHex.persona reviewer) +:+ "...") ;;;
      reviews' <-
        try_except
          (review <- get_review content (TrialByHex.persona reviewer)
                       (TrialByHex.model reviewer) ;;
           print "        ✓ Complete" ;;;
           ret (reviews ++ [review])%list)
          (fun e =>
             print ("        ✗ Error: " +:+ str_exn e) ;;;
             ret (reviews ++ ["Review failed: " +:+ str_exn e])%list) ;;
      review_loop content (S i) rest reviews'
  end.

Fixpoint individual_reviews (panel : list TrialByHex.Reviewer) (i : nat)
    (reviews : list string) : M string :=
  match reviews with
  | [] => ret ""
  | r :: rest =>
      match panel !! i with
      | None => raise (Exception "list index out of range")
      | Some reviewer =>
          tail <- individual_reviews panel (S i) rest ;;
          ret (review_section i reviewer r +:+ tail)
      end
  end.

Definition print_key_help : M unit :=
  print (repeat_str "=" 60) ;;;
  print "ERROR: OPENROUTER_API_KEY environment variable not set!" ;;;
  print (repeat_str "=" 60) ;;;
  print (nl +:+ "To set it:") ;;;
  print "  Windows (PowerShell): $env:OPENROUTER_API_KEY = 'your-key-here'" ;;;
  print "  Windows (CMD): set OPENROUTER_API_KEY=your-key-here" ;;;
  print "  Linux/Mac: export OPENROUTER_API_KEY='your-key-here'" ;;;
  print (nl +:+ "To get an API key:") ;;;
  print "  1. Go to https://openrouter.ai" ;;;
  print "  2. Sign in or create account" ;;;
  print "  3. Navigate to Keys section" ;;;
  print "  4. Create new API key".

(** [trial_by_hex], with [REVIEWERS] taken as the argument [panel].  The
    paths are used as given; the file system resolves them.  No directory
    is created before the report is written: where the directory of the
    output path is missing, the write fails ([write_failure]). *)
Definition trial_by_hex_with (panel : list TrialByHex.Reviewer)
    (input_file output_file : string) : M (gmap string value) :=
  if negb (truthy (OPENROUTER_API_KEY env)) then
    print_key_help ;;;
    ret (result_dict false "API key not set")
  else
    content <- read_given input_file ;;
    print (repeat_str "=" 60) ;;;
    print "  TRIAL BY HEX - Multi-Model Blind Peer Review" ;;;
    print "  Powered by OpenRouter (Claude, GPT, Gemini, Llama)" ;;;
    print (repeat_str "=" 60) ;;;
    print (nl +:+ "Document: " +:+ input_file) ;;;
    print ("Collecting 6 diverse blind reviews..." +:+ nl) ;;;
    reviews <- review_loop content 0 panel [] ;;
    print (nl +:+ "Synthesizing reviews with Claude Opus 4.5...") ;;;
    synthesis <- synthesize_reviews reviews default_synthesis_model ;;
    let passed := passed_of synthesis in
    individual <- individual_reviews panel 0 reviews ;;
    write_text env (resolve env output_file)
      (report_head input_file (now_isoformat env) passed synthesis +:+ individual) ;;;
    print (nl +:+ repeat_str "=" 60) ;;;
    print ("  Review saved to: " +:+ output_file) ;;;
    print ("  Verdict: " +:+ verdict_label passed) ;;;
    print (repeat_str "=" 60) ;;;
    ret (result_dict passed synthesis).

Definition trial_by_hex : string -> string -> M (gmap string value) :=
  trial_by_hex_with REVIEWERS.

(** [for r in REVIEWERS: print(f"  • {r['model']}: {r['persona']}")] *)
Fixpoint print_reviewers (rs : list TrialByHex.Reviewer) : M unit :=
  match rs with
  | [] => ret tt
  | r :: rest =>
      print ("  • " +:+ TrialByHex.model r +:+ ": " +:+ TrialByHex.persona r) ;;;
      print_reviewers rest
  end.

(** The [if __name__ == "__main__":] block, on [sys.argv]. *)
Definition main (argv : list string) : M ending :=
  if (length argv <? 3)%nat then
    print (repeat_str "=" 60) ;;;
    print "  TRIAL BY HEX - Multi-Model Blind Peer Review" ;;;
    print (repeat_str "=" 60) ;;;
    print (nl +:+ "Usage: python trial_by_hex.py <input_file> <output_file>") ;;;
    print (nl +:+ "Example:") ;;;
    print ("  python trial_by_hex.py " +:+ dq +:+ "./thesis.md" +:+ dq +:+ " "
           +:+ dq +:+ "./thesis_review.md" +:+ dq) ;;;
    print (nl +:+ "Reviewers (6 diverse models):") ;;;
    print_reviewers REVIEWERS ;;;
    print (nl +:+ "Requires OPENROUTER_API_KEY environment variable.") ;;;
    print "Get your key at: https://openrouter.ai" ;;;
    ret (SysExit 1)
  else
    match argv !! 1%nat, argv !! 2%nat with
    | Some input_file, Some output_file =>
        trial_by_hex input_file output_file ;;;
        ret Done
    | _, _ => raise (Exception "list index out of range")
    end.

End Run.

End TrialByHexLegacy.

(** ** Vocabulary of the further statements *)

Module XSpec.
Import Py Eff Spec.

(** The request asks for a review of [content] by [persona]: a system
    message that holds the persona, then the document as the user message,
    unchanged, with the given token budget. *)
Definition review_request_form (content persona : string) (tokens : Z) (q : Request)
    : Prop :=
  exists system,
    req_messages q = [ {| role := "system"; content := system |};
                       {| role := "user"; content := content |} ] /\
    contains persona system = true /\
    req_max_tokens q = tokens.

(** The request carries the document as its user message, unchanged. *)
Definition sends_document (content : string) (q : Request) : Prop :=
  exists system,
    req_messages q = [ {| role := "system"; content := system |};
                       {| role := "user"; content := content |} ].

(** The primary and the first two fallbacks fail; the last fallback
    answers. *)
Definition env_last_fallback : Env :=
  posix sample_key
    (scripted [Raise (Exception "429 Too Many Requests");
               Raise (Exception "502 Bad Gateway");
               Raise (Exception "404 Not Found");
               Return "a very late review"]).

(** The line [get_review] prints before it requests a fallback model. *)
Definition announce (fallback : string) : string :=
  "    Falling back to " +:+ fallback +:+ "...".

(** The usage text of trial_by_hex.py, line by line. *)
Definition hex_usage_lines : list string :=
  ([ repeat_str "=" 60;
     "  TRIAL BY HEX - Multi-Model Blind Peer Review";
     repeat_str "=" 60;
     nl +:+ "Usage: python trial_by_hex.py <input_file> <output_file>";
     nl +:+ "Examples:";
     "  python trial_by_hex.py ./thesis.md ./thesis_review.md";
     "  python trial_by_hex.py " +:+ dq +:+ "path/to/document.txt" +:+ dq +:+ " "
       +:+ dq +:+ "path/to/review.md" +:+ dq;
     nl +:+ "Reviewers (6 diverse models):" ]
   ++ map (fun r => "  • " +:+ TrialByHex.model r +:+ ": " +:+ TrialByHex.persona r)
        TrialByHex.REVIEWERS
   ++ [ nl +:+ "Setup:";
        "  1. pip install -r requirements.txt";
        "  2. Set OPENROUTER_API_KEY (env var or .env file)";
        nl +:+ "Get your API key at: https://openrouter.ai" ])%list.

(** The usage text of trial_by_hex_plus.py: two lines for each reviewer,
    the original ones numbered from 1 and the plus ones from 7. *)
Definition plus_usage_lines : list string :=
  ([ repeat_str "=" 70;
     "  TRIAL BY HEX+ - Enhanced Multi-Model Blind Peer Review";
     "  12 Specialized Reviewers for Rigorous Analysis";
     repeat_str "=" 70;
     nl +:+ "Usage: python trial_by_hex_plus.py <input_file> <output_file>";
     nl +:+ "Examples:";
     "  python trial_by_hex_plus.py ./thesis.md ./thesis_review.md";
     "  python trial_by_hex_plus.py " +:+ dq +:+ "path/to/document.txt" +:+ dq +:+ " "
       +:+ dq +:+ "path/to/review.md" +:+ dq;
     nl +:+ "Original Reviewers (1-6):" ]
   ++ concat (imap (fun i r => [ "  " +:+ pretty (i + 1)%nat +:+ ". "
                                   +:+ TrialByHexPlus.model r;
                                 "     -> " +:+ TrialByHexPlus.persona r ])
                TrialByHexPlus.ORIGINAL_REVIEWERS)
   ++ [ nl +:+ "Plus Reviewers (7-12):" ]
   ++ concat (imap (fun i r => [ "  " +:+ pretty (i + 7)%nat +:+ ". "
                                   +:+ default "" (TrialByHexPlus.name r);
                                 "     -> " +:+ TrialByHexPlus.model r ])
                TrialByHexPlus.PLUS_REVIEWERS)
   ++ [ nl +:+ "Setup:";
        "  1. pip install -r requirements.txt";
        "  2. Set OPENROUTER_API_KEY (env var or .env file)";
        nl +:+ "Get your API key at: https://openrouter.ai" ])%list.

(** The usage text of the first version of trial_by_hex.py. *)
Definition legacy_usage_lines : list string :=
  ([ repeat_str "=" 60;
     "  TRIAL BY HEX - Multi-Model Blind Peer Review";
     repeat_str "=" 60;
     nl +:+ "Usage: python trial_by_hex.py <input_file> <output_file>";
     nl +:+ "Example:";
     "  python trial_by_hex.py " +:+ dq +:+ "./thesis.md" +:+ dq +:+ " "
       +:+ dq +:+ "./thesis_review.md" +:+ dq;
     nl +:+ "Reviewers (6 diverse models):" ]
   ++ map (fun r => "  • " +:+ TrialByHex.model r +:+ ": " +:+ TrialByHex.persona r)
        TrialByHexLegacy.REVIEWERS
   ++ [ nl +:+ "Requires OPENROUTER_API_KEY environment variable.";
        "Get your key at: https://openrouter.ai" ])%list.

(** The remote side answers every request. *)
Definition all_answer (env : Env) : Prop :=
  forall history request, exists text, net env history request = Return text.

(** Every model is up and answers with its own name. *)
Definition env_all_up : Env :=
  posix sample_key (fun _ request => Return ("review by " +:+ req_model request)).


(** A disk without the document. *)
Definition empty_disk : gmap string string := ∅.

End XSpec.

(** ** Facts about Python strings *)

Module PyFacts.
Import Py Spec.

Lemma app_cons (x : ascii) (a b : string) : String x a +:+ b = String x (a +:+ b).
Proof. reflexivity. Qed.

Lemma app_nil_l (a : string) : "" +:+ a = a.
Proof. reflexivity. Qed.

Lemma app_assoc (a b c : string) : (a +:+ b) +:+ c = a +:+ (b +:+ c).
Proof.
  induction a as [|x a IH]; [reflexivity |].
  rewrite !app_cons. now rewrite IH.
Qed.

Lemma app_nil_r (a : string) : a +:+ "" = a.
Proof.
  induction a as [|x a IH]; [reflexivity |].
  rewrite app_cons. now rewrite IH.
Qed.

Lemma app_inv_head (a b c : string) : a +:+ b = a +:+ c -> b = c.
Proof. apply String.app_inj. Qed.

Lemma startswith_app (n b : string) : startswith n (n +:+ b) = true.
Proof.
  induction n as [|x n IH]; [reflexivity |].
  rewrite app_cons. simpl. now rewrite Ascii.eqb_refl.
Qed.

Lemma startswith_app_l (n a b : string) :
  startswith n a = true -> startswith n (a +:+ b) = true.
Proof.
  revert a. induction n as [|x n IH]; intros a H; [reflexivity |].
  destruct a as [|y a]; simpl in H; [discriminate |].
  rewrite app_cons. simpl.
  destruct (Ascii.eqb x y); [auto | discriminate].
Qed.

Lemma contains_nil (h : string) : contains "" h = true.
Proof. destruct h; reflexivity. Qed.

Lemma contains_cons (n : string) (y : ascii) (h : string) :
  contains n (String y h) = startswith n (String y h) || contains n h.
Proof. reflexivity. Qed.

Lemma contains_app_l (n a b : string) :
  contains n a = true -> contains n (a +:+ b) = true.
Proof.
  induction a as [|y a IH]; intros H.
  - destruct n; [apply contains_nil | discriminate].
  - rewrite contains_cons in H. rewrite app_cons, contains_cons.
    apply orb_true_iff in H as [H|H].
    + rewrite <- app_cons. rewrite (startswith_app_l _ _ _ H). reflexivity.
    + rewrite (IH H). apply orb_true_r.
Qed.

Lemma contains_app_r (n a b : string) :
  contains n b = true -> contains n (a +:+ b) = true.
Proof.
  intros H. induction a as [|y a IH]; [exact H |].
  rewrite app_cons, contains_cons, IH. apply orb_true_r.
Qed.

(** A character that does not occur in the needle cuts every occurrence:
    the needle is found in [a ++ c ++ b] only inside [a] or inside [b]. *)
Lemma startswith_cut (n a b : string) (c : ascii) :
  occurs c n = false ->
  startswith n (a +:+ String c b) = startswith n a.
Proof.
  revert a. induction n as [|x n IH]; intros a Hc; [reflexivity |].
  simpl in Hc. apply orb_false_iff in Hc as [Hx Hn].
  destruct a as [|y a].
  - rewrite app_nil_l. simpl. now rewrite Hx.
  - rewrite app_cons. simpl. destruct (Ascii.eqb x y); [auto | reflexivity].
Qed.

Lemma contains_cut (n a b : string) (c : ascii) :
  n <> "" -> occurs c n = false ->
  contains n (a +:+ String c b) = contains n a || contains n b.
Proof.
  intros Hn Hc. induction a as [|y a IH].
  - rewrite app_nil_l, contains_cons.
    destruct n as [|x n]; [congruence |].
    simpl in Hc. apply orb_false_iff in Hc as [Hx _].
    simpl startswith. rewrite Hx. reflexivity.
  - rewrite app_cons, !contains_cons, IH.
    rewrite <- app_cons, startswith_cut by assumption.
    now rewrite orb_assoc.
Qed.

End PyFacts.

Module JoinFacts.
Import Py Spec PyFacts.

Abbreviation DELIM := TrialByHex.REVIEW_DELIMITER.

Lemma delimiter_has_marker (a b : string) : contains marker (a +:+ DELIM +:+ b) = true.
Proof. apply contains_app_r, contains_app_l. reflexivity. Qed.

(** No review text without the marker ends where a delimiter could start
    earlier than the real one: the delimiter overlaps itself only on its
    newlines, and the marker between them cannot be supplied by the text. *)
Lemma delimiter_first (y r r' : string) :
  y <> "" -> marker_free y ->
  DELIM +:+ r = y +:+ DELIM +:+ r' -> False.
Proof.
  intros Hne Hy H. unfold marker_free in Hy.
  assert (E : DELIM = "

---REVIEW---

") by reflexivity.
  rewrite E in H. clear E. rewrite !app_cons, app_nil_l in H.
  destruct y as [|c y]; [congruence |]. clear Hne.
  rewrite app_cons in H; injection H as Hc H; subst c.
  do 15 (destruct y as [|c y];
    [ rewrite ?app_nil_l, ?app_cons in H; try discriminate H;
      try (vm_compute in Hy; discriminate Hy)
    | rewrite app_cons in H; injection H as Hc H; subst c ]).
  assert (Hy' : contains marker ("" +:+ DELIM +:+ y) = false) by exact Hy.
  now rewrite delimiter_has_marker in Hy'.
Qed.

Lemma marker_free_tail (c : ascii) (x : string) :
  marker_free (String c x) -> marker_free x.
Proof.
  unfold marker_free. rewrite contains_cons. intros H.
  now apply orb_false_iff in H as [_ H].
Qed.

Lemma delimiter_split_unique (x y r r' : string) :
  marker_free x -> marker_free y ->
  x +:+ DELIM +:+ r = y +:+ DELIM +:+ r' -> x = y /\ r = r'.
Proof.
  revert y. induction x as [|c x IH]; intros [|d y] Hx Hy H.
  - split; [reflexivity |]. rewrite !app_nil_l in H. now apply app_inv_head in H.
  - rewrite app_nil_l in H.
    destruct (delimiter_first (String d y) r r'); [discriminate | assumption ..].
  - rewrite app_nil_l in H. symmetry in H.
    destruct (delimiter_first (String c x) r' r); [discriminate | assumption ..].
  - rewrite !app_cons in H. injection H as -> H.
    apply marker_free_tail in Hx, Hy.
    destruct (IH y Hx Hy H) as [-> ->]. split; reflexivity.
Qed.

Lemma join_cons (sep p : string) (rest : list string) :
  rest <> [] -> join sep (p :: rest) = p +:+ sep +:+ join sep rest.
Proof. destruct rest; [congruence | reflexivity]. Qed.

(** Joining with the delimiter loses nothing on non-empty lists of texts
    that do not contain the marker. *)
Lemma join_delimiter_inj (xs ys : list string) :
  xs <> [] -> ys <> [] ->
  Forall marker_free xs -> Forall marker_free ys ->
  join DELIM xs = join DELIM ys -> xs = ys.
Proof.
  revert ys. induction xs as [|x xs IH]; intros ys Hxs Hys Fx Fy H; [congruence |].
  destruct ys as [|y ys]; [congruence |].
  apply Forall_cons_iff in Fx as [Hx Fx]. apply Forall_cons_iff in Fy as [Hy Fy].
  destruct xs as [|x2 xs], ys as [|y2 ys].
  - simpl in H. now subst.
  - rewrite (join_cons _ y) in H by discriminate. simpl in H. subst x.
    unfold marker_free in Hx. rewrite <- (app_nil_l (y +:+ _)) in Hx.
    rewrite <- app_assoc, app_nil_l in Hx.
    now rewrite delimiter_has_marker in Hx.
  - rewrite (join_cons _ x) in H by discriminate. simpl in H. subst y.
    unfold marker_free in Hy. now rewrite delimiter_has_marker in Hy.
  - rewrite (join_cons _ x), (join_cons _ y) in H by discriminate.
    apply delimiter_split_unique in H as [-> H]; [| assumption ..].
    f_equal. apply IH; [discriminate | discriminate | assumption ..].
Qed.

End JoinFacts.

Module CaseFacts.
Import Py Spec PyFacts.

Lemma upper_char_nocase (a c : ascii) :
  is_upper a = true -> Ascii.eqb a (upper_char c) = eqb_nocase a c.
Proof.
  destruct a as [[] [] [] [] [] [] [] []]; try discriminate; intros _;
    destruct c as [[] [] [] [] [] [] [] []]; reflexivity.
Qed.

Lemma startswith_upper (n s : string) :
  upper_needle n -> startswith n (upper s) = startswith_nocase n s.
Proof.
  revert s. induction n as [|a n IH]; intros s Hn; [reflexivity |].
  destruct s as [|c s]; [reflexivity |]. simpl.
  rewrite upper_char_nocase.
  - rewrite IH; [now destruct (eqb_nocase a c) |].
    intros x Hx. apply Hn. simpl. rewrite Hx. apply orb_true_r.
  - apply Hn. simpl. now rewrite Ascii.eqb_refl.
Qed.

Lemma contains_upper (n s : string) :
  upper_needle n -> contains n (upper s) = contains_nocase n s.
Proof.
  intros Hn. induction s as [|c s IH].
  - now destruct n.
  - change (upper (String c s)) with (String (upper_char c) (upper s)).
    rewrite contains_cons, IH.
    change (String (upper_char c) (upper s)) with (upper (String c s)).
    now rewrite startswith_upper.
Qed.

Lemma split_cons_other (sep c : ascii) (s : string) :
  Ascii.eqb c sep = false ->
  split sep (String c s) =
    match split sep s with
    | piece :: pieces => String c piece :: pieces
    | [] => [String c ""]
    end.
Proof. intros H. simpl. now rewrite H. Qed.

(** The first piece of a split ends at the first separator. *)
Lemma split_first (sep : ascii) (a b : string) :
  occurs sep a = false ->
  split sep (a +:+ String sep b) = a :: split sep b.
Proof.
  induction a as [|c a IH]; intros H.
  - rewrite app_nil_l. simpl. now rewrite Ascii.eqb_refl.
  - simpl in H. apply orb_false_iff in H as [Hc Ha].
    rewrite app_cons, split_cons_other by assumption.
    now rewrite IH.
Qed.

Lemma occurs_app (c : ascii) (a b : string) :
  occurs c (a +:+ b) = occurs c a || occurs c b.
Proof.
  induction a as [|x a IH]; [reflexivity |].
  rewrite app_cons. simpl. now rewrite IH, orb_assoc.
Qed.

End CaseFacts.

(** ** Facts about the monad of statements *)

Module EffFacts.
Import Py Eff Spec.

Create HintDb eff.

Lemma bind_return {A B} (m : M A) (k : A -> M B) w a w1 :
  m w = (Return a, w1) -> bind m k w = k a w1.
Proof. intros H. unfold bind. now rewrite H. Qed.

Lemma bind_raise {A B} (m : M A) (k : A -> M B) w e w1 :
  m w = (Raise e, w1) -> bind m k w = (Raise e, w1).
Proof. intros H. unfold bind. now rewrite H. Qed.

Lemma try_return {A} (m : M A) (h : exn -> M A) w a w1 :
  m w = (Return a, w1) -> try_except m h w = (Return a, w1).
Proof. intros H. unfold try_except. now rewrite H. Qed.

Lemma try_raise {A} (m : M A) (h : exn -> M A) w e w1 :
  m w = (Raise e, w1) -> try_except m h w = h e w1.
Proof. intros H. unfold try_except. now rewrite H. Qed.

Lemma bind_print {B} line (k : unit -> M B) w :
  bind (print line) k w = k tt (say line w).
Proof. reflexivity. Qed.

Lemma sent_say line w : sent (say line w) = sent w.
Proof. reflexivity. Qed.

Lemma files_say line w : files (say line w) = files w.
Proof. reflexivity. Qed.

Lemma mkdirs_say line w : mkdirs (say line w) = mkdirs w.
Proof. reflexivity. Qed.

Lemma sent_log_request q w : sent (log_request q w) = (sent w ++ [q])%list.
Proof. reflexivity. Qed.

(** *** The file system *)

Lemma path_exists_file env p w text :
  files w !! p = Some text -> path_exists env p w = (Return true, w).
Proof.
  intros H. unfold path_exists.
  rewrite bool_decide_eq_true_2 by (rewrite H; eauto). reflexivity.
Qed.

Lemma path_exists_unreadable env p w e :
  unreadable env p = Some e -> path_exists env p w = (Return true, w).
Proof.
  intros H. unfold path_exists.
  rewrite (bool_decide_eq_true_2 (is_Some (unreadable env p))) by (rewrite H; eauto).
  now rewrite orb_true_r.
Qed.

Lemma path_exists_nothing env p w :
  files w !! p = None -> unreadable env p = None -> p ∉ mkdirs w ->
  path_exists env p w = (Return false, w).
Proof.
  intros Hf Hu Hd. unfold path_exists.
  rewrite !bool_decide_eq_false_2; [reflexivity | exact Hd | |].
  - rewrite Hu. intros [x Hx]. discriminate Hx.
  - rewrite Hf. intros [x Hx]. discriminate Hx.
Qed.

Lemma read_text_file env p w text :
  files w !! p = Some text -> read_text env p w = (Return text, w).
Proof. intros H. unfold read_text. now rewrite H. Qed.

Lemma read_text_unreadable env p w e :
  files w !! p = None -> unreadable env p = Some e ->
  read_text env p w = (Raise e, w).
Proof. intros Hf Hu. unfold read_text. now rewrite Hf, Hu. Qed.

(** [mkdir] ensures the directory or raises and leaves the world as it
    was. *)
Lemma mkdir_cases env p w :
  mkdir env p w = (Return tt, ensure_dir p w)
  \/ exists e, mkdir env p w = (Raise e, w).
Proof.
  unfold mkdir. destruct (bool_decide (is_Some (files w !! p))); [right; eauto |].
  destruct (mkdir_failure env p) as [e|]; [right; eauto | now left].
Qed.

(** [write_text] stores the text, or raises; a failed write changes
    nothing but, at most, the file at its path. *)
Lemma write_text_cases env p text w :
  write_text env p text w = (Return tt, store p text w)
  \/ exists e w',
       write_text env p text w = (Raise e, w') /\
       sent w' = sent w /\ stdout w' = stdout w /\ mkdirs w' = mkdirs w /\
       (files w' = files w \/ exists partial, files w' = <[p := partial]> (files w)).
Proof.
  unfold write_text. destruct (bool_decide (p ∈ mkdirs w)).
  - right. eexists _, w. repeat split. now left.
  - destruct (write_failure env p text) as [[e [partial|]]|].
    + right. exists e, (store p partial w). repeat split. right. now exists partial.
    + right. exists e, w. repeat split. now left.
    + now left.
Qed.

(** *** Files and directories *)

Lemma disk_kept_ret {A} (a : A) : disk_kept (ret a).
Proof. now intros w. Qed.

Lemma disk_kept_raise {A} e : disk_kept (@raise A e).
Proof. now intros w. Qed.

Lemma disk_kept_print line : disk_kept (print line).
Proof. now intros w. Qed.

Lemma disk_kept_post env q : disk_kept (post env q).
Proof. now intros w. Qed.

Lemma disk_kept_bind {A B} (m : M A) (k : A -> M B) :
  disk_kept m -> (forall a, disk_kept (k a)) -> disk_kept (bind m k).
Proof.
  intros Hm Hk w. unfold bind. specialize (Hm w).
  destruct (m w) as [[a|e] w1]; simpl in *; [| assumption].
  destruct (Hk a w1) as [-> ->]. assumption.
Qed.

Lemma disk_kept_try {A} (m : M A) (h : exn -> M A) :
  disk_kept m -> (forall e, disk_kept (h e)) -> disk_kept (try_except m h).
Proof.
  intros Hm Hh w. unfold try_except. specialize (Hm w).
  destruct (m w) as [[a|e] w1]; simpl in *; [assumption |].
  destruct (Hh e w1) as [-> ->]. assumption.
Qed.

#[export] Hint Resolve disk_kept_ret disk_kept_raise disk_kept_print disk_kept_post
  disk_kept_bind disk_kept_try : eff.

End EffFacts.

(** ** trial_by_hex.py: the fallback chain *)

Module HexFacts.
Import Py Eff Spec EffFacts TrialByHex.

Section Run.
Context (env : Env).

(** One turn of the fallback loop. *)
Lemma try_fallbacks_cons fallback rest messages e w :
  try_fallbacks env (fallback :: rest) messages e w =
    let w1 := log_request (payload fallback messages 1500)
                (say ("    Falling back to " +:+ fallback +:+ "...") w) in
    match net env (sent w) (payload fallback messages 1500) with
    | Return text => (Return text, w1)
    | Raise _ => try_fallbacks env rest messages e w1
    end.
Proof. reflexivity. Qed.

Lemma get_review_unfold content persona mdl w :
  get_review env content persona mdl w =
    let w1 := log_request (payload mdl (review_messages content persona) 1500) w in
    match net env (sent w) (payload mdl (review_messages content persona) 1500) with
    | Return text => (Return text, w1)
    | Raise e => try_fallbacks env FALLBACK_MODELS (review_messages content persona) e w1
    end.
Proof. reflexivity. Qed.

Lemma try_fallbacks_exhausted fallbacks messages e w :
  (forall k fallback, fallbacks !! k = Some fallback ->
     failed (net env (sent w ++ map (fun m => payload m messages 1500) (take k fallbacks))
                     (payload fallback messages 1500))) ->
  (try_fallbacks env fallbacks messages e w).1 = Raise e /\
  sent (try_fallbacks env fallbacks messages e w).2
  = (sent w ++ map (fun m => payload m messages 1500) fallbacks)%list.
Proof.
  revert w. induction fallbacks as [|fallback rest IH]; intros w H.
  - simpl. now rewrite app_nil_r.
  - rewrite try_fallbacks_cons. cbv zeta.
    destruct (H 0%nat fallback eq_refl) as [e' He']. simpl in He'.
    rewrite app_nil_r in He'. rewrite He'.
    match goal with |- context [try_fallbacks env rest messages e ?w1] =>
      destruct (IH w1) as [Hr Hs] end.
    + intros k fb Hk. specialize (H (S k) fb Hk). simpl in *.
      now rewrite <- app_assoc.
    + split; [exact Hr |]. rewrite Hs. simpl. now rewrite <- app_assoc.
Qed.

(** How far the fallback loop gets: the first [n] models of the list are
    requested, in order; the loop stops before the end only at a success. *)
Lemma try_fallbacks_trace fallbacks messages e w :
  exists n,
    n <= length fallbacks /\ (fallbacks <> [] -> 1 <= n) /\
    sent (try_fallbacks env fallbacks messages e w).2
    = (sent w ++ map (fun m => payload m messages 1500) (take n fallbacks))%list /\
    (forall k fallback, S k < n -> fallbacks !! k = Some fallback ->
       failed (net env (sent w ++ map (fun m => payload m messages 1500) (take k fallbacks))
                       (payload fallback messages 1500))) /\
    (n < length fallbacks ->
       exists fallback text,
         fallbacks !! (n - 1) = Some fallback /\
         net env (sent w ++ map (fun m => payload m messages 1500) (take (n - 1) fallbacks))
                 (payload fallback messages 1500) = Return text /\
         (try_fallbacks env fallbacks messages e w).1 = Return text).
Proof.
  revert w. induction fallbacks as [|fallback rest IH]; intros w.
  - exists 0. simpl. rewrite app_nil_r. repeat split; try lia; congruence.
  - rewrite try_fallbacks_cons. cbv zeta.
    destruct (net env (sent w) (payload fallback messages 1500)) as [text|e'] eqn:E.
    + exists 1. simpl. repeat split; try lia.
      intros _. exists fallback, text. simpl. now rewrite app_nil_r.
    + match goal with |- context [try_fallbacks env rest messages e ?w1] =>
        destruct (IH w1) as (n & Hn & Hpos & Hs & Hearlier & Hstop) end.
      exists (S n). simpl in *. repeat split; try lia.
      * rewrite Hs. now rewrite <- app_assoc.
      * intros [|k] fb Hk Hfb; simpl in *.
        -- injection Hfb as <-. rewrite app_nil_r. now exists e'.
        -- specialize (Hearlier k fb ltac:(lia) Hfb).
           now rewrite <- app_assoc in Hearlier.
      * intros Hlt. destruct Hstop as (fb & text & Hfb & Hnet & Hr); [lia |].
        assert (rest <> []) by (destruct rest; [simpl in *; lia | discriminate]).
        destruct n as [|n]; [specialize (Hpos ltac:(assumption)); lia |].
        exists fb, text. simpl in *. rewrite Nat.sub_0_r in *.
        rewrite <- app_assoc in Hnet. auto.
Qed.

(** The outcome of the fallback loop and the requests it sends depend on
    the world only through the requests sent so far. *)
Lemma try_fallbacks_sent_only fallbacks messages e w1 w2 :
  sent w1 = sent w2 ->
  (try_fallbacks env fallbacks messages e w1).1
  = (try_fallbacks env fallbacks messages e w2).1 /\
  sent (try_fallbacks env fallbacks messages e w1).2
  = sent (try_fallbacks env fallbacks messages e w2).2.
Proof.
  revert w1 w2. induction fallbacks as [|fallback rest IH]; intros w1 w2 E.
  - now simpl.
  - rewrite !try_fallbacks_cons. cbv zeta. rewrite E.
    destruct (net env (sent w2) (payload fallback messages 1500)).
    + simpl. now rewrite E.
    + apply IH. simpl. now rewrite E.
Qed.

Lemma get_review_sent_only content persona mdl w1 w2 :
  sent w1 = sent w2 ->
  (get_review env content persona mdl w1).1 = (get_review env content persona mdl w2).1 /\
  sent (get_review env content persona mdl w1).2
  = sent (get_review env content persona mdl w2).2.
Proof.
  intros E. rewrite !get_review_unfold. cbv zeta. rewrite E.
  destruct (net env (sent w2) _).
  - simpl. now rewrite E.
  - apply try_fallbacks_sent_only. simpl. now rewrite E.
Qed.

Lemma try_fallbacks_disk_kept fallbacks messages e :
  disk_kept (try_fallbacks env fallbacks messages e).
Proof.
  induction fallbacks as [|fallback rest IH]; simpl; auto 6 with eff.
  apply disk_kept_try; [| auto].
  apply disk_kept_bind; [auto with eff |]. intros _. apply disk_kept_post.
Qed.

Lemma get_review_disk_kept content persona mdl :
  disk_kept (get_review env content persona mdl).
Proof.
  apply disk_kept_try; [apply disk_kept_post |].
  intros e. apply try_fallbacks_disk_kept.
Qed.

(** One turn of the dispatch loop: whatever [get_review] does, its text or
    its placeholder is appended and the loop goes on. *)
Lemma review_loop_cons content i reviewer w :
  exists w2,
    sent w2 = sent (get_review env content (persona reviewer) (model reviewer) w).2 /\
    files w2 = files w /\ mkdirs w2 = mkdirs w /\
    forall rest reviews,
      review_loop env content i (reviewer :: rest) reviews w =
      review_loop env content (S i) rest
        (reviews ++ [outcome_text
           (get_review env content (persona reviewer) (model reviewer) w).1])%list w2.
Proof.
  set (line := "  [" +:+ pretty (i + 1)%nat +:+ "/6] " +:+ last_segment "/" (model reviewer)
               +:+ ": " +:+ slice_to 40 (persona reviewer) +:+ "...").
  set (w0 := say line w).
  destruct (get_review_sent_only content (persona reviewer) (model reviewer) w0 w eq_refl)
    as [Hr Hs].
  destruct (get_review_disk_kept content (persona reviewer) (model reviewer) w0) as [Hf Hm].
  destruct (get_review env content (persona reviewer) (model reviewer) w0)
    as [[review|e] w1] eqn:E; simpl in Hr, Hs, Hf, Hm; rewrite <- Hr, <- Hs.
  - exists (say "        ✓ Complete" w1). repeat split; try assumption.
    intros rest reviews. cbn [review_loop].
    erewrite bind_return; [| reflexivity].
    erewrite bind_return; [reflexivity |].
    apply try_return. erewrite bind_return; [| exact E]. reflexivity.
  - exists (say ("        ✗ Error: " +:+ str_exn e) w1). repeat split; try assumption.
    intros rest reviews. cbn [review_loop].
    erewrite bind_return; [| reflexivity].
    erewrite bind_return; [reflexivity |].
    erewrite try_raise; [| erewrite bind_raise; [reflexivity | exact E]].
    reflexivity.
Qed.

(** The dispatch loop never raises: it returns the reviews it was given
    followed by one text for each reviewer, and touches no file. *)
Lemma review_loop_run content panel i reviews w :
  exists texts w',
    review_loop env content i panel reviews w = (Return (reviews ++ texts)%list, w') /\
    length texts = length panel /\ files w' = files w /\ mkdirs w' = mkdirs w.
Proof.
  revert i reviews w. induction panel as [|reviewer rest IH]; intros i reviews w.
  - exists [], w. simpl. now rewrite app_nil_r.
  - destruct (review_loop_cons content i reviewer w) as (w2 & _ & Hf & Hm & Hstep).
    rewrite Hstep.
    destruct (IH (S i) (reviews ++ [outcome_text
      (get_review env content (persona reviewer) (model reviewer) w).1])%list w2)
      as (texts & w' & Hrun & Hlen & Hf' & Hm').
    eexists (_ :: texts), w'. rewrite Hrun, <- app_assoc. simpl.
    repeat split; congruence.
Qed.

(** Dispatching a panel is dispatching its first part, then the rest. *)
Lemma review_loop_app content panel1 panel2 i reviews w :
  review_loop env content i (panel1 ++ panel2) reviews w =
  bind (review_loop env content i panel1 reviews)
       (fun reviews1 => review_loop env content (i + length panel1) panel2 reviews1) w.
Proof.
  revert i reviews w. induction panel1 as [|reviewer rest IH]; intros i reviews w.
  - simpl. now rewrite Nat.add_0_r.
  - destruct (review_loop_cons content i reviewer w) as (w2 & _ & _ & _ & Hstep).
    rewrite <- app_comm_cons, Hstep, IH. unfold bind. rewrite Hstep.
    simpl length. now rewrite Nat.add_succ_r.
Qed.

(** The text at position [i] is the outcome of reviewer [i], requested
    after the first [i] reviewers were dispatched. *)
Lemma review_loop_position content panel w reviews w' i reviewer :
  review_loop env content 0 panel [] w = (Return reviews, w') ->
  panel !! i = Some reviewer ->
  exists wi,
    review_loop env content 0 (take i panel) [] w = (Return (take i reviews), wi) /\
    reviews !! i = Some (outcome_text
      (get_review env content (persona reviewer) (model reviewer) wi).1).
Proof.
  intros Hrun Hi.
  assert (Hlen : i < length panel) by (eapply lookup_lt_Some; eassumption).
  rewrite <- (take_drop_middle panel i reviewer Hi), review_loop_app in Hrun.
  destruct (review_loop_run content (take i panel) 0 [] w)
    as (texts1 & wi & Hrun1 & Hlen1 & _).
  rewrite (bind_return _ _ _ _ _ Hrun1) in Hrun. rewrite app_nil_l in Hrun1, Hrun.
  destruct (review_loop_cons content (0 + length (take i panel)) reviewer wi)
    as (w2 & _ & _ & _ & Hstep).
  rewrite Hstep in Hrun.
  match type of Hrun with review_loop _ _ ?j ?p ?acc _ = _ =>
    destruct (review_loop_run content p j acc w2) as (texts2 & w3 & Hrun2 & _) end.
  rewrite Hrun2 in Hrun. injection Hrun as <- <-.
  rewrite length_take in Hlen1.
  assert (Hi1 : length texts1 = i) by lia.
  exists wi. split.
  - rewrite Hrun1. f_equal. f_equal. rewrite <- app_assoc.
    rewrite take_app_length'; [reflexivity | lia].
  - rewrite <- app_assoc. rewrite lookup_app_r by lia.
    now replace (i - length texts1) with 0 by lia.
Qed.

End Run.
End HexFacts.

(** ** trial_by_hex.py: the run *)

Module HexRun.
Import Py Eff Spec EffFacts TrialByHex HexFacts.

Section Run.
Context (env : Env).

(** The banner only prints; what follows is the dispatch loop. *)
Lemma collect_reviews_loop panel input_path content w :
  exists wb,
    sent wb = sent w /\ files wb = files w /\ mkdirs wb = mkdirs w /\
    collect_reviews env panel input_path content w
    = review_loop env content 0 panel [] wb.
Proof.
  unfold collect_reviews. rewrite !bind_print.
  eexists. split; [| split; [| split; [| reflexivity]]]; reflexivity.
Qed.

Lemma collect_reviews_run panel input_path content w :
  exists reviews w1,
    collect_reviews env panel input_path content w = (Return reviews, w1) /\
    length reviews = length panel /\ files w1 = files w /\ mkdirs w1 = mkdirs w.
Proof.
  destruct (collect_reviews_loop panel input_path content w) as (wb & _ & Hf & Hm & ->).
  destruct (review_loop_run env content panel 0 [] wb) as (texts & w1 & -> & Hlen & Hf1 & Hm1).
  exists texts, w1. repeat split; congruence.
Qed.

Lemma synthesize_reviews_unfold reviews synthesis_model w :
  synthesize_reviews env reviews synthesis_model w =
  (net env (sent w) (payload synthesis_model (synthesis_messages reviews) 2000),
   log_request (payload synthesis_model (synthesis_messages reviews) 2000) w).
Proof. reflexivity. Qed.

(** The generator over [enumerate(reviews)] finds a reviewer at every
    index as long as there are no more reviews than reviewers. *)
Lemma individual_reviews_run panel i reviews :
  i + length reviews <= length panel ->
  exists text, forall w, individual_reviews panel i reviews w = (Return text, w).
Proof.
  revert i. induction reviews as [|r rest IH]; intros i Hlen.
  - now exists "".
  - simpl in Hlen. destruct (lookup_lt_is_Some_2 panel i) as [reviewer Hi]; [lia |].
    destruct (IH (S i)) as [tail Htail]; [lia |].
    exists (review_section i reviewer r +:+ tail). intros w.
    simpl. rewrite Hi. erewrite bind_return; [| apply Htail]. reflexivity.
Qed.

(** The statements of a configured run up to the synthesis call. *)
Lemma trial_by_hex_to_synthesis panel input_file output_file content w reviews w1 :
  truthy (OPENROUTER_API_KEY env) = true ->
  files w !! resolve env input_file = Some content ->
  collect_reviews env panel (resolve env input_file) content w = (Return reviews, w1) ->
  trial_by_hex_with env panel input_file output_file w =
  bind (synthesize_reviews env reviews default_synthesis_model)
    (fun synthesis =>
       let passed := passed_of synthesis in
       let output_path := resolve env output_file in
       bind (mkdir env (path_parent env output_path)) (fun _ =>
       bind (individual_reviews panel 0 reviews) (fun individual =>
       bind (write_text env output_path
               (report_head (path_name env (resolve env input_file))
                  (now_isoformat env) passed synthesis +:+ individual)) (fun _ =>
       bind (print (nl +:+ repeat_str "=" 60)) (fun _ =>
       bind (print ("  Review saved to: " +:+ output_path)) (fun _ =>
       bind (print ("  Verdict: " +:+ verdict_label passed)) (fun _ =>
       bind (print (repeat_str "=" 60)) (fun _ =>
       ret (result_dict passed synthesis)))))))))
    (say (nl +:+ "Synthesizing reviews with Claude Opus 4.5...") w1).
Proof.
  intros Hkey Hfile Hcollect. unfold trial_by_hex_with. rewrite Hkey. cbn [negb].
  erewrite bind_return; [| exact (path_exists_file _ _ _ _ Hfile)]. cbn [negb].
  erewrite bind_return; [| exact (read_text_file _ _ _ _ Hfile)].
  erewrite bind_return; [| exact Hcollect].
  rewrite bind_print. reflexivity.
Qed.

(** A failure of the synthesis call ends the run: nothing after it is
    executed. *)
Lemma trial_by_hex_synthesis_fails panel input_file output_file content w reviews w1 e :
  truthy (OPENROUTER_API_KEY env) = true ->
  files w !! resolve env input_file = Some content ->
  collect_reviews env panel (resolve env input_file) content w = (Return reviews, w1) ->
  net env (sent w1) (payload default_synthesis_model (synthesis_messages reviews) 2000)
  = Raise e ->
  exists w',
    trial_by_hex_with env panel input_file output_file w = (Raise e, w') /\
    files w' = files w /\ mkdirs w' = mkdirs w.
Proof.
  intros Hkey Hfile Hcollect Hnet.
  rewrite (trial_by_hex_to_synthesis _ _ _ _ _ _ _ Hkey Hfile Hcollect).
  destruct (collect_reviews_run panel (resolve env input_file) content w)
    as (reviews' & w1' & Hrun & _ & Hf & Hm).
  rewrite Hcollect in Hrun. injection Hrun as <- <-.
  erewrite bind_raise.
  2:{ rewrite synthesize_reviews_unfold, sent_say, Hnet. reflexivity. }
  eexists. split; [reflexivity |]. split; assumption.
Qed.

(** When the synthesis call returns, the run ensures the directory and
    writes the report; it returns the dictionary unless one of the two
    fails, and then only the output path and its directory can have
    changed. *)
Lemma trial_by_hex_after_synthesis panel input_file output_file content w reviews w1
    synthesis :
  truthy (OPENROUTER_API_KEY env) = true ->
  files w !! resolve env input_file = Some content ->
  collect_reviews env panel (resolve env input_file) content w = (Return reviews, w1) ->
  net env (sent w1) (payload default_synthesis_model (synthesis_messages reviews) 2000)
  = Return synthesis ->
  exists individual,
    (forall w0, individual_reviews panel 0 reviews w0 = (Return individual, w0)) /\
    sent (trial_by_hex_with env panel input_file output_file w).2
    = (sent w1 ++ [payload default_synthesis_model (synthesis_messages reviews) 2000])%list /\
    (((trial_by_hex_with env panel input_file output_file w).1
      = Return (result_dict (passed_of synthesis) synthesis) /\
      files (trial_by_hex_with env panel input_file output_file w).2
      = <[resolve env output_file :=
            report_head (path_name env (resolve env input_file))
              (now_isoformat env) (passed_of synthesis) synthesis
            +:+ individual]> (files w) /\
      mkdirs (trial_by_hex_with env panel input_file output_file w).2
      = (mkdirs w ++ [path_parent env (resolve env output_file)])%list)
     \/
     (exists e,
        (trial_by_hex_with env panel input_file output_file w).1 = Raise e /\
        (files (trial_by_hex_with env panel input_file output_file w).2 = files w
         \/ exists partial,
              files (trial_by_hex_with env panel input_file output_file w).2
              = <[resolve env output_file := partial]> (files w)) /\
        (mkdirs (trial_by_hex_with env panel input_file output_file w).2 = mkdirs w
         \/ mkdirs (trial_by_hex_with env panel input_file output_file w).2
            = (mkdirs w ++ [path_parent env (resolve env output_file)])%list))).
Proof.
  intros Hkey Hfile Hcollect Hnet.
  rewrite (trial_by_hex_to_synthesis _ _ _ _ _ _ _ Hkey Hfile Hcollect).
  destruct (collect_reviews_run panel (resolve env input_file) content w)
    as (reviews' & w1' & Hrun & Hlen & Hf & Hm).
  rewrite Hcollect in Hrun. injection Hrun as <- <-.
  destruct (individual_reviews_run panel 0 reviews) as [individual Hind]; [simpl; lia |].
  exists individual. split; [exact Hind |].
  erewrite bind_return.
  2:{ rewrite synthesize_reviews_unfold, sent_say, Hnet. reflexivity. }
  cbv zeta.
  match goal with |- context [bind (mkdir env ?dir) _ ?w2] =>
    destruct (mkdir_cases env dir w2) as [Hmk | [e Hmk]] end.
  - erewrite bind_return; [| exact Hmk].
    erewrite bind_return; [| apply Hind].
    match goal with |- context [bind (write_text env ?p ?text) _ ?w3] =>
      destruct (write_text_cases env p text w3)
        as [Hwr | (e & w4 & Hwr & Hs4 & _ & Hm4 & Hf4)] end.
    + erewrite bind_return; [| exact Hwr].
      rewrite !bind_print. cbn [fst snd ret].
      split; [reflexivity |]. left. split; [reflexivity |].
      simpl. rewrite Hf, Hm. split; reflexivity.
    + erewrite bind_raise; [| exact Hwr]. cbn [fst snd].
      split; [rewrite Hs4; reflexivity |]. right. exists e. split; [reflexivity |].
      split.
      * destruct Hf4 as [Hf4 | [partial Hf4]]; rewrite Hf4; simpl; rewrite Hf.
        -- now left.
        -- right. now exists partial.
      * right. rewrite Hm4. simpl. now rewrite Hm.
  - erewrite bind_raise; [| exact Hmk]. cbn [fst snd].
    split; [reflexivity |]. right. exists e. split; [reflexivity |].
    simpl. rewrite Hf, Hm. split; now left.
Qed.

End Run.
End HexRun.

(** ** trial_by_hex_plus.py: the fallback chain, the loop and the run *)

Module PlusFacts.
Import Py Eff Spec EffFacts TrialByHexPlus.

Section Run.
Context (env : Env).

(** One turn of the fallback loop. *)
Lemma plus_try_fallbacks_cons fallback rest messages e w :
  try_fallbacks env (fallback :: rest) messages e w =
    let w1 := log_request (payload fallback messages 2000)
                (say ("    Falling back to " +:+ fallback +:+ "...") w) in
    match net env (sent w) (payload fallback messages 2000) with
    | Return text => (Return text, w1)
    | Raise _ => try_fallbacks env rest messages e w1
    end.
Proof. reflexivity. Qed.

Lemma plus_get_review_unfold content reviewer w :
  get_review env content reviewer w =
    let w1 := log_request (payload (model reviewer) (review_messages content reviewer) 2000) w in
    match net env (sent w) (payload (model reviewer) (review_messages content reviewer) 2000) with
    | Return text => (Return text, w1)
    | Raise e => try_fallbacks env FALLBACK_MODELS (review_messages content reviewer) e w1
    end.
Proof. reflexivity. Qed.

Lemma plus_try_fallbacks_exhausted fallbacks messages e w :
  (forall k fallback, fallbacks !! k = Some fallback ->
     failed (net env (sent w ++ map (fun m => payload m messages 2000) (take k fallbacks))
                     (payload fallback messages 2000))) ->
  (try_fallbacks env fallbacks messages e w).1 = Raise e /\
  sent (try_fallbacks env fallbacks messages e w).2
  = (sent w ++ map (fun m => payload m messages 2000) fallbacks)%list.
Proof.
  revert w. induction fallbacks as [|fallback rest IH]; intros w H.
  - simpl. now rewrite app_nil_r.
  - rewrite plus_try_fallbacks_cons. cbv zeta.
    destruct (H 0%nat fallback eq_refl) as [e' He']. simpl in He'.
    rewrite app_nil_r in He'. rewrite He'.
    match goal with |- context [try_fallbacks env rest messages e ?w1] =>
      destruct (IH w1) as [Hr Hs] end.
    + intros k fb Hk. specialize (H (S k) fb Hk). simpl in *.
      now rewrite <- app_assoc.
    + split; [exact Hr |]. rewrite Hs. simpl. now rewrite <- app_assoc.
Qed.

(** How far the fallback loop gets: the first [n] models of the list are
    requested, in order; the loop stops before the end only at a success. *)
Lemma plus_try_fallbacks_trace fallbacks messages e w :
  exists n,
    n <= length fallbacks /\ (fallbacks <> [] -> 1 <= n) /\
    sent (try_fallbacks env fallbacks messages e w).2
    = (sent w ++ map (fun m => payload m messages 2000) (take n fallbacks))%list /\
    (forall k fallback, S k < n -> fallbacks !! k = Some fallback ->
       failed (net env (sent w ++ map (fun m => payload m messages 2000) (take k fallbacks))
                       (payload fallback messages 2000))) /\
    (n < length fallbacks ->
       exists fallback text,
         fallbacks !! (n - 1) = Some fallback /\
         net env (sent w ++ map (fun m => payload m messages 2000) (take (n - 1) fallbacks))
                 (payload fallback messages 2000) = Return text /\
         (try_fallbacks env fallbacks messages e w).1 = Return text).
Proof.
  revert w. induction fallbacks as [|fallback rest IH]; intros w.
  - exists 0. simpl. rewrite app_nil_r. repeat split; try lia; congruence.
  - rewrite plus_try_fallbacks_cons. cbv zeta.
    destruct (net env (sent w) (payload fallback messages 2000)) as [text|e'] eqn:E.
    + exists 1. simpl. repeat split; try lia.
      intros _. exists fallback, text. simpl. now rewrite app_nil_r.
    + match goal with |- context [try_fallbacks env rest messages e ?w1] =>
        destruct (IH w1) as (n & Hn & Hpos & Hs & Hearlier & Hstop) end.
      exists (S n). simpl in *. repeat split; try lia.
      * rewrite Hs. now rewrite <- app_assoc.
      * intros [|k] fb Hk Hfb; simpl in *.
        -- injection Hfb as <-. rewrite app_nil_r. now exists e'.
        -- specialize (Hearlier k fb ltac:(lia) Hfb).
           now rewrite <- app_assoc in Hearlier.
      * intros Hlt. destruct Hstop as (fb & text & Hfb & Hnet & Hr); [lia |].
        assert (rest <> []) by (destruct rest; [simpl in *; lia | discriminate]).
        destruct n as [|n]; [specialize (Hpos ltac:(assumption)); lia |].
        exists fb, text. simpl in *. rewrite Nat.sub_0_r in *.
        rewrite <- app_assoc in Hnet. auto.
Qed.

(** The outcome of the fallback loop and the requests it sends depend on
    the world only through the requests sent so far. *)
Lemma plus_try_fallbacks_sent_only fallbacks messages e w1 w2 :
  sent w1 = sent w2 ->
  (try_fallbacks env fallbacks messages e w1).1
  = (try_fallbacks env fallbacks messages e w2).1 /\
  sent (try_fallbacks env fallbacks messages e w1).2
  = sent (try_fallbacks env fallbacks messages e w2).2.
Proof.
  revert w1 w2. induction fallbacks as [|fallback rest IH]; intros w1 w2 E.
  - now simpl.
  - rewrite !plus_try_fallbacks_cons. cbv zeta. rewrite E.
    destruct (net env (sent w2) (payload fallback messages 2000)).
    + simpl. now rewrite E.
    + apply IH. simpl. now rewrite E.
Qed.

Lemma plus_get_review_sent_only content reviewer w1 w2 :
  sent w1 = sent w2 ->
  (get_review env content reviewer w1).1 = (get_review env content reviewer w2).1 /\
  sent (get_review env content reviewer w1).2
  = sent (get_review env content reviewer w2).2.
Proof.
  intros E. rewrite !plus_get_review_unfold. cbv zeta. rewrite E.
  destruct (net env (sent w2) _).
  - simpl. now rewrite E.
  - apply plus_try_fallbacks_sent_only. simpl. now rewrite E.
Qed.

Lemma plus_try_fallbacks_disk_kept fallbacks messages e :
  disk_kept (try_fallbacks env fallbacks messages e).
Proof.
  induction fallbacks as [|fallback rest IH]; simpl; auto 6 with eff.
  apply disk_kept_try; [| auto].
  apply disk_kept_bind; [auto with eff |]. intros _. apply disk_kept_post.
Qed.

Lemma plus_get_review_disk_kept content reviewer :
  disk_kept (get_review env content reviewer).
Proof.
  apply disk_kept_try; [apply disk_kept_post |].
  intros e. apply plus_try_fallbacks_disk_kept.
Qed.

(** One turn of the dispatch loop: whatever [get_review] does, its text or
    its placeholder is appended and the loop goes on. *)
Lemma plus_review_loop_cons content i reviewer w :
  exists w2,
    sent w2 = sent (get_review env content reviewer w).2 /\
    files w2 = files w /\ mkdirs w2 = mkdirs w /\
    forall rest reviews,
      review_loop env content i (reviewer :: rest) reviews w =
      review_loop env content (S i) rest
        (reviews ++ [outcome_text
           (get_review env content reviewer w).1])%list w2.
Proof.
  set (line := "  [" +:+ pad2 (i + 1) +:+ "/12] "
               +:+ default (slice_to 40 (persona reviewer)) (name reviewer) +:+ "...").
  set (w0 := say line w).
  destruct (plus_get_review_sent_only content reviewer w0 w eq_refl)
    as [Hr Hs].
  destruct (plus_get_review_disk_kept content reviewer w0) as [Hf Hm].
  destruct (get_review env content reviewer w0)
    as [[review|e] w1] eqn:E; simpl in Hr, Hs, Hf, Hm; rewrite <- Hr, <- Hs.
  - exists (say ("          Complete (" +:+ last_segment "/" (model reviewer) +:+ ")") w1).
    repeat split; try assumption.
    intros rest reviews. cbn [review_loop].
    erewrite bind_return; [| reflexivity].
    erewrite bind_return; [reflexivity |].
    apply try_return. erewrite bind_return; [| exact E]. reflexivity.
  - exists (say ("          Error: " +:+ str_exn e) w1). repeat split; try assumption.
    intros rest reviews. cbn [review_loop].
    erewrite bind_return; [| reflexivity].
    erewrite bind_return; [reflexivity |].
    erewrite try_raise; [| erewrite bind_raise; [reflexivity | exact E]].
    reflexivity.
Qed.

(** The dispatch loop never raises: it returns the reviews it was given
    followed by one text for each reviewer, and touches no file. *)
Lemma plus_review_loop_run content panel i reviews w :
  exists texts w',
    review_loop env content i panel reviews w = (Return (reviews ++ texts)%list, w') /\
    length texts = length panel /\ files w' = files w /\ mkdirs w' = mkdirs w.
Proof.
  revert i reviews w. induction panel as [|reviewer rest IH]; intros i reviews w.
  - exists [], w. simpl. now rewrite app_nil_r.
  - destruct (plus_review_loop_cons content i reviewer w) as (w2 & _ & Hf & Hm & Hstep).
    rewrite Hstep.
    destruct (IH (S i) (reviews ++ [outcome_text
      (get_review env content reviewer w).1])%list w2)
      as (texts & w' & Hrun & Hlen & Hf' & Hm').
    eexists (_ :: texts), w'. rewrite Hrun, <- app_assoc. simpl.
    repeat split; congruence.
Qed.

(** Dispatching a panel is dispatching its first part, then the rest. *)
Lemma plus_review_loop_app content panel1 panel2 i reviews w :
  review_loop env content i (panel1 ++ panel2) reviews w =
  bind (review_loop env content i panel1 reviews)
       (fun reviews1 => review_loop env content (i + length panel1) panel2 reviews1) w.
Proof.
  revert i reviews w. induction panel1 as [|reviewer rest IH]; intros i reviews w.
  - simpl. now rewrite Nat.add_0_r.
  - destruct (plus_review_loop_cons content i reviewer w) as (w2 & _ & _ & _ & Hstep).
    rewrite <- app_comm_cons, Hstep, IH. unfold bind. rewrite Hstep.
    simpl length. now rewrite Nat.add_succ_r.
Qed.

(** The text at position [i] is the outcome of reviewer [i], requested
    after the first [i] reviewers were dispatched. *)
Lemma plus_review_loop_position content panel w reviews w' i reviewer :
  review_loop env content 0 panel [] w = (Return reviews, w') ->
  panel !! i = Some reviewer ->
  exists wi,
    review_loop env content 0 (take i panel) [] w = (Return (take i reviews), wi) /\
    reviews !! i = Some (outcome_text
      (get_review env content reviewer wi).1).
Proof.
  intros Hrun Hi.
  assert (Hlen : i < length panel) by (eapply lookup_lt_Some; eassumption).
  rewrite <- (take_drop_middle panel i reviewer Hi), plus_review_loop_app in Hrun.
  destruct (plus_review_loop_run content (take i panel) 0 [] w)
    as (texts1 & wi & Hrun1 & Hlen1 & _).
  rewrite (bind_return _ _ _ _ _ Hrun1) in Hrun. rewrite app_nil_l in Hrun1, Hrun.
  destruct (plus_review_loop_cons content (0 + length (take i panel)) reviewer wi)
    as (w2 & _ & _ & _ & Hstep).
  rewrite Hstep in Hrun.
  match type of Hrun with review_loop _ _ ?j ?p ?acc _ = _ =>
    destruct (plus_review_loop_run content p j acc w2) as (texts2 & w3 & Hrun2 & _) end.
  rewrite Hrun2 in Hrun. injection Hrun as <- <-.
  rewrite length_take in Hlen1.
  assert (Hi1 : length texts1 = i) by lia.
  exists wi. split.
  - rewrite Hrun1. f_equal. f_equal. rewrite <- app_assoc.
    rewrite take_app_length'; [reflexivity | lia].
  - rewrite <- app_assoc. rewrite lookup_app_r by lia.
    now replace (i - length texts1) with 0 by lia.
Qed.


Lemma print_originals_run rs i w :
  exists w', print_originals i rs w = (Return tt, w') /\
    sent w' = sent w /\ files w' = files w /\ mkdirs w' = mkdirs w.
Proof.
  revert i w. induction rs as [|r rest IH]; intros i w.
  - now exists w.
  - cbn [print_originals]. rewrite bind_print.
    destruct (IH (S i) (say ("   [" +:+ pretty (i + 1)%nat +:+ "] " +:+
      last_segment "/" (model r) +:+ ": " +:+ slice_to 50 (persona r) +:+ "...") w))
      as (w' & -> & Hs & Hf & Hm).
    now exists w'.
Qed.

Lemma print_plus_run rs i w :
  Forall (fun r => is_Some (name r)) rs ->
  exists w', print_plus i rs w = (Return tt, w') /\
    sent w' = sent w /\ files w' = files w /\ mkdirs w' = mkdirs w.
Proof.
  intros Hnames. revert i w.
  induction Hnames as [|r rest [n Hn] _ IH]; intros i w.
  - now exists w.
  - cbn [print_plus]. rewrite Hn, bind_print.
    destruct (IH (S i) (say ("   [" +:+ pretty (i + 7)%nat +:+ "] " +:+ n) w))
      as (w' & -> & Hs & Hf & Hm).
    now exists w'.
Qed.

Lemma PLUS_REVIEWERS_named : Forall (fun r => is_Some (name r)) PLUS_REVIEWERS.
Proof. unfold PLUS_REVIEWERS. repeat constructor; eexists; reflexivity. Qed.

(** The banner only prints; what follows is the dispatch loop. *)
Lemma plus_collect_reviews_loop panel input_path content w :
  exists wb,
    sent wb = sent w /\ files wb = files w /\ mkdirs wb = mkdirs w /\
    collect_reviews env panel input_path content w
    = review_loop env content 0 panel [] wb.
Proof.
  unfold collect_reviews. rewrite !bind_print.
  match goal with |- context [bind (print_originals 0 ORIGINAL_REVIEWERS) _ ?w0] =>
    destruct (print_originals_run ORIGINAL_REVIEWERS 0 w0) as (wa & Ha & Hsa & Hfa & Hma) end.
  rewrite (bind_return _ _ _ _ _ Ha), bind_print.
  match goal with |- context [bind (print_plus 0 PLUS_REVIEWERS) _ ?w0] =>
    destruct (print_plus_run PLUS_REVIEWERS 0 w0 PLUS_REVIEWERS_named)
      as (wc & Hc & Hsc & Hfc & Hmc) end.
  rewrite (bind_return _ _ _ _ _ Hc), bind_print.
  eexists. split; [| split; [| split; [| reflexivity]]].
  - rewrite sent_say, Hsc, sent_say, Hsa. reflexivity.
  - rewrite files_say, Hfc, files_say, Hfa. reflexivity.
  - rewrite mkdirs_say, Hmc, mkdirs_say, Hma. reflexivity.
Qed.

Lemma plus_collect_reviews_run panel input_path content w :
  exists reviews w1,
    collect_reviews env panel input_path content w = (Return reviews, w1) /\
    length reviews = length panel /\ files w1 = files w /\ mkdirs w1 = mkdirs w.
Proof.
  destruct (plus_collect_reviews_loop panel input_path content w) as (wb & _ & Hf & Hm & ->).
  destruct (plus_review_loop_run content panel 0 [] wb) as (texts & w1 & -> & Hlen & Hf1 & Hm1).
  exists texts, w1. repeat split; congruence.
Qed.

Lemma plus_synthesize_reviews_unfold reviews reviewer_info synthesis_model w :
  synthesize_reviews env reviews reviewer_info synthesis_model w =
  (net env (sent w) (payload synthesis_model (synthesis_messages reviews reviewer_info) 3000),
   log_request (payload synthesis_model (synthesis_messages reviews reviewer_info) 3000) w).
Proof. reflexivity. Qed.

(** The statements of a configured run up to the synthesis call. *)
Lemma trial_by_hex_plus_to_synthesis panel input_file output_file content w reviews w1 :
  truthy (OPENROUTER_API_KEY env) = true ->
  files w !! resolve env input_file = Some content ->
  collect_reviews env panel (resolve env input_file) content w = (Return reviews, w1) ->
  trial_by_hex_plus_with env panel input_file output_file w =
  bind (synthesize_reviews env reviews panel default_synthesis_model)
    (fun synthesis =>
       let passed := passed_of synthesis in
       let output_path := resolve env output_file in
       bind (mkdir env (path_parent env output_path)) (fun _ =>
       let individual := individual_reviews 0 reviews panel in
       bind (write_text env output_path
               (report_text (path_name env (resolve env input_file))
                  (now_isoformat env) passed synthesis individual)) (fun _ =>
       bind (print (nl +:+ repeat_str "=" 70)) (fun _ =>
       bind (print ("  Review saved to: " +:+ output_path)) (fun _ =>
       bind (print ("  Verdict: " +:+ verdict_label passed)) (fun _ =>
       bind (print (repeat_str "=" 70)) (fun _ =>
       ret (result_dict passed synthesis))))))))
    (say (nl +:+ "Synthesizing 12 reviews with Claude Opus 4.5...") w1).
Proof.
  intros Hkey Hfile Hcollect. unfold trial_by_hex_plus_with. rewrite Hkey. cbn [negb].
  erewrite bind_return; [| exact (path_exists_file _ _ _ _ Hfile)]. cbn [negb].
  erewrite bind_return; [| exact (read_text_file _ _ _ _ Hfile)].
  erewrite bind_return; [| exact Hcollect].
  rewrite bind_print. reflexivity.
Qed.

(** A failure of the synthesis call ends the run: nothing after it is
    executed. *)
Lemma trial_by_hex_plus_synthesis_fails panel input_file output_file content w reviews w1 e :
  truthy (OPENROUTER_API_KEY env) = true ->
  files w !! resolve env input_file = Some content ->
  collect_reviews env panel (resolve env input_file) content w = (Return reviews, w1) ->
  net env (sent w1) (payload default_synthesis_model (synthesis_messages reviews panel) 3000)
  = Raise e ->
  exists w',
    trial_by_hex_plus_with env panel input_file output_file w = (Raise e, w') /\
    files w' = files w /\ mkdirs w' = mkdirs w.
Proof.
  intros Hkey Hfile Hcollect Hnet.
  rewrite (trial_by_hex_plus_to_synthesis _ _ _ _ _ _ _ Hkey Hfile Hcollect).
  destruct (plus_collect_reviews_run panel (resolve env input_file) content w)
    as (reviews' & w1' & Hrun & _ & Hf & Hm).
  rewrite Hcollect in Hrun. injection Hrun as <- <-.
  erewrite bind_raise.
  2:{ rewrite plus_synthesize_reviews_unfold, sent_say, Hnet. reflexivity. }
  eexists. split; [reflexivity |]. split; assumption.
Qed.

(** When the synthesis call returns, the run ensures the directory and
    writes the report; it returns the dictionary unless one of the two
    fails, and then only the output path and its directory can have
    changed. *)
Lemma trial_by_hex_plus_after_synthesis panel input_file output_file content w reviews w1
    synthesis :
  truthy (OPENROUTER_API_KEY env) = true ->
  files w !! resolve env input_file = Some content ->
  collect_reviews env panel (resolve env input_file) content w = (Return reviews, w1) ->
  net env (sent w1) (payload default_synthesis_model (synthesis_messages reviews panel) 3000)
  = Return synthesis ->
  sent (trial_by_hex_plus_with env panel input_file output_file w).2
  = (sent w1 ++ [payload default_synthesis_model
                   (synthesis_messages reviews panel) 3000])%list /\
  (((trial_by_hex_plus_with env panel input_file output_file w).1
    = Return (result_dict (passed_of synthesis) synthesis) /\
    files (trial_by_hex_plus_with env panel input_file output_file w).2
    = <[resolve env output_file :=
          report_text (path_name env (resolve env input_file))
            (now_isoformat env) (passed_of synthesis) synthesis
            (individual_reviews 0 reviews panel)]> (files w) /\
    mkdirs (trial_by_hex_plus_with env panel input_file output_file w).2
    = (mkdirs w ++ [path_parent env (resolve env output_file)])%list)
   \/
   (exists e,
      (trial_by_hex_plus_with env panel input_file output_file w).1 = Raise e /\
      (files (trial_by_hex_plus_with env panel input_file output_file w).2 = files w
       \/ exists partial,
            files (trial_by_hex_plus_with env panel input_file output_file w).2
            = <[resolve env output_file := partial]> (files w)) /\
      (mkdirs (trial_by_hex_plus_with env panel input_file output_file w).2 = mkdirs w
       \/ mkdirs (trial_by_hex_plus_with env panel input_file output_file w).2
          = (mkdirs w ++ [path_parent env (resolve env output_file)])%list))).
Proof.
  intros Hkey Hfile Hcollect Hnet.
  rewrite (trial_by_hex_plus_to_synthesis _ _ _ _ _ _ _ Hkey Hfile Hcollect).
  destruct (plus_collect_reviews_run panel (resolve env input_file) content w)
    as (reviews' & w1' & Hrun & Hlen & Hf & Hm).
  rewrite Hcollect in Hrun. injection Hrun as <- <-.
  erewrite bind_return.
  2:{ rewrite plus_synthesize_reviews_unfold, sent_say, Hnet. reflexivity. }
  cbv zeta.
  match goal with |- context [bind (mkdir env ?dir) _ ?w2] =>
    destruct (mkdir_cases env dir w2) as [Hmk | [e Hmk]] end.
  - erewrite bind_return; [| exact Hmk].
    match goal with |- context [bind (write_text env ?p ?text) _ ?w3] =>
      destruct (write_text_cases env p text w3)
        as [Hwr | (e & w4 & Hwr & Hs4 & _ & Hm4 & Hf4)] end.
    + erewrite bind_return; [| exact Hwr].
      rewrite !bind_print. cbn [fst snd ret].
      split; [reflexivity |]. left. split; [reflexivity |].
      simpl. rewrite Hf, Hm. split; reflexivity.
    + erewrite bind_raise; [| exact Hwr]. cbn [fst snd].
      split; [rewrite Hs4; reflexivity |]. right. exists e. split; [reflexivity |].
      split.
      * destruct Hf4 as [Hf4 | [partial Hf4]]; rewrite Hf4; simpl; rewrite Hf.
        -- now left.
        -- right. now exists partial.
      * right. rewrite Hm4. simpl. now rewrite Hm.
  - erewrite bind_raise; [| exact Hmk]. cbn [fst snd].
    split; [reflexivity |]. right. exists e. split; [reflexivity |].
    simpl. rewrite Hf, Hm. split; now left.
Qed.

End Run.
End PlusFacts.

(** ** The fallback policy of [get_review] *)

Module FallbackClaims.
Import Py Eff Spec EffFacts HexFacts PlusFacts.

Lemma models_since_app w w' requests :
  sent w' = (sent w ++ requests)%list -> models_since w w' = map req_model requests.
Proof. intros H. unfold models_since. now rewrite H, drop_app_length. Qed.

Lemma all_fail_fallbacks env history (P : string -> Request) fallbacks :
  all_fail env history (map P fallbacks) ->
  forall k fallback, fallbacks !! k = Some fallback ->
    failed (net env (history ++ map P (take k fallbacks)) (P fallback)).
Proof.
  intros H k fallback Hk. specialize (H k (P fallback)).
  change (map P fallbacks) with (P <$> fallbacks) in H.
  rewrite list_lookup_fmap, Hk, <- fmap_take in H. now apply H.
Qed.

(** C8. If the primary model's invocation succeeds, [get_review] returns
    the primary model's response text, and the only request it has sent is
    the one to the primary model: no fallback model is invoked. *)
Theorem primary_success_skips_fallbacks (env : Env) (content persona mdl : string)
    (reviewer : TrialByHexPlus.Reviewer) (w : World) (text : string) :
  (net env (sent w) (hex_request content persona mdl) = Return text ->
   (TrialByHex.get_review env content persona mdl w).1 = Return text /\
   models_since w (TrialByHex.get_review env content persona mdl w).2 = [mdl])
  /\
  (net env (sent w) (plus_request content reviewer (TrialByHexPlus.model reviewer))
   = Return text ->
   (TrialByHexPlus.get_review env content reviewer w).1 = Return text /\
   models_since w (TrialByHexPlus.get_review env content reviewer w).2
   = [TrialByHexPlus.model reviewer]).
Proof.
  unfold hex_request, plus_request. split; intros H.
  - rewrite get_review_unfold. cbv zeta. rewrite H. split; [reflexivity |].
    now rewrite (models_since_app w _ [hex_request content persona mdl]).
  - rewrite plus_get_review_unfold. cbv zeta. rewrite H. split; [reflexivity |].
    now rewrite (models_since_app w _
      [plus_request content reviewer (TrialByHexPlus.model reviewer)]).
Qed.

(** C5. If the primary model's invocation fails with [e] and every model
    of the fallback list fails in its turn, [get_review] raises [e], the
    primary's failure, whatever the fallbacks failed with. *)
Theorem exhausted_fallback_raises_primary (env : Env) (content persona mdl : string)
    (reviewer : TrialByHexPlus.Reviewer) (w : World) (e : exn) :
  (net env (sent w) (hex_request content persona mdl) = Raise e ->
   all_fail env (sent w ++ [hex_request content persona mdl])
     (map (hex_request content persona) TrialByHex.FALLBACK_MODELS) ->
   (TrialByHex.get_review env content persona mdl w).1 = Raise e)
  /\
  (net env (sent w) (plus_request content reviewer (TrialByHexPlus.model reviewer))
   = Raise e ->
   all_fail env (sent w ++ [plus_request content reviewer (TrialByHexPlus.model reviewer)])
     (map (plus_request content reviewer) TrialByHexPlus.FALLBACK_MODELS) ->
   (TrialByHexPlus.get_review env content reviewer w).1 = Raise e).
Proof.
  split; intros H Hall.
  - unfold hex_request in H. rewrite get_review_unfold. cbv zeta. rewrite H.
    apply try_fallbacks_exhausted. rewrite sent_log_request.
    now apply (all_fail_fallbacks _ _ (hex_request content persona)).
  - unfold plus_request in H. rewrite plus_get_review_unfold. cbv zeta. rewrite H.
    apply plus_try_fallbacks_exhausted. rewrite sent_log_request.
    now apply (all_fail_fallbacks _ _ (plus_request content reviewer)).
Qed.

(** The sample reviewers are the ones of the panel. *)
Lemma sample_reviewers_in_panel :
  TrialByHex.REVIEWERS !! 1 = Some skeptic /\
  TrialByHex.REVIEWERS !! 3 = Some accessibility /\
  TrialByHex.FALLBACK_MODELS !! 0 = Some (TrialByHex.model accessibility).
Proof. repeat split. Qed.

Lemma primary_success_witness :
  (net env_primary_up (sent (boot sample_disk))
     (hex_request sample_content (TrialByHex.persona skeptic) "openai/gpt-5.1")
   = Return "review by openai/gpt-5.1" /\
   (TrialByHex.get_review env_primary_up sample_content (TrialByHex.persona skeptic)
      "openai/gpt-5.1" (boot sample_disk)).1 = Return "review by openai/gpt-5.1" /\
   models_since (boot sample_disk)
     (TrialByHex.get_review env_primary_up sample_content (TrialByHex.persona skeptic)
        "openai/gpt-5.1" (boot sample_disk)).2 = ["openai/gpt-5.1"])
  /\
  (net env_primary_up (sent (boot sample_disk))
     (plus_request sample_content sentinel "openai/gpt-5.1")
   = Return "review by openai/gpt-5.1" /\
   (TrialByHexPlus.get_review env_primary_up sample_content sentinel (boot sample_disk)).1
   = Return "review by openai/gpt-5.1" /\
   models_since (boot sample_disk)
     (TrialByHexPlus.get_review env_primary_up sample_content sentinel (boot sample_disk)).2
   = ["openai/gpt-5.1"]).
Proof.
  pose proof (primary_success_skips_fallbacks env_primary_up sample_content
                (TrialByHex.persona skeptic) "openai/gpt-5.1" sentinel (boot sample_disk)
                "review by openai/gpt-5.1") as [Hhex Hplus].
  split.
  - assert (H : net env_primary_up (sent (boot sample_disk))
                  (hex_request sample_content (TrialByHex.persona skeptic) "openai/gpt-5.1")
                = Return "review by openai/gpt-5.1") by reflexivity.
    split; [exact H | exact (Hhex H)].
  - assert (H : net env_primary_up (sent (boot sample_disk))
                  (plus_request sample_content sentinel "openai/gpt-5.1")
                = Return "review by openai/gpt-5.1") by reflexivity.
    split; [exact H | exact (Hplus H)].
Defined.

Lemma exhausted_fallback_witness :
  (net env_all_down (sent (boot sample_disk))
     (hex_request sample_content (TrialByHex.persona skeptic) "openai/gpt-5.1")
   = Raise (Exception "404 openai/gpt-5.1") /\
   all_fail env_all_down
     (sent (boot sample_disk)
      ++ [hex_request sample_content (TrialByHex.persona skeptic) "openai/gpt-5.1"])
     (map (hex_request sample_content (TrialByHex.persona skeptic))
        TrialByHex.FALLBACK_MODELS) /\
   (TrialByHex.get_review env_all_down sample_content (TrialByHex.persona skeptic)
      "openai/gpt-5.1" (boot sample_disk)).1 = Raise (Exception "404 openai/gpt-5.1"))
  /\
  (net env_all_down (sent (boot sample_disk))
     (plus_request sample_content sentinel "openai/gpt-5.1")
   = Raise (Exception "404 openai/gpt-5.1") /\
   all_fail env_all_down
     (sent (boot sample_disk) ++ [plus_request sample_content sentinel "openai/gpt-5.1"])
     (map (plus_request sample_content sentinel) TrialByHexPlus.FALLBACK_MODELS) /\
   (TrialByHexPlus.get_review env_all_down sample_content sentinel (boot sample_disk)).1
   = Raise (Exception "404 openai/gpt-5.1")).
Proof.
  pose proof (exhausted_fallback_raises_primary env_all_down sample_content
                (TrialByHex.persona skeptic) "openai/gpt-5.1" sentinel (boot sample_disk)
                (Exception "404 openai/gpt-5.1")) as [Hhex Hplus].
  split.
  - assert (H : net env_all_down (sent (boot sample_disk))
                  (hex_request sample_content (TrialByHex.persona skeptic) "openai/gpt-5.1")
                = Raise (Exception "404 openai/gpt-5.1")) by reflexivity.
    assert (Hall : all_fail env_all_down
              (sent (boot sample_disk)
               ++ [hex_request sample_content (TrialByHex.persona skeptic) "openai/gpt-5.1"])
              (map (hex_request sample_content (TrialByHex.persona skeptic))
                 TrialByHex.FALLBACK_MODELS)).
    { intros k q Hk. destruct k as [|[|[|k]]]; try discriminate Hk;
        injection Hk as <-; eexists; reflexivity. }
    split; [exact H | split; [exact Hall | exact (Hhex H Hall)]].
  - assert (H : net env_all_down (sent (boot sample_disk))
                  (plus_request sample_content sentinel "openai/gpt-5.1")
                = Raise (Exception "404 openai/gpt-5.1")) by reflexivity.
    assert (Hall : all_fail env_all_down
              (sent (boot sample_disk) ++ [plus_request sample_content sentinel "openai/gpt-5.1"])
              (map (plus_request sample_content sentinel) TrialByHexPlus.FALLBACK_MODELS)).
    { intros k q Hk. destruct k as [|[|[|k]]]; try discriminate Hk;
        injection Hk as <-; eexists; reflexivity. }
    split; [exact H | split; [exact Hall | exact (Hplus H Hall)]].
Defined.

(** C10, as amended. After a primary failure the fallback list is tried
    from its first entry, in its listed order and without removing the model
    that just failed, up to and including the first model that answers: the
    models requested are the primary followed by the first [n] fallbacks,
    [n] is at least 1, every fallback before the [n]-th failed, and the loop
    stops short of the whole list only when the [n]-th answered.  For the
    reviewer at index 3, whose model is the first fallback, the request that
    follows the failed one goes to the same model. *)
Theorem fallbacks_in_order_until_success (env : Env) (content persona mdl : string)
    (w : World) (e : exn) :
  net env (sent w) (hex_request content persona mdl) = Raise e ->
  exists n,
    1 <= n <= length TrialByHex.FALLBACK_MODELS /\
    models_since w (TrialByHex.get_review env content persona mdl w).2
    = mdl :: take n TrialByHex.FALLBACK_MODELS /\
    (forall k fallback,
       S k < n -> TrialByHex.FALLBACK_MODELS !! k = Some fallback ->
       failed (net env
                 (sent w ++ hex_request content persona mdl
                    :: map (hex_request content persona) (take k TrialByHex.FALLBACK_MODELS))
                 (hex_request content persona fallback))) /\
    (n < length TrialByHex.FALLBACK_MODELS ->
       exists text, (TrialByHex.get_review env content persona mdl w).1 = Return text) /\
    (forall reviewer,
       TrialByHex.REVIEWERS !! 3 = Some reviewer -> mdl = TrialByHex.model reviewer ->
       exists rest,
         models_since w (TrialByHex.get_review env content persona mdl w).2
         = mdl :: mdl :: rest).
Proof.
  intros H. unfold hex_request in H. rewrite get_review_unfold. cbv zeta. rewrite H.
  destruct (try_fallbacks_trace env TrialByHex.FALLBACK_MODELS
              (TrialByHex.review_messages content persona) e
              (log_request (TrialByHex.payload mdl
                 (TrialByHex.review_messages content persona) 1500) w))
    as (n & Hn & Hpos & Hs & Hearlier & Hstop).
  specialize (Hpos ltac:(discriminate)).
  rewrite sent_log_request, <- app_assoc in Hs.
  assert (Hmodels : models_since w
            (TrialByHex.try_fallbacks env TrialByHex.FALLBACK_MODELS
               (TrialByHex.review_messages content persona) e
               (log_request (TrialByHex.payload mdl
                  (TrialByHex.review_messages content persona) 1500) w)).2
          = mdl :: take n TrialByHex.FALLBACK_MODELS).
  { rewrite (models_since_app _ _ _ Hs). simpl. f_equal.
    rewrite map_map. simpl. apply map_id. }
  exists n. split; [lia |]. split; [exact Hmodels |]. split; [| split].
  - intros k fallback Hk Hfb. specialize (Hearlier k fallback Hk Hfb).
    rewrite sent_log_request, <- app_assoc in Hearlier. exact Hearlier.
  - intros Hlt. destruct (Hstop Hlt) as (fb & text & _ & _ & Hr). now exists text.
  - intros reviewer Hr ->. injection Hr as <-. rewrite Hmodels.
    destruct n as [|n]; [lia |]. now exists (take n (tail TrialByHex.FALLBACK_MODELS)).
Qed.

End FallbackClaims.

(** ** The report *)

Module ReportFacts.
Import Py Eff Spec PyFacts CaseFacts.

Lemma hex_label_one_line passed : occurs "010" (TrialByHex.verdict_label passed) = false.
Proof. now destruct passed. Qed.

Lemma plus_label_one_line passed : occurs "010" (TrialByHexPlus.verdict_label passed) = false.
Proof. now destruct passed. Qed.

(** The fifth line of a text that starts with the four given lines. *)
Lemma fifth_line (l1 l2 l3 l4 l5 tail : string) :
  occurs "010" l1 = false -> occurs "010" l2 = false -> occurs "010" l3 = false ->
  occurs "010" l4 = false -> occurs "010" l5 = false ->
  lines (l1 +:+ String "010" (l2 +:+ String "010" (l3 +:+ String "010"
           (l4 +:+ String "010" (l5 +:+ String "010" tail))))) !! 4 = Some l5.
Proof.
  intros H1 H2 H3 H4 H5. unfold lines.
  now rewrite !split_first by assumption.
Qed.

Lemma hex_report_verdict_line name date passed synthesis individual :
  occurs "010" name = false -> occurs "010" date = false ->
  lines (TrialByHex.report_head name date passed synthesis +:+ individual) !! 4
  = Some ("**Verdict:** " +:+ TrialByHex.verdict_label passed).
Proof.
  intros Hname Hdate. unfold TrialByHex.report_head. rewrite !app_assoc.
  apply (fifth_line "# Trial by Hex Review" "" ("**Document:** " +:+ name)
           ("**Date:** " +:+ date) ("**Verdict:** " +:+ TrialByHex.verdict_label passed));
    rewrite ?occurs_app, ?Hname, ?Hdate, ?hex_label_one_line; reflexivity.
Qed.

Lemma plus_report_verdict_line name date passed synthesis individual :
  occurs "010" name = false -> occurs "010" date = false ->
  lines (TrialByHexPlus.report_text name date passed synthesis individual) !! 4
  = Some ("**Verdict:** " +:+ TrialByHexPlus.verdict_label passed).
Proof.
  intros Hname Hdate. unfold TrialByHexPlus.report_text. rewrite ?app_assoc.
  apply (fifth_line "# Trial by Hex+ Review" "" ("**Document:** " +:+ name)
           ("**Date:** " +:+ date) ("**Verdict:** " +:+ TrialByHexPlus.verdict_label passed));
    rewrite ?occurs_app, ?Hname, ?Hdate, ?plus_label_one_line; reflexivity.
Qed.

Lemma result_dict_keys passed synthesis :
  dom (TrialByHex.result_dict passed synthesis) = ({["passed"; "synthesis"]} : gset string).
Proof. unfold TrialByHex.result_dict. rewrite !dom_insert_L, dom_empty_L. set_solver. Qed.

Lemma plus_result_dict_keys passed synthesis :
  dom (TrialByHexPlus.result_dict passed synthesis)
  = ({["passed"; "synthesis"]} : gset string).
Proof. unfold TrialByHexPlus.result_dict. rewrite !dom_insert_L, dom_empty_L. set_solver. Qed.

Lemma hex_report_embeds name date passed synthesis individual :
  exists before after,
    TrialByHex.report_head name date passed synthesis +:+ individual
    = before +:+ "## Synthesized Review" +:+ nl +:+ nl +:+ synthesis +:+ nl +:+ nl
      +:+ "---" +:+ nl +:+ nl +:+ "## Individual Reviews" +:+ after.
Proof.
  exists ("# Trial by Hex Review" +:+ nl +:+ nl +:+ "**Document:** " +:+ name +:+ nl
          +:+ "**Date:** " +:+ date +:+ nl
          +:+ "**Verdict:** " +:+ TrialByHex.verdict_label passed +:+ nl
          +:+ "**Reviewers:** 6 diverse AI models via OpenRouter" +:+ nl +:+ nl
          +:+ "---" +:+ nl +:+ nl),
         (nl +:+ nl +:+ individual).
  unfold TrialByHex.report_head. rewrite !app_assoc. reflexivity.
Qed.

Lemma plus_report_embeds name date passed synthesis individual :
  exists before after,
    TrialByHexPlus.report_text name date passed synthesis individual
    = before +:+ "## Synthesized Review" +:+ nl +:+ nl +:+ synthesis +:+ nl +:+ nl
      +:+ "---" +:+ nl +:+ nl +:+ "## Individual Reviews" +:+ after.
Proof.
  exists ("# Trial by Hex+ Review" +:+ nl +:+ nl +:+ "**Document:** " +:+ name +:+ nl
          +:+ "**Date:** " +:+ date +:+ nl
          +:+ "**Verdict:** " +:+ TrialByHexPlus.verdict_label passed +:+ nl
          +:+ "**Reviewers:** 12 specialized AI reviewers via OpenRouter" +:+ nl +:+ nl
          +:+ "---" +:+ nl +:+ nl),
         (nl +:+ nl +:+ individual +:+ nl).
  unfold TrialByHexPlus.report_text. rewrite !app_assoc. reflexivity.
Qed.

(** The report opens with the title and the three fields. *)
Lemma hex_report_header name date passed synthesis individual :
  exists rest,
    TrialByHex.report_head name date passed synthesis +:+ individual
    = "# Trial by Hex Review" +:+ nl +:+ nl
      +:+ "**Document:** " +:+ name +:+ nl
      +:+ "**Date:** " +:+ date +:+ nl
      +:+ "**Verdict:** " +:+ (if passed then "✓ PASSED" else "⚠ NEEDS REVISION")
      +:+ nl +:+ rest.
Proof.
  exists ("**Reviewers:** 6 diverse AI models via OpenRouter" +:+ nl +:+ nl
          +:+ "---" +:+ nl +:+ nl +:+ "## Synthesized Review" +:+ nl +:+ nl
          +:+ synthesis +:+ nl +:+ nl +:+ "---" +:+ nl +:+ nl
          +:+ "## Individual Reviews" +:+ nl +:+ nl +:+ individual).
  unfold TrialByHex.report_head, TrialByHex.verdict_label.
  rewrite !app_assoc. reflexivity.
Qed.

Lemma plus_report_header name date passed synthesis individual :
  exists rest,
    TrialByHexPlus.report_text name date passed synthesis individual
    = "# Trial by Hex+ Review" +:+ nl +:+ nl
      +:+ "**Document:** " +:+ name +:+ nl
      +:+ "**Date:** " +:+ date +:+ nl
      +:+ "**Verdict:** " +:+ (if passed then "PASSED" else "NEEDS REVISION")
      +:+ nl +:+ rest.
Proof.
  exists ("**Reviewers:** 12 specialized AI reviewers via OpenRouter" +:+ nl +:+ nl
          +:+ "---" +:+ nl +:+ nl +:+ "## Synthesized Review" +:+ nl +:+ nl
          +:+ synthesis +:+ nl +:+ nl +:+ "---" +:+ nl +:+ nl
          +:+ "## Individual Reviews" +:+ nl +:+ nl +:+ individual +:+ nl).
  unfold TrialByHexPlus.report_text, TrialByHexPlus.verdict_label.
  rewrite ?app_assoc. reflexivity.
Qed.

(** What a report and the dictionary returned with it have in common. *)
Lemma hex_report_agrees name date passed synthesis individual :
  let d := TrialByHex.result_dict passed synthesis in
  let report := TrialByHex.report_head name date passed synthesis +:+ individual in
  dom d = ({["passed"; "synthesis"]} : gset string) /\
  d !! "synthesis" = Some (VStr synthesis) /\
  (exists before after,
     report = before +:+ "## Synthesized Review" +:+ nl +:+ nl +:+ synthesis +:+ nl +:+ nl
              +:+ "---" +:+ nl +:+ nl +:+ "## Individual Reviews" +:+ after) /\
  (occurs "010" name = false -> occurs "010" date = false ->
   (lines report !! 4 = Some "**Verdict:** ✓ PASSED" <-> d !! "passed" = Some (VBool true))).
Proof.
  cbv zeta. split; [apply result_dict_keys |]. split; [reflexivity |].
  split; [apply hex_report_embeds |].
  intros Hname Hdate. rewrite hex_report_verdict_line by assumption.
  unfold TrialByHex.result_dict. rewrite lookup_insert_eq.
  destruct passed; split; intros H; try reflexivity; discriminate H.
Qed.

Lemma plus_report_agrees name date passed synthesis individual :
  let d := TrialByHexPlus.result_dict passed synthesis in
  let report := TrialByHexPlus.report_text name date passed synthesis individual in
  dom d = ({["passed"; "synthesis"]} : gset string) /\
  d !! "synthesis" = Some (VStr synthesis) /\
  (exists before after,
     report = before +:+ "## Synthesized Review" +:+ nl +:+ nl +:+ synthesis +:+ nl +:+ nl
              +:+ "---" +:+ nl +:+ nl +:+ "## Individual Reviews" +:+ after) /\
  (occurs "010" name = false -> occurs "010" date = false ->
   (lines report !! 4 = Some "**Verdict:** PASSED" <-> d !! "passed" = Some (VBool true))).
Proof.
  cbv zeta. split; [apply plus_result_dict_keys |]. split; [reflexivity |].
  split; [apply plus_report_embeds |].
  intros Hname Hdate. rewrite plus_report_verdict_line by assumption.
  unfold TrialByHexPlus.result_dict. rewrite lookup_insert_eq.
  destruct passed; split; intros H; try reflexivity; discriminate H.
Qed.

End ReportFacts.

(** ** Dispatch, synthesis and the run *)

Module RunClaims.
Import Py Eff Spec EffFacts HexFacts HexRun PlusFacts ReportFacts FallbackClaims.

(** C4. The dispatch loop never raises and returns one text for each
    reviewer of the panel, in panel order: the texts of the first [i]
    reviewers are what dispatching those [i] reviewers alone returns, and
    the text at position [i] is the outcome of [get_review] for reviewer [i]
    at that point, its review or, when [get_review] raised [e] (the primary
    and every fallback failed), the placeholder ["Review failed: " + str(e)].
    This holds for every panel, of any size, and whatever the remote side
    answers. *)
Theorem dispatch_returns_one_text_per_reviewer (env : Env) (content : string)
    (hex_panel : list TrialByHex.Reviewer) (plus_panel : list TrialByHexPlus.Reviewer)
    (w : World) :
  (exists reviews w',
     TrialByHex.review_loop env content 0 hex_panel [] w = (Return reviews, w') /\
     length reviews = length hex_panel /\
     forall i reviewer, hex_panel !! i = Some reviewer ->
       exists wi,
         TrialByHex.review_loop env content 0 (take i hex_panel) [] w
         = (Return (take i reviews), wi) /\
         reviews !! i = Some (outcome_text
           (TrialByHex.get_review env content (TrialByHex.persona reviewer)
              (TrialByHex.model reviewer) wi).1) /\
         forall e,
           (TrialByHex.get_review env content (TrialByHex.persona reviewer)
              (TrialByHex.model reviewer) wi).1 = Raise e ->
           reviews !! i = Some ("Review failed: " +:+ str_exn e))
  /\
  (exists reviews w',
     TrialByHexPlus.review_loop env content 0 plus_panel [] w = (Return reviews, w') /\
     length reviews = length plus_panel /\
     forall i reviewer, plus_panel !! i = Some reviewer ->
       exists wi,
         TrialByHexPlus.review_loop env content 0 (take i plus_panel) [] w
         = (Return (take i reviews), wi) /\
         reviews !! i = Some (outcome_text
           (TrialByHexPlus.get_review env content reviewer wi).1) /\
         forall e,
           (TrialByHexPlus.get_review env content reviewer wi).1 = Raise e ->
           reviews !! i = Some ("Review failed: " +:+ str_exn e)).
Proof.
  split.
  - destruct (review_loop_run env content hex_panel 0 [] w)
      as (reviews & w' & Hrun & Hlen & _).
    exists reviews, w'. split; [exact Hrun |]. split; [exact Hlen |].
    intros i reviewer Hi.
    destruct (review_loop_position env content hex_panel w reviews w' i reviewer Hrun Hi)
      as (wi & Hprefix & Htext).
    exists wi. split; [exact Hprefix |]. split; [exact Htext |].
    intros e He. now rewrite Htext, He.
  - destruct (plus_review_loop_run env content plus_panel 0 [] w)
      as (reviews & w' & Hrun & Hlen & _).
    exists reviews, w'. split; [exact Hrun |]. split; [exact Hlen |].
    intros i reviewer Hi.
    destruct (plus_review_loop_position env content plus_panel w reviews w' i reviewer Hrun Hi)
      as (wi & Hprefix & Htext).
    exists wi. split; [exact Hprefix |]. split; [exact Htext |].
    intros e He. now rewrite Htext, He.
Qed.

(** C2, as amended. [synthesize_reviews] sends one request, to the
    designated synthesis model, through [openrouter_request] itself and not
    through the fallback loop of [get_review]: its outcome is the outcome of
    that one invocation, so a failure of the synthesis model is the failure
    of the synthesis step, and no model of the fallback list is requested. *)
Theorem synthesis_is_one_direct_request (env : Env) (reviews : list string)
    (reviewer_info : list TrialByHexPlus.Reviewer) (mdl : string) (w : World) :
  ((TrialByHex.synthesize_reviews env reviews mdl w).1
   = net env (sent w) (hex_synthesis_request reviews mdl) /\
   models_since w (TrialByHex.synthesize_reviews env reviews mdl w).2 = [mdl])
  /\
  ((TrialByHexPlus.synthesize_reviews env reviews reviewer_info mdl w).1
   = net env (sent w) (plus_synthesis_request reviews reviewer_info mdl) /\
   models_since w (TrialByHexPlus.synthesize_reviews env reviews reviewer_info mdl w).2
   = [mdl]).
Proof.
  split; (split; [reflexivity |]).
  - now rewrite (models_since_app w _ [hex_synthesis_request reviews mdl]).
  - now rewrite (models_since_app w _ [plus_synthesis_request reviews reviewer_info mdl]).
Qed.

(** Against C2 as stated: with the synthesis model down and every model
    of the fallback list up, the synthesis step fails after a single request;
    the first fallback would have answered the very same request. *)
Lemma synthesis_failure_tries_no_fallback :
  (TrialByHex.synthesize_reviews env_synthesis_down ["first review"; "second review"]
     TrialByHex.default_synthesis_model (boot sample_disk)).1
  = Raise (Exception "404 anthropic/claude-opus-4.5") /\
  models_since (boot sample_disk)
    (TrialByHex.synthesize_reviews env_synthesis_down ["first review"; "second review"]
       TrialByHex.default_synthesis_model (boot sample_disk)).2
  = ["anthropic/claude-opus-4.5"] /\
  net env_synthesis_down
    [hex_synthesis_request ["first review"; "second review"] TrialByHex.default_synthesis_model]
    (hex_synthesis_request ["first review"; "second review"] "x-ai/grok-4.1-fast:free")
  = Return "review by x-ai/grok-4.1-fast:free" /\
  (TrialByHex.trial_by_hex env_synthesis_down "/work/thesis.md" "/out/review.md"
     (boot sample_disk)).1
  = Raise (Exception "404 anthropic/claude-opus-4.5") /\
  (TrialByHexPlus.trial_by_hex_plus env_synthesis_down "/work/thesis.md" "/out/review.md"
     (boot sample_disk)).1
  = Raise (Exception "404 anthropic/claude-opus-4.5").
Proof. repeat split; vm_compute; reflexivity. Qed.

(** C6. In a configured run (credential set, input file present), if the
    synthesis invocation fails with [e] after the reviews were collected,
    the run raises [e] to its caller: it returns no dictionary, writes no
    file and makes no directory, so no report exists, empty or partial. *)
Theorem synthesis_failure_ends_run (env : Env) (input_file output_file content : string)
    (hex_panel : list TrialByHex.Reviewer) (plus_panel : list TrialByHexPlus.Reviewer)
    (w w1 : World) (reviews : list string) (e : exn) :
  truthy (OPENROUTER_API_KEY env) = true ->
  files w !! resolve env input_file = Some content ->
  (TrialByHex.collect_reviews env hex_panel (resolve env input_file) content w
   = (Return reviews, w1) ->
   net env (sent w1) (hex_synthesis_request reviews TrialByHex.default_synthesis_model)
   = Raise e ->
   exists w',
     TrialByHex.trial_by_hex_with env hex_panel input_file output_file w = (Raise e, w') /\
     files w' = files w /\ mkdirs w' = mkdirs w)
  /\
  (TrialByHexPlus.collect_reviews env plus_panel (resolve env input_file) content w
   = (Return reviews, w1) ->
   net env (sent w1)
     (plus_synthesis_request reviews plus_panel TrialByHexPlus.default_synthesis_model)
   = Raise e ->
   exists w',
     TrialByHexPlus.trial_by_hex_plus_with env plus_panel input_file output_file w
     = (Raise e, w') /\
     files w' = files w /\ mkdirs w' = mkdirs w).
Proof.
  intros Hkey Hfile. split; intros Hcollect Hnet.
  - eapply trial_by_hex_synthesis_fails; eassumption.
  - eapply trial_by_hex_plus_synthesis_fails; eassumption.
Qed.

Lemma synthesis_failure_witness :
  (truthy (OPENROUTER_API_KEY (env_reviews_then 6 [])) = true /\
   files (boot sample_disk) !! "/work/thesis.md" = Some sample_content /\
   net (env_reviews_then 6 [])
     (sent (TrialByHex.collect_reviews (env_reviews_then 6 []) TrialByHex.REVIEWERS
              "/work/thesis.md" sample_content (boot sample_disk)).2)
     (hex_synthesis_request (replicate 6 "Sound method.") TrialByHex.default_synthesis_model)
   = Raise (Exception "503 Server Error") /\
   exists w',
     TrialByHex.trial_by_hex (env_reviews_then 6 []) "/work/thesis.md" "/out/review.md"
       (boot sample_disk) = (Raise (Exception "503 Server Error"), w') /\
     files w' = sample_disk /\ mkdirs w' = [])
  /\
  (truthy (OPENROUTER_API_KEY (env_reviews_then 12 [])) = true /\
   net (env_reviews_then 12 [])
     (sent (TrialByHexPlus.collect_reviews (env_reviews_then 12 []) TrialByHexPlus.REVIEWERS
              "/work/thesis.md" sample_content (boot sample_disk)).2)
     (plus_synthesis_request (replicate 12 "Sound method.") TrialByHexPlus.REVIEWERS
        TrialByHexPlus.default_synthesis_model)
   = Raise (Exception "503 Server Error") /\
   exists w',
     TrialByHexPlus.trial_by_hex_plus (env_reviews_then 12 []) "/work/thesis.md"
       "/out/review.md" (boot sample_disk) = (Raise (Exception "503 Server Error"), w') /\
     files w' = sample_disk /\ mkdirs w' = []).
Proof.
  split.
  - set (env := env_reviews_then 6 []).
    assert (Hkey : truthy (OPENROUTER_API_KEY env) = true) by reflexivity.
    assert (Hfile : files (boot sample_disk) !! resolve env "/work/thesis.md"
                    = Some sample_content) by reflexivity.
    assert (Hcollect :
      TrialByHex.collect_reviews env TrialByHex.REVIEWERS
        (resolve env "/work/thesis.md") sample_content (boot sample_disk)
      = (Return (replicate 6 "Sound method."),
         (TrialByHex.collect_reviews env TrialByHex.REVIEWERS
            "/work/thesis.md" sample_content (boot sample_disk)).2))
      by (vm_compute; reflexivity).
    assert (Hnet :
      net env
        (sent (TrialByHex.collect_reviews env TrialByHex.REVIEWERS
                 "/work/thesis.md" sample_content (boot sample_disk)).2)
        (hex_synthesis_request (replicate 6 "Sound method.")
           TrialByHex.default_synthesis_model)
      = Raise (Exception "503 Server Error")) by (vm_compute; reflexivity).
    split; [exact Hkey |]. split; [exact Hfile |]. split; [exact Hnet |].
    exact (proj1 (synthesis_failure_ends_run env "/work/thesis.md" "/out/review.md"
                    sample_content TrialByHex.REVIEWERS TrialByHexPlus.REVIEWERS
                    (boot sample_disk) _ (replicate 6 "Sound method.")
                    (Exception "503 Server Error") Hkey Hfile) Hcollect Hnet).
  - set (env := env_reviews_then 12 []).
    assert (Hkey : truthy (OPENROUTER_API_KEY env) = true) by reflexivity.
    assert (Hfile : files (boot sample_disk) !! resolve env "/work/thesis.md"
                    = Some sample_content) by reflexivity.
    assert (Hcollect :
      TrialByHexPlus.collect_reviews env TrialByHexPlus.REVIEWERS
        (resolve env "/work/thesis.md") sample_content (boot sample_disk)
      = (Return (replicate 12 "Sound method."),
         (TrialByHexPlus.collect_reviews env TrialByHexPlus.REVIEWERS
            "/work/thesis.md" sample_content (boot sample_disk)).2))
      by (vm_compute; reflexivity).
    assert (Hnet :
      net env
        (sent (TrialByHexPlus.collect_reviews env TrialByHexPlus.REVIEWERS
                 "/work/thesis.md" sample_content (boot sample_disk)).2)
        (plus_synthesis_request (replicate 12 "Sound method.") TrialByHexPlus.REVIEWERS
           TrialByHexPlus.default_synthesis_model)
      = Raise (Exception "503 Server Error")) by (vm_compute; reflexivity).
    split; [exact Hkey |]. split; [exact Hnet |].
    exact (proj2 (synthesis_failure_ends_run env "/work/thesis.md" "/out/review.md"
                    sample_content TrialByHex.REVIEWERS TrialByHexPlus.REVIEWERS
                    (boot sample_disk) _ (replicate 12 "Sound method.")
                    (Exception "503 Server Error") Hkey Hfile) Hcollect Hnet).
Defined.

(** C9, as amended. In a configured run whose synthesis call returns
    [synthesis] and which returns a value [d]: the keys of [d] are exactly
    "passed" and "synthesis"; [d] holds [synthesis], and the report written
    at the output path embeds the same text in its synthesis section; the
    report opens with the title, the Document field, the Date field and then
    the Verdict field, whose text is the passed label exactly when [d]
    holds [passed = True].  The Verdict field is the fifth line of the
    report when the document name and the date hold no newline. *)
Theorem report_agrees_with_result (env : Env) (input_file output_file content : string)
    (hex_panel : list TrialByHex.Reviewer) (plus_panel : list TrialByHexPlus.Reviewer)
    (w w1 : World) (reviews : list string) (synthesis : string)
    (d : gmap string value) :
  truthy (OPENROUTER_API_KEY env) = true ->
  files w !! resolve env input_file = Some content ->
  (TrialByHex.collect_reviews env hex_panel (resolve env input_file) content w
   = (Return reviews, w1) ->
   net env (sent w1) (hex_synthesis_request reviews TrialByHex.default_synthesis_model)
   = Return synthesis ->
   (TrialByHex.trial_by_hex_with env hex_panel input_file output_file w).1 = Return d ->
   exists report passed,
     files (TrialByHex.trial_by_hex_with env hex_panel input_file output_file w).2
       !! resolve env output_file = Some report /\
     dom d = ({["passed"; "synthesis"]} : gset string) /\
     d !! "synthesis" = Some (VStr synthesis) /\
     d !! "passed" = Some (VBool passed) /\
     (exists rest,
        report = "# Trial by Hex Review" +:+ nl +:+ nl
                 +:+ "**Document:** " +:+ path_name env (resolve env input_file) +:+ nl
                 +:+ "**Date:** " +:+ now_isoformat env +:+ nl
                 +:+ "**Verdict:** " +:+ (if passed then "✓ PASSED" else "⚠ NEEDS REVISION")
                 +:+ nl +:+ rest) /\
     (exists before after,
        report = before +:+ "## Synthesized Review" +:+ nl +:+ nl +:+ synthesis
                 +:+ nl +:+ nl +:+ "---" +:+ nl +:+ nl +:+ "## Individual Reviews" +:+ after) /\
     (occurs "010" (path_name env (resolve env input_file)) = false ->
      occurs "010" (now_isoformat env) = false ->
      (lines report !! 4 = Some "**Verdict:** ✓ PASSED"
       <-> d !! "passed" = Some (VBool true))))
  /\
  (TrialByHexPlus.collect_reviews env plus_panel (resolve env input_file) content w
   = (Return reviews, w1) ->
   net env (sent w1)
     (plus_synthesis_request reviews plus_panel TrialByHexPlus.default_synthesis_model)
   = Return synthesis ->
   (TrialByHexPlus.trial_by_hex_plus_with env plus_panel input_file output_file w).1
   = Return d ->
   exists report passed,
     files (TrialByHexPlus.trial_by_hex_plus_with env plus_panel input_file output_file w).2
       !! resolve env output_file = Some report /\
     dom d = ({["passed"; "synthesis"]} : gset string) /\
     d !! "synthesis" = Some (VStr synthesis) /\
     d !! "passed" = Some (VBool passed) /\
     (exists rest,
        report = "# Trial by Hex+ Review" +:+ nl +:+ nl
                 +:+ "**Document:** " +:+ path_name env (resolve env input_file) +:+ nl
                 +:+ "**Date:** " +:+ now_isoformat env +:+ nl
                 +:+ "**Verdict:** " +:+ (if passed then "PASSED" else "NEEDS REVISION")
                 +:+ nl +:+ rest) /\
     (exists before after,
        report = before +:+ "## Synthesized Review" +:+ nl +:+ nl +:+ synthesis
                 +:+ nl +:+ nl +:+ "---" +:+ nl +:+ nl +:+ "## Individual Reviews" +:+ after) /\
     (occurs "010" (path_name env (resolve env input_file)) = false ->
      occurs "010" (now_isoformat env) = false ->
      (lines report !! 4 = Some "**Verdict:** PASSED"
       <-> d !! "passed" = Some (VBool true)))).
Proof.
  intros Hkey Hfile. split; intros Hcollect Hnet Hret.
  - destruct (trial_by_hex_after_synthesis env hex_panel input_file output_file content w
                reviews w1 synthesis Hkey Hfile Hcollect Hnet)
      as (individual & _ & _ & [(Hrun & Hfiles & _) | (e & Hrun & _)]).
    2:{ rewrite Hrun in Hret. discriminate Hret. }
    rewrite Hrun in Hret. injection Hret as <-.
    eexists _, (TrialByHex.passed_of synthesis).
    split; [rewrite Hfiles; apply lookup_insert_eq |].
    destruct (hex_report_agrees (path_name env (resolve env input_file))
                (now_isoformat env) (TrialByHex.passed_of synthesis) synthesis individual)
      as (Hdom & Hsyn & Hembed & Hline).
    split; [exact Hdom |]. split; [exact Hsyn |].
    split; [apply lookup_insert_eq |].
    split; [apply hex_report_header |]. split; [exact Hembed | exact Hline].
  - destruct (trial_by_hex_plus_after_synthesis env plus_panel input_file output_file
                content w reviews w1 synthesis Hkey Hfile Hcollect Hnet)
      as (_ & [(Hrun & Hfiles & _) | (e & Hrun & _)]).
    2:{ rewrite Hrun in Hret. discriminate Hret. }
    rewrite Hrun in Hret. injection Hret as <-.
    eexists _, (TrialByHexPlus.passed_of synthesis).
    split; [rewrite Hfiles; apply lookup_insert_eq |].
    destruct (plus_report_agrees (path_name env (resolve env input_file))
                (now_isoformat env) (TrialByHexPlus.passed_of synthesis) synthesis
                (TrialByHexPlus.individual_reviews 0 reviews plus_panel))
      as (Hdom & Hsyn & Hembed & Hline).
    split; [exact Hdom |]. split; [exact Hsyn |].
    split; [apply lookup_insert_eq |].
    split; [apply plus_report_header |]. split; [exact Hembed | exact Hline].
Qed.

Lemma report_agrees_witness :
  (truthy (OPENROUTER_API_KEY (env_reviews_then 6 [Return passing_synthesis])) = true /\
   files (boot sample_disk) !! "/work/thesis.md" = Some sample_content /\
   net (env_reviews_then 6 [Return passing_synthesis])
     (sent (TrialByHex.collect_reviews (env_reviews_then 6 [Return passing_synthesis])
              TrialByHex.REVIEWERS "/work/thesis.md" sample_content (boot sample_disk)).2)
     (hex_synthesis_request (replicate 6 "Sound method.") TrialByHex.default_synthesis_model)
   = Return passing_synthesis /\
   (TrialByHex.trial_by_hex (env_reviews_then 6 [Return passing_synthesis])
      "/work/thesis.md" "/out/review.md" (boot sample_disk)).1
   = Return (TrialByHex.result_dict true passing_synthesis) /\
   exists report,
     files (TrialByHex.trial_by_hex (env_reviews_then 6 [Return passing_synthesis])
              "/work/thesis.md" "/out/review.md" (boot sample_disk)).2
       !! "/out/review.md" = Some report /\
     lines report !! 4 = Some "**Verdict:** ✓ PASSED")
  /\
  (truthy (OPENROUTER_API_KEY (env_reviews_then 12 [Return passing_synthesis])) = true /\
   net (env_reviews_then 12 [Return passing_synthesis])
     (sent (TrialByHexPlus.collect_reviews (env_reviews_then 12 [Return passing_synthesis])
              TrialByHexPlus.REVIEWERS "/work/thesis.md" sample_content (boot sample_disk)).2)
     (plus_synthesis_request (replicate 12 "Sound method.") TrialByHexPlus.REVIEWERS
        TrialByHexPlus.default_synthesis_model)
   = Return passing_synthesis /\
   (TrialByHexPlus.trial_by_hex_plus (env_reviews_then 12 [Return passing_synthesis])
      "/work/thesis.md" "/out/review.md" (boot sample_disk)).1
   = Return (TrialByHexPlus.result_dict true passing_synthesis) /\
   exists report,
     files (TrialByHexPlus.trial_by_hex_plus (env_reviews_then 12 [Return passing_synthesis])
              "/work/thesis.md" "/out/review.md" (boot sample_disk)).2
       !! "/out/review.md" = Some report /\
     lines report !! 4 = Some "**Verdict:** PASSED").
Proof.
  split.
  - set (env := env_reviews_then 6 [Return passing_synthesis]).
    assert (Hkey : truthy (OPENROUTER_API_KEY env) = true) by reflexivity.
    assert (Hfile : files (boot sample_disk) !! resolve env "/work/thesis.md"
                    = Some sample_content) by reflexivity.
    assert (Hcollect :
      TrialByHex.collect_reviews env TrialByHex.REVIEWERS
        (resolve env "/work/thesis.md") sample_content (boot sample_disk)
      = (Return (replicate 6 "Sound method."),
         (TrialByHex.collect_reviews env TrialByHex.REVIEWERS
            "/work/thesis.md" sample_content (boot sample_disk)).2))
      by (vm_compute; reflexivity).
    assert (Hnet :
      net env
        (sent (TrialByHex.collect_reviews env TrialByHex.REVIEWERS
                 "/work/thesis.md" sample_content (boot sample_disk)).2)
        (hex_synthesis_request (replicate 6 "Sound method.")
           TrialByHex.default_synthesis_model)
      = Return passing_synthesis) by (vm_compute; reflexivity).
    assert (Hret :
      (TrialByHex.trial_by_hex_with env TrialByHex.REVIEWERS
         "/work/thesis.md" "/out/review.md" (boot sample_disk)).1
      = Return (TrialByHex.result_dict true passing_synthesis))
      by (vm_compute; reflexivity).
    split; [exact Hkey |]. split; [exact Hfile |]. split; [exact Hnet |].
    split; [exact Hret |].
    destruct (proj1 (report_agrees_with_result env "/work/thesis.md" "/out/review.md"
                       sample_content TrialByHex.REVIEWERS TrialByHexPlus.REVIEWERS
                       (boot sample_disk) _ (replicate 6 "Sound method.")
                       passing_synthesis _ Hkey Hfile) Hcollect Hnet Hret)
      as (report & passed & Hreport & _ & _ & _ & _ & _ & Hline).
    exists report. split; [exact Hreport |].
    apply Hline; reflexivity.
  - set (env := env_reviews_then 12 [Return passing_synthesis]).
    assert (Hkey : truthy (OPENROUTER_API_KEY env) = true) by reflexivity.
    assert (Hfile : files (boot sample_disk) !! resolve env "/work/thesis.md"
                    = Some sample_content) by reflexivity.
    assert (Hcollect :
      TrialByHexPlus.collect_reviews env TrialByHexPlus.REVIEWERS
        (resolve env "/work/thesis.md") sample_content (boot sample_disk)
      = (Return (replicate 12 "Sound method."),
         (TrialByHexPlus.collect_reviews env TrialByHexPlus.REVIEWERS
            "/work/thesis.md" sample_content (boot sample_disk)).2))
      by (vm_compute; reflexivity).
    assert (Hnet :
      net env
        (sent (TrialByHexPlus.collect_reviews env TrialByHexPlus.REVIEWERS
                 "/work/thesis.md" sample_content (boot sample_disk)).2)
        (plus_synthesis_request (replicate 12 "Sound method.") TrialByHexPlus.REVIEWERS
           TrialByHexPlus.default_synthesis_model)
      = Return passing_synthesis) by (vm_compute; reflexivity).
    assert (Hret :
      (TrialByHexPlus.trial_by_hex_plus_with env TrialByHexPlus.REVIEWERS
         "/work/thesis.md" "/out/review.md" (boot sample_disk)).1
      = Return (TrialByHexPlus.result_dict true passing_synthesis))
      by (vm_compute; reflexivity).
    split; [exact Hkey |]. split; [exact Hnet |]. split; [exact Hret |].
    destruct (proj2 (report_agrees_with_result env "/work/thesis.md" "/out/review.md"
                       sample_content TrialByHex.REVIEWERS TrialByHexPlus.REVIEWERS
                       (boot sample_disk) _ (replicate 12 "Sound method.")
                       passing_synthesis _ Hkey Hfile) Hcollect Hnet Hret)
      as (report & passed & Hreport & _ & _ & _ & _ & _ & Hline).
    exists report. split; [exact Hreport |].
    apply Hline; reflexivity.
Defined.

(** Against C9 as stated: the document is stored under a file name that
    holds newlines and the text of a passed Verdict line.  The synthesis
    asks for a revision, the run returns [passed = False], and the first
    Verdict line of the report, its fifth line, reads the passed label; the
    Verdict field the run wrote is the seventh line. *)
Lemma forged_verdict_line_disagrees :
  ((TrialByHex.trial_by_hex (env_reviews_then 6 [Return revising_synthesis])
      ("/work/" +:+ forged_name) "/out/review.md" (boot forged_disk)).1
   = Return (TrialByHex.result_dict false revising_synthesis) /\
   exists report,
     files (TrialByHex.trial_by_hex (env_reviews_then 6 [Return revising_synthesis])
              ("/work/" +:+ forged_name) "/out/review.md" (boot forged_disk)).2
       !! "/out/review.md" = Some report /\
     lines report !! 4 = Some "**Verdict:** ✓ PASSED" /\
     lines report !! 6 = Some "**Verdict:** ⚠ NEEDS REVISION")
  /\
  ((TrialByHexPlus.trial_by_hex_plus (env_reviews_then 12 [Return revising_synthesis])
      ("/work/" +:+ forged_plus_name) "/out/review.md" (boot forged_disk)).1
   = Return (TrialByHexPlus.result_dict false revising_synthesis) /\
   exists report,
     files (TrialByHexPlus.trial_by_hex_plus
              (env_reviews_then 12 [Return revising_synthesis])
              ("/work/" +:+ forged_plus_name) "/out/review.md" (boot forged_disk)).2
       !! "/out/review.md" = Some report /\
     lines report !! 4 = Some "**Verdict:** PASSED" /\
     lines report !! 6 = Some "**Verdict:** NEEDS REVISION").
Proof.
  split.
  - split; [vm_compute; reflexivity |].
    eexists. split; [vm_compute; reflexivity |]. split; vm_compute; reflexivity.
  - split; [vm_compute; reflexivity |].
    eexists. split; [vm_compute; reflexivity |]. split; vm_compute; reflexivity.
Qed.





End RunClaims.

(** ** The synthesis input and the verdict *)

Module TextClaims.
Import Py Eff Spec PyFacts JoinFacts CaseFacts FallbackClaims.

Lemma fallbacks_in_order_witness :
  net env_second_try (sent (boot sample_disk))
    (hex_request sample_content (TrialByHex.persona accessibility)
       (TrialByHex.model accessibility))
  = Raise (Exception "429 Too Many Requests") /\
  exists n,
    1 <= n <= length TrialByHex.FALLBACK_MODELS /\
    models_since (boot sample_disk)
      (TrialByHex.get_review env_second_try sample_content
         (TrialByHex.persona accessibility) (TrialByHex.model accessibility)
         (boot sample_disk)).2
    = TrialByHex.model accessibility :: take n TrialByHex.FALLBACK_MODELS.
Proof.
  assert (H : net env_second_try (sent (boot sample_disk))
                (hex_request sample_content (TrialByHex.persona accessibility)
                   (TrialByHex.model accessibility))
              = Raise (Exception "429 Too Many Requests")) by reflexivity.
  split; [exact H |].
  destruct (fallbacks_in_order_until_success env_second_try sample_content
              (TrialByHex.persona accessibility) (TrialByHex.model accessibility)
              (boot sample_disk) _ H) as (n & Hn & Hmodels & _).
  exists n. split; [exact Hn | exact Hmodels].
Defined.

(** Against C10 as stated: when the first fallback answers, the models
    requested after the failed primary are that fallback alone, not the
    whole fallback list. *)
Lemma first_fallback_answer_ends_chain :
  net env_second_try (sent (boot sample_disk))
    (hex_request sample_content (TrialByHex.persona skeptic) (TrialByHex.model skeptic))
  = Raise (Exception "429 Too Many Requests") /\
  (TrialByHex.get_review env_second_try sample_content (TrialByHex.persona skeptic)
     (TrialByHex.model skeptic) (boot sample_disk)).1 = Return "a late review" /\
  models_since (boot sample_disk)
    (TrialByHex.get_review env_second_try sample_content (TrialByHex.persona skeptic)
       (TrialByHex.model skeptic) (boot sample_disk)).2
  = ["openai/gpt-5.1"; "x-ai/grok-4.1-fast:free"] /\
  drop 1 (models_since (boot sample_disk)
            (TrialByHex.get_review env_second_try sample_content
               (TrialByHex.persona skeptic) (TrialByHex.model skeptic)
               (boot sample_disk)).2)
  <> TrialByHex.FALLBACK_MODELS.
Proof. repeat split; try reflexivity. vm_compute. discriminate. Qed.

Lemma label_line_marker_free label review :
  marker_free label -> marker_free review ->
  marker_free ("### " +:+ label +:+ nl +:+ review).
Proof.
  unfold marker_free. intros Hlabel Hreview.
  change ("### " +:+ label +:+ nl +:+ review)
    with ("###" +:+ String " " (label +:+ String "010" review)).
  rewrite contains_cut by (reflexivity || discriminate).
  rewrite contains_cut by (reflexivity || discriminate).
  now rewrite Hlabel, Hreview.
Qed.

Lemma formatted_reviews_marker_free i reviews reviewer_info :
  Forall marker_free reviews ->
  (forall k reviewer, reviewer_info !! k = Some reviewer ->
     marker_free (TrialByHexPlus.display_name (i + k) reviewer)) ->
  Forall marker_free (TrialByHexPlus.formatted_reviews i reviews reviewer_info).
Proof.
  intros Hreviews. revert i reviewer_info.
  induction Hreviews as [|review reviews Hreview _ IH]; intros i [|reviewer info] Hlabels;
    simpl; try constructor.
  - apply label_line_marker_free; [| exact Hreview].
    specialize (Hlabels 0 reviewer eq_refl). now rewrite Nat.add_0_r in Hlabels.
  - apply IH. intros k r Hk. specialize (Hlabels (S k) r Hk).
    now rewrite Nat.add_succ_r in Hlabels.
Qed.

Lemma formatted_reviews_inj i reviewer_info reviews1 reviews2 :
  length reviews1 <= length reviewer_info -> length reviews2 <= length reviewer_info ->
  TrialByHexPlus.formatted_reviews i reviews1 reviewer_info
  = TrialByHexPlus.formatted_reviews i reviews2 reviewer_info ->
  reviews1 = reviews2.
Proof.
  revert i reviews1 reviews2.
  induction reviewer_info as [|reviewer info IH]; intros i [|a r1] [|b r2] H1 H2 H;
    simpl in *; try lia; try reflexivity; try discriminate H.
  injection H as Hab H. do 3 apply app_inv_head in Hab. subst b.
  f_equal. apply (IH (S i)); [lia | lia | exact H].
Qed.

Lemma formatted_reviews_lookup j reviews reviewer_info i review reviewer :
  reviews !! i = Some review -> reviewer_info !! i = Some reviewer ->
  TrialByHexPlus.formatted_reviews j reviews reviewer_info !! i
  = Some ("### " +:+ TrialByHexPlus.display_name (j + i) reviewer +:+ nl +:+ review).
Proof.
  revert j reviewer_info i.
  induction reviews as [|r reviews IH]; intros j [|x info] [|i] Hr Hi;
    simpl in *; try discriminate.
  - injection Hr as ->. injection Hi as ->. now rewrite Nat.add_0_r.
  - rewrite (IH (S j) info i Hr Hi). now rewrite Nat.add_succ_r.
Qed.

(** C3, as amended. The synthesis input is the review texts in panel
    order joined by the delimiter; trial_by_hex_plus.py puts before each
    text a line with the label of its reviewer (its name, or its position).
    No text is escaped, and the input is lossless only on texts free of the
    marker: on non-empty lists of texts that do not contain "---REVIEW---"
    the combined text determines the list, for trial_by_hex.py, and for
    trial_by_hex_plus.py when no review is dropped by [zip] and no label
    contains the marker. *)
Theorem synthesis_input_lossless_without_marker
    (reviewer_info : list TrialByHexPlus.Reviewer) (reviews1 reviews2 : list string) :
  reviews1 <> [] -> reviews2 <> [] ->
  Forall marker_free reviews1 -> Forall marker_free reviews2 ->
  (TrialByHex.combined reviews1 = TrialByHex.combined reviews2 -> reviews1 = reviews2)
  /\
  (length reviews1 <= length reviewer_info -> length reviews2 <= length reviewer_info ->
   labels_marker_free reviewer_info ->
   TrialByHexPlus.combined reviews1 reviewer_info
   = TrialByHexPlus.combined reviews2 reviewer_info ->
   reviews1 = reviews2)
  /\
  (forall i review reviewer,
     reviews1 !! i = Some review -> reviewer_info !! i = Some reviewer ->
     TrialByHexPlus.formatted_reviews 0 reviews1 reviewer_info !! i
     = Some ("### " +:+ TrialByHexPlus.display_name i reviewer +:+ nl +:+ review)).
Proof.
  intros Hne1 Hne2 Hfree1 Hfree2. split; [| split].
  - now apply join_delimiter_inj.
  - intros Hlen1 Hlen2 Hlabels H. unfold TrialByHexPlus.combined in H.
    change TrialByHexPlus.REVIEW_DELIMITER with TrialByHex.REVIEW_DELIMITER in H.
    apply (formatted_reviews_inj 0 reviewer_info); [assumption | assumption |].
    apply join_delimiter_inj; [| | | | exact H].
    + destruct reviews1, reviewer_info; simpl in *; try congruence; try lia; discriminate.
    + destruct reviews2, reviewer_info; simpl in *; try congruence; try lia; discriminate.
    + now apply formatted_reviews_marker_free.
    + now apply formatted_reviews_marker_free.
  - intros i review reviewer. apply (formatted_reviews_lookup 0).
Qed.

Lemma REVIEWERS_labels_marker_free : labels_marker_free TrialByHexPlus.REVIEWERS.
Proof.
  intros i reviewer H.
  do 12 (destruct i as [|i]; [injection H as <-; vm_compute; reflexivity |]).
  discriminate H.
Qed.

Lemma synthesis_input_witness :
  replicate 6 "Sound method." <> [] /\
  Forall marker_free (replicate 6 "Sound method.") /\
  length (replicate 6 "Sound method.") <= length TrialByHexPlus.REVIEWERS /\
  labels_marker_free TrialByHexPlus.REVIEWERS /\
  (TrialByHex.combined (replicate 6 "Sound method.")
   = TrialByHex.combined (replicate 6 "Sound method.") ->
   replicate 6 "Sound method." = replicate 6 "Sound method.") /\
  (TrialByHexPlus.combined (replicate 6 "Sound method.") TrialByHexPlus.REVIEWERS
   = TrialByHexPlus.combined (replicate 6 "Sound method.") TrialByHexPlus.REVIEWERS ->
   replicate 6 "Sound method." = replicate 6 "Sound method.") /\
  TrialByHexPlus.formatted_reviews 0 (replicate 6 "Sound method.")
    TrialByHexPlus.REVIEWERS !! 0
  = Some ("### Reviewer 1" +:+ nl +:+ "Sound method.").
Proof.
  assert (Hne : replicate 6 "Sound method." <> []) by discriminate.
  assert (Hfree : Forall marker_free (replicate 6 "Sound method."))
    by (repeat constructor).
  assert (Hlen : length (replicate 6 "Sound method.") <= length TrialByHexPlus.REVIEWERS)
    by (vm_compute; lia).
  destruct (synthesis_input_lossless_without_marker TrialByHexPlus.REVIEWERS
              (replicate 6 "Sound method.") (replicate 6 "Sound method.")
              Hne Hne Hfree Hfree) as (Hhex & Hplus & Hlabel).
  split; [exact Hne |]. split; [exact Hfree |]. split; [exact Hlen |].
  split; [exact REVIEWERS_labels_marker_free |]. split; [exact Hhex |].
  split; [exact (Hplus Hlen Hlen REVIEWERS_labels_marker_free) |].
  exact (Hlabel 0 "Sound method." _ eq_refl eq_refl).
Defined.

(** Against C3 as stated: two different lists of review texts, for the
    same panel, are combined into the same synthesis input, in either
    script; after concatenation it cannot be told which reviewer wrote
    "Too long.". *)
Lemma synthesis_input_ambiguous :
  (quoting_reviews_a <> quoting_reviews_b /\
   length quoting_reviews_a = length TrialByHex.REVIEWERS /\
   length quoting_reviews_b = length TrialByHex.REVIEWERS /\
   TrialByHex.combined quoting_reviews_a = TrialByHex.combined quoting_reviews_b)
  /\
  (labelled_reviews_a <> labelled_reviews_b /\
   length labelled_reviews_a = length TrialByHexPlus.REVIEWERS /\
   length labelled_reviews_b = length TrialByHexPlus.REVIEWERS /\
   TrialByHexPlus.combined labelled_reviews_a TrialByHexPlus.REVIEWERS
   = TrialByHexPlus.combined labelled_reviews_b TrialByHexPlus.REVIEWERS).
Proof.
  split; (split; [vm_compute; discriminate |]); repeat split; vm_compute; reflexivity.
Qed.

Lemma upper_needle_PASS : upper_needle "PASS".
Proof.
  intros c H. cbn [occurs] in H. rewrite orb_false_r in H.
  repeat (apply orb_true_iff in H as [H|H]; [apply Ascii.eqb_eq in H; now subst c |]).
  apply Ascii.eqb_eq in H. now subst c.
Qed.

Lemma upper_needle_REJECT : upper_needle "REJECT".
Proof.
  intros c H. cbn [occurs] in H. rewrite orb_false_r in H.
  repeat (apply orb_true_iff in H as [H|H]; [apply Ascii.eqb_eq in H; now subst c |]).
  apply Ascii.eqb_eq in H. now subst c.
Qed.

Lemma contains_nocase_PASS s : contains_nocase "PASS" s = contains_nocase "pass" s.
Proof.
  induction s as [|c s IH]; [reflexivity |].
  cbn [contains_nocase]. rewrite IH. reflexivity.
Qed.

Lemma contains_nocase_REJECT s : contains_nocase "REJECT" s = contains_nocase "reject" s.
Proof.
  induction s as [|c s IH]; [reflexivity |].
  cbn [contains_nocase]. rewrite IH. reflexivity.
Qed.

(** trial_by_hex.py classes a run as passed exactly when the synthesis
    text, ASCII, contains "pass" in any case; "reject" plays no part. *)
Lemma hex_passed_keyword (synthesis : string) :
  ascii_text synthesis = true ->
  TrialByHex.passed_of synthesis = contains_nocase "pass" synthesis.
Proof.
  intros _. unfold TrialByHex.passed_of.
  now rewrite (contains_upper _ _ upper_needle_PASS), contains_nocase_PASS.
Qed.

(** trial_by_hex_plus.py follows the keyword contract on ASCII text:
    passed if and only if the text contains "pass" and does not contain
    "reject", in any case. *)
Lemma plus_passed_keyword_contract (synthesis : string) :
  ascii_text synthesis = true ->
  TrialByHexPlus.passed_of synthesis = true
  <-> contains_nocase "pass" synthesis = true /\ contains_nocase "reject" synthesis = false.
Proof.
  intros _. unfold TrialByHexPlus.passed_of.
  rewrite (contains_upper _ _ upper_needle_PASS), (contains_upper _ _ upper_needle_REJECT).
  rewrite contains_nocase_PASS, contains_nocase_REJECT.
  rewrite andb_true_iff, negb_true_iff. reflexivity.
Qed.

(** C1, at the failing input. A synthesis whose verdict is REJECT and
    whose prose holds the letters "pass": trial_by_hex.py returns
    [passed = True] and writes "PASSED" on the Verdict line of its report,
    although the text contains "reject"; trial_by_hex_plus.py classes the
    same text as not passed. *)
Theorem hex_passes_rejecting_synthesis :
  ascii_text rejecting_synthesis = true /\
  contains_nocase "reject" rejecting_synthesis = true /\
  TrialByHex.passed_of rejecting_synthesis = true /\
  TrialByHexPlus.passed_of rejecting_synthesis = false /\
  (TrialByHex.trial_by_hex (env_reviews_then 6 [Return rejecting_synthesis])
     "/work/thesis.md" "/out/review.md" (boot sample_disk)).1
  = Return (TrialByHex.result_dict true rejecting_synthesis) /\
  (fun report => lines report !! 4) <$>
    files (TrialByHex.trial_by_hex (env_reviews_then 6 [Return rejecting_synthesis])
             "/work/thesis.md" "/out/review.md" (boot sample_disk)).2 !! "/out/review.md"
  = Some (Some "**Verdict:** ✓ PASSED").
Proof. repeat split; vm_compute; reflexivity. Qed.

End TextClaims.

(** ** Further facts: what [get_review] and the dispatch loop request *)

Module RequestFacts.
Import Py Eff Spec XSpec EffFacts HexFacts PlusFacts FallbackClaims.

Lemma startswith_refl (n : string) : startswith n n = true.
Proof.
  induction n as [|c n IH]; [reflexivity |].
  simpl. now rewrite Ascii.eqb_refl.
Qed.

Lemma contains_refl (n : string) : contains n n = true.
Proof. destruct n; simpl; [reflexivity |]. now rewrite Ascii.eqb_refl, startswith_refl. Qed.

Lemma contains_inside (n a b : string) : contains n (a +:+ n +:+ b) = true.
Proof. apply PyFacts.contains_app_r, PyFacts.contains_app_l, contains_refl. Qed.

Lemma hex_prompt_holds_persona persona :
  contains persona (TrialByHex.review_system_prompt persona) = true.
Proof. apply contains_inside. Qed.

Lemma plus_prompt_holds_persona reviewer :
  contains (TrialByHexPlus.persona reviewer) (TrialByHexPlus.system_prompt reviewer) = true.
Proof.
  unfold TrialByHexPlus.system_prompt.
  destruct (TrialByHexPlus.name reviewer) as [n|].
  - unfold TrialByHexPlus.specialist_system_prompt.
    rewrite <- 2 PyFacts.app_assoc. apply contains_inside.
  - apply contains_inside.
Qed.

Lemma hex_request_form content persona mdl :
  review_request_form content persona 1500 (hex_request content persona mdl).
Proof.
  eexists. split; [reflexivity |]. split; [apply hex_prompt_holds_persona | reflexivity].
Qed.

Lemma plus_request_form content reviewer mdl :
  review_request_form content (TrialByHexPlus.persona reviewer) 2000
    (plus_request content reviewer mdl).
Proof.
  eexists. split; [reflexivity |]. split; [apply plus_prompt_holds_persona | reflexivity].
Qed.

Lemma form_sends_document content persona tokens q :
  review_request_form content persona tokens q -> sends_document content q.
Proof. intros (system & H & _). now exists system. Qed.

Section Run.
Context (env : Env).

(** The requests of one [get_review]: the primary, then a prefix of the
    fallback list. *)
Lemma hex_get_review_requests content persona mdl w :
  exists n,
    n <= length TrialByHex.FALLBACK_MODELS /\
    sent (TrialByHex.get_review env content persona mdl w).2
    = (sent w ++ hex_request content persona mdl
         :: map (hex_request content persona) (take n TrialByHex.FALLBACK_MODELS))%list.
Proof.
  rewrite get_review_unfold. cbv zeta.
  destruct (net env (sent w) _) as [text|e].
  - exists 0. split; [lia | reflexivity].
  - destruct (try_fallbacks_trace env TrialByHex.FALLBACK_MODELS
                (TrialByHex.review_messages content persona) e
                (log_request (TrialByHex.payload mdl
                   (TrialByHex.review_messages content persona) 1500) w))
      as (n & Hn & _ & Hs & _).
    exists n. split; [exact Hn |]. rewrite Hs, sent_log_request, <- app_assoc. reflexivity.
Qed.

Lemma plus_get_review_requests content reviewer w :
  exists n,
    n <= length TrialByHexPlus.FALLBACK_MODELS /\
    sent (TrialByHexPlus.get_review env content reviewer w).2
    = (sent w ++ plus_request content reviewer (TrialByHexPlus.model reviewer)
         :: map (plus_request content reviewer) (take n TrialByHexPlus.FALLBACK_MODELS))%list.
Proof.
  rewrite plus_get_review_unfold. cbv zeta.
  destruct (net env (sent w) _) as [text|e].
  - exists 0. split; [lia | reflexivity].
  - destruct (plus_try_fallbacks_trace env TrialByHexPlus.FALLBACK_MODELS
                (TrialByHexPlus.review_messages content reviewer) e
                (log_request (TrialByHexPlus.payload (TrialByHexPlus.model reviewer)
                   (TrialByHexPlus.review_messages content reviewer) 2000) w))
      as (n & Hn & _ & Hs & _).
    exists n. split; [exact Hn |]. rewrite Hs, sent_log_request, <- app_assoc. reflexivity.
Qed.

End Run.

Lemma hex_get_review_uniform env content persona mdl w :
  exists requests,
    sent (TrialByHex.get_review env content persona mdl w).2 = (sent w ++ requests)%list /\
    1 <= length requests <= 1 + length TrialByHex.FALLBACK_MODELS /\
    req_model <$> head requests = Some mdl /\
    Forall (review_request_form content persona 1500) requests.
Proof.
  destruct (hex_get_review_requests env content persona mdl w) as (n & Hn & Hs).
  eexists. split; [exact Hs |]. split; [| split; [reflexivity |]].
  - simpl. rewrite length_map, length_take. simpl in *. lia.
  - constructor; [apply hex_request_form |].
    apply List.Forall_forall. intros q Hq. apply in_map_iff in Hq as (m & <- & _).
    apply hex_request_form.
Qed.

Lemma plus_get_review_uniform env content reviewer w :
  exists requests,
    sent (TrialByHexPlus.get_review env content reviewer w).2 = (sent w ++ requests)%list /\
    1 <= length requests <= 1 + length TrialByHexPlus.FALLBACK_MODELS /\
    req_model <$> head requests = Some (TrialByHexPlus.model reviewer) /\
    Forall (review_request_form content (TrialByHexPlus.persona reviewer) 2000) requests.
Proof.
  destruct (plus_get_review_requests env content reviewer w) as (n & Hn & Hs).
  eexists. split; [exact Hs |]. split; [| split; [reflexivity |]].
  - simpl. rewrite length_map, length_take. simpl in *. lia.
  - constructor; [apply plus_request_form |].
    apply List.Forall_forall. intros q Hq. apply in_map_iff in Hq as (m & <- & _).
    apply plus_request_form.
Qed.

(** X1. Whatever the remote side answers, one call of [get_review]
    sends at least one request and at most one per fallback model more; the
    first goes to the reviewer's own model; and every one of them, fallback
    or not, asks the same thing: a system message holding the persona, the
    document as the user message, unchanged, and the same token budget (1500
    in trial_by_hex.py, 2000 in trial_by_hex_plus.py). *)
Theorem get_review_requests_are_uniform (env : Env) (content persona mdl : string)
    (reviewer : TrialByHexPlus.Reviewer) (w : World) :
  (exists requests,
     sent (TrialByHex.get_review env content persona mdl w).2 = (sent w ++ requests)%list /\
     1 <= length requests <= 1 + length TrialByHex.FALLBACK_MODELS /\
     req_model <$> head requests = Some mdl /\
     Forall (review_request_form content persona 1500) requests)
  /\
  (exists requests,
     sent (TrialByHexPlus.get_review env content reviewer w).2 = (sent w ++ requests)%list /\
     1 <= length requests <= 1 + length TrialByHexPlus.FALLBACK_MODELS /\
     req_model <$> head requests = Some (TrialByHexPlus.model reviewer) /\
     Forall (review_request_form content (TrialByHexPlus.persona reviewer) 2000) requests).
Proof.
  split; [apply hex_get_review_uniform | apply plus_get_review_uniform].
Qed.

Lemma hex_try_fallbacks_first_answer env fallbacks messages e k fallback text w :
  fallbacks !! k = Some fallback ->
  (forall j earlier, j < k -> fallbacks !! j = Some earlier ->
     failed (net env (sent w ++ map (fun m => TrialByHex.payload m messages 1500)
                                   (take j fallbacks))
                     (TrialByHex.payload earlier messages 1500))) ->
  net env (sent w ++ map (fun m => TrialByHex.payload m messages 1500) (take k fallbacks))
          (TrialByHex.payload fallback messages 1500) = Return text ->
  (TrialByHex.try_fallbacks env fallbacks messages e w).1 = Return text /\
  sent (TrialByHex.try_fallbacks env fallbacks messages e w).2
  = (sent w ++ map (fun m => TrialByHex.payload m messages 1500)
                   (take (S k) fallbacks))%list.
Proof.
  revert k w. induction fallbacks as [|a rest IH]; intros [|k] w Hk Hfail Hanswer;
    simpl in Hk; try discriminate Hk.
  - injection Hk as ->. rewrite try_fallbacks_cons. cbv zeta.
    simpl in Hanswer. rewrite app_nil_r in Hanswer. rewrite Hanswer.
    split; reflexivity.
  - rewrite try_fallbacks_cons. cbv zeta.
    destruct (Hfail 0 a ltac:(lia) eq_refl) as [e' He'].
    simpl in He'. rewrite app_nil_r in He'. rewrite He'.
    match goal with |- context [TrialByHex.try_fallbacks env rest messages e ?w1] =>
      destruct (IH k w1 Hk) as [Hr Hs] end.
    + intros j earlier Hj Hearlier.
      specialize (Hfail (S j) earlier ltac:(lia) Hearlier).
      simpl in *. now rewrite <- app_assoc.
    + simpl in *. now rewrite <- app_assoc.
    + split; [exact Hr |]. rewrite Hs. simpl. now rewrite <- app_assoc.
Qed.

Lemma plus_try_fallbacks_first_answer env fallbacks messages e k fallback text w :
  fallbacks !! k = Some fallback ->
  (forall j earlier, j < k -> fallbacks !! j = Some earlier ->
     failed (net env (sent w ++ map (fun m => TrialByHexPlus.payload m messages 2000)
                                   (take j fallbacks))
                     (TrialByHexPlus.payload earlier messages 2000))) ->
  net env (sent w ++ map (fun m => TrialByHexPlus.payload m messages 2000) (take k fallbacks))
          (TrialByHexPlus.payload fallback messages 2000) = Return text ->
  (TrialByHexPlus.try_fallbacks env fallbacks messages e w).1 = Return text /\
  sent (TrialByHexPlus.try_fallbacks env fallbacks messages e w).2
  = (sent w ++ map (fun m => TrialByHexPlus.payload m messages 2000)
                   (take (S k) fallbacks))%list.
Proof.
  revert k w. induction fallbacks as [|a rest IH]; intros [|k] w Hk Hfail Hanswer;
    simpl in Hk; try discriminate Hk.
  - injection Hk as ->. rewrite plus_try_fallbacks_cons. cbv zeta.
    simpl in Hanswer. rewrite app_nil_r in Hanswer. rewrite Hanswer.
    split; reflexivity.
  - rewrite plus_try_fallbacks_cons. cbv zeta.
    destruct (Hfail 0 a ltac:(lia) eq_refl) as [e' He'].
    simpl in He'. rewrite app_nil_r in He'. rewrite He'.
    match goal with |- context [TrialByHexPlus.try_fallbacks env rest messages e ?w1] =>
      destruct (IH k w1 Hk) as [Hr Hs] end.
    + intros j earlier Hj Hearlier.
      specialize (Hfail (S j) earlier ltac:(lia) Hearlier).
      simpl in *. now rewrite <- app_assoc.
    + simpl in *. now rewrite <- app_assoc.
    + split; [exact Hr |]. rewrite Hs. simpl. now rewrite <- app_assoc.
Qed.

Lemma all_fail_prefix env history (P : string -> Request) fallbacks k :
  all_fail env history (map P (take k fallbacks)) ->
  forall j earlier, j < k -> fallbacks !! j = Some earlier ->
    failed (net env (history ++ map P (take j fallbacks)) (P earlier)).
Proof.
  intros H j earlier Hj Hearlier.
  specialize (H j (P earlier)).
  change (map P (take k fallbacks)) with (P <$> take k fallbacks) in H.
  rewrite list_lookup_fmap, lookup_take_lt, Hearlier in H by exact Hj.
  rewrite <- fmap_take, take_take in H.
  replace (j `min` k) with j in H by lia. now apply H.
Qed.

(** X2. If the primary model fails, the fallbacks before position [k]
    fail in their turn and the fallback at position [k] answers, then
    [get_review] returns the text of that fallback, the first one to answer,
    and the models requested are the primary and the fallbacks up to it; the
    failures before it are dropped without trace in the result. *)
Theorem first_answering_fallback_is_returned (env : Env) (content persona mdl : string)
    (reviewer : TrialByHexPlus.Reviewer) (w : World) (e : exn) (k : nat)
    (fallback text : string) :
  (net env (sent w) (hex_request content persona mdl) = Raise e ->
   all_fail env (sent w ++ [hex_request content persona mdl])
     (map (hex_request content persona) (take k TrialByHex.FALLBACK_MODELS)) ->
   TrialByHex.FALLBACK_MODELS !! k = Some fallback ->
   net env
     (sent w ++ hex_request content persona mdl
        :: map (hex_request content persona) (take k TrialByHex.FALLBACK_MODELS))
     (hex_request content persona fallback) = Return text ->
   (TrialByHex.get_review env content persona mdl w).1 = Return text /\
   models_since w (TrialByHex.get_review env content persona mdl w).2
   = mdl :: take (S k) TrialByHex.FALLBACK_MODELS)
  /\
  (net env (sent w) (plus_request content reviewer (TrialByHexPlus.model reviewer))
   = Raise e ->
   all_fail env (sent w ++ [plus_request content reviewer (TrialByHexPlus.model reviewer)])
     (map (plus_request content reviewer) (take k TrialByHexPlus.FALLBACK_MODELS)) ->
   TrialByHexPlus.FALLBACK_MODELS !! k = Some fallback ->
   net env
     (sent w ++ plus_request content reviewer (TrialByHexPlus.model reviewer)
        :: map (plus_request content reviewer) (take k TrialByHexPlus.FALLBACK_MODELS))
     (plus_request content reviewer fallback) = Return text ->
   (TrialByHexPlus.get_review env content reviewer w).1 = Return text /\
   models_since w (TrialByHexPlus.get_review env content reviewer w).2
   = TrialByHexPlus.model reviewer :: take (S k) TrialByHexPlus.FALLBACK_MODELS).
Proof.
  split; intros Hprimary Hfail Hk Hanswer.
  - unfold hex_request in Hprimary. rewrite get_review_unfold. cbv zeta. rewrite Hprimary.
    destruct (hex_try_fallbacks_first_answer env TrialByHex.FALLBACK_MODELS
                (TrialByHex.review_messages content persona) e k fallback text
                (log_request (TrialByHex.payload mdl
                   (TrialByHex.review_messages content persona) 1500) w) Hk)
      as [Hr Hs].
    + rewrite sent_log_request.
      exact (all_fail_prefix env _ (hex_request content persona) _ k Hfail).
    + rewrite sent_log_request, <- app_assoc. exact Hanswer.
    + split; [exact Hr |]. rewrite sent_log_request, <- app_assoc in Hs.
      rewrite (models_since_app _ _ _ Hs). simpl. f_equal. f_equal.
      rewrite map_map. simpl. apply map_id.
  - unfold plus_request in Hprimary. rewrite plus_get_review_unfold. cbv zeta.
    rewrite Hprimary.
    destruct (plus_try_fallbacks_first_answer env TrialByHexPlus.FALLBACK_MODELS
                (TrialByHexPlus.review_messages content reviewer) e k fallback text
                (log_request (TrialByHexPlus.payload (TrialByHexPlus.model reviewer)
                   (TrialByHexPlus.review_messages content reviewer) 2000) w) Hk)
      as [Hr Hs].
    + rewrite sent_log_request.
      exact (all_fail_prefix env _ (plus_request content reviewer) _ k Hfail).
    + rewrite sent_log_request, <- app_assoc. exact Hanswer.
    + split; [exact Hr |]. rewrite sent_log_request, <- app_assoc in Hs.
      rewrite (models_since_app _ _ _ Hs). simpl. f_equal. f_equal.
      rewrite map_map. simpl. apply map_id.
Qed.

Lemma first_answering_fallback_witness :
  (net env_last_fallback (sent (boot sample_disk))
     (hex_request sample_content (TrialByHex.persona skeptic) (TrialByHex.model skeptic))
   = Raise (Exception "429 Too Many Requests") /\
   all_fail env_last_fallback
     (sent (boot sample_disk)
      ++ [hex_request sample_content (TrialByHex.persona skeptic) (TrialByHex.model skeptic)])
     (map (hex_request sample_content (TrialByHex.persona skeptic))
        (take 2 TrialByHex.FALLBACK_MODELS)) /\
   (TrialByHex.get_review env_last_fallback sample_content (TrialByHex.persona skeptic)
      (TrialByHex.model skeptic) (boot sample_disk)).1 = Return "a very late review" /\
   models_since (boot sample_disk)
     (TrialByHex.get_review env_last_fallback sample_content (TrialByHex.persona skeptic)
        (TrialByHex.model skeptic) (boot sample_disk)).2
   = ["openai/gpt-5.1"; "x-ai/grok-4.1-fast:free"; "anthropic/claude-haiku-4.5";
      "openai/gpt-5-nano"])
  /\
  (net env_last_fallback (sent (boot sample_disk))
     (plus_request sample_content sentinel (TrialByHexPlus.model sentinel))
   = Raise (Exception "429 Too Many Requests") /\
   (TrialByHexPlus.get_review env_last_fallback sample_content sentinel
      (boot sample_disk)).1 = Return "a very late review").
Proof.
  pose proof (first_answering_fallback_is_returned env_last_fallback sample_content
                (TrialByHex.persona skeptic) (TrialByHex.model skeptic) sentinel
                (boot sample_disk) (Exception "429 Too Many Requests") 2
                "openai/gpt-5-nano" "a very late review") as [Hhex Hplus].
  split.
  - assert (H : net env_last_fallback (sent (boot sample_disk))
                  (hex_request sample_content (TrialByHex.persona skeptic)
                     (TrialByHex.model skeptic))
                = Raise (Exception "429 Too Many Requests")) by reflexivity.
    assert (Hall : all_fail env_last_fallback
              (sent (boot sample_disk)
               ++ [hex_request sample_content (TrialByHex.persona skeptic)
                     (TrialByHex.model skeptic)])
              (map (hex_request sample_content (TrialByHex.persona skeptic))
                 (take 2 TrialByHex.FALLBACK_MODELS))).
    { intros j q Hj. destruct j as [|[|j]]; try discriminate Hj;
        injection Hj as <-; eexists; reflexivity. }
    split; [exact H |]. split; [exact Hall |].
    exact (Hhex H Hall eq_refl eq_refl).
  - assert (H : net env_last_fallback (sent (boot sample_disk))
                  (plus_request sample_content sentinel (TrialByHexPlus.model sentinel))
                = Raise (Exception "429 Too Many Requests")) by reflexivity.
    assert (Hall : all_fail env_last_fallback
              (sent (boot sample_disk)
               ++ [plus_request sample_content sentinel (TrialByHexPlus.model sentinel)])
              (map (plus_request sample_content sentinel)
                 (take 2 TrialByHexPlus.FALLBACK_MODELS))).
    { intros j q Hj. destruct j as [|[|j]]; try discriminate Hj;
        injection Hj as <-; eexists; reflexivity. }
    split; [exact H |].
    exact (proj1 (Hplus H Hall eq_refl eq_refl)).
Defined.

Section Loop.
Context (env : Env).

Lemma hex_review_loop_requests content panel i reviews w :
  exists requests,
    sent (TrialByHex.review_loop env content i panel reviews w).2
    = (sent w ++ requests)%list /\
    length panel <= length requests
      <= length panel * (1 + length TrialByHex.FALLBACK_MODELS) /\
    Forall (sends_document content) requests.
Proof.
  revert i reviews w. induction panel as [|reviewer rest IH]; intros i reviews w.
  - exists []. simpl. rewrite app_nil_r. repeat split; try lia. constructor.
  - destruct (review_loop_cons env content i reviewer w) as (w2 & Hs2 & _ & _ & Hstep).
    rewrite Hstep.
    destruct (hex_get_review_uniform env content (TrialByHex.persona reviewer)
                (TrialByHex.model reviewer) w)
      as (q1 & Hq1 & Hlen1 & _ & Hform1).
    match goal with |- context [TrialByHex.review_loop env content (S i) rest ?acc w2] =>
      destruct (IH (S i) acc w2) as (q2 & Hq2 & Hlen2 & Hform2) end.
    exists (q1 ++ q2)%list. rewrite Hq2, Hs2, Hq1, <- app_assoc.
    split; [reflexivity |]. split.
    + rewrite length_app. simpl length in *. lia.
    + apply Forall_app. split; [| exact Hform2].
      eapply Forall_impl; [exact Hform1 |]. intros q. apply form_sends_document.
Qed.

Lemma plus_review_loop_requests content panel i reviews w :
  exists requests,
    sent (TrialByHexPlus.review_loop env content i panel reviews w).2
    = (sent w ++ requests)%list /\
    length panel <= length requests
      <= length panel * (1 + length TrialByHexPlus.FALLBACK_MODELS) /\
    Forall (sends_document content) requests.
Proof.
  revert i reviews w. induction panel as [|reviewer rest IH]; intros i reviews w.
  - exists []. simpl. rewrite app_nil_r. repeat split; try lia. constructor.
  - destruct (plus_review_loop_cons env content i reviewer w) as (w2 & Hs2 & _ & _ & Hstep).
    rewrite Hstep.
    destruct (plus_get_review_uniform env content reviewer w)
      as (q1 & Hq1 & Hlen1 & _ & Hform1).
    match goal with |- context [TrialByHexPlus.review_loop env content (S i) rest ?acc w2] =>
      destruct (IH (S i) acc w2) as (q2 & Hq2 & Hlen2 & Hform2) end.
    exists (q1 ++ q2)%list. rewrite Hq2, Hs2, Hq1, <- app_assoc.
    split; [reflexivity |]. split.
    + rewrite length_app. simpl length in *. lia.
    + apply Forall_app. split; [| exact Hform2].
      eapply Forall_impl; [exact Hform1 |]. intros q. apply form_sends_document.
Qed.

End Loop.

(** X3. Whatever the remote side answers, dispatching a panel of N
    reviewers sends at least N requests and at most N times (1 + number of
    fallback models), and each of them carries the document as its user
    message, unchanged: nothing is truncated, split or summarised on the way
    to a reviewer, primary or fallback. *)
Theorem dispatch_request_bounds (env : Env) (content : string)
    (hex_panel : list TrialByHex.Reviewer) (plus_panel : list TrialByHexPlus.Reviewer)
    (w : World) :
  (exists requests,
     sent (TrialByHex.review_loop env content 0 hex_panel [] w).2
     = (sent w ++ requests)%list /\
     length hex_panel <= length requests
       <= length hex_panel * (1 + length TrialByHex.FALLBACK_MODELS) /\
     Forall (sends_document content) requests)
  /\
  (exists requests,
     sent (TrialByHexPlus.review_loop env content 0 plus_panel [] w).2
     = (sent w ++ requests)%list /\
     length plus_panel <= length requests
       <= length plus_panel * (1 + length TrialByHexPlus.FALLBACK_MODELS) /\
     Forall (sends_document content) requests).
Proof.
  split; [apply hex_review_loop_requests | apply plus_review_loop_requests].
Qed.

End RequestFacts.

(** ** Further facts: every path through a run *)

Module RunFacts.
Import Py Eff Spec XSpec EffFacts HexFacts HexRun PlusFacts RunClaims RequestFacts.

Section Run.
Context (env : Env).


(** Nothing at the input path: the run reports it and ends. *)
Lemma hex_run_without_input panel input_file output_file w :
  truthy (OPENROUTER_API_KEY env) = true ->
  files w !! resolve env input_file = None ->
  unreadable env (resolve env input_file) = None ->
  resolve env input_file ∉ mkdirs w ->
  TrialByHex.trial_by_hex_with env panel input_file output_file w
  = (Return (TrialByHex.result_dict false "Input file not found"),
     say ("ERROR: Input file not found: " +:+ resolve env input_file) w).
Proof.
  intros Hkey Hfile Hnone Hdir. unfold TrialByHex.trial_by_hex_with. rewrite Hkey. cbn [negb].
  erewrite bind_return; [| exact (path_exists_nothing _ _ _ Hfile Hnone Hdir)].
  cbn [negb]. rewrite bind_print. reflexivity.
Qed.

(** Something at the input path that cannot be read as text: the test for
    the path passes and [read_text] raises. *)
Lemma hex_run_unreadable_input panel input_file output_file w e :
  truthy (OPENROUTER_API_KEY env) = true ->
  files w !! resolve env input_file = None ->
  unreadable env (resolve env input_file) = Some e ->
  TrialByHex.trial_by_hex_with env panel input_file output_file w = (Raise e, w).
Proof.
  intros Hkey Hfile Hsome. unfold TrialByHex.trial_by_hex_with. rewrite Hkey. cbn [negb].
  erewrite bind_return; [| exact (path_exists_unreadable _ _ _ _ Hsome)].
  cbn [negb].
  erewrite bind_raise; [reflexivity | exact (read_text_unreadable _ _ _ _ Hfile Hsome)].
Qed.


Lemma hex_configured_run panel input_file output_file content w :
  truthy (OPENROUTER_API_KEY env) = true ->
  files w !! resolve env input_file = Some content ->
  exists reviews requests,
    length reviews = length panel /\
    length panel <= length requests
      <= length panel * (1 + length TrialByHex.FALLBACK_MODELS) /\
    Forall (sends_document content) requests /\
    sent (TrialByHex.trial_by_hex_with env panel input_file output_file w).2
    = (sent w ++ requests
       ++ [hex_synthesis_request reviews
             TrialByHex.default_synthesis_model])%list /\
    match net env (sent w ++ requests)
            (hex_synthesis_request reviews
               TrialByHex.default_synthesis_model) with
    | Raise e =>
        (TrialByHex.trial_by_hex_with env panel input_file output_file w).1 = Raise e /\
        files (TrialByHex.trial_by_hex_with env panel input_file output_file w).2 = files w /\
        mkdirs (TrialByHex.trial_by_hex_with env panel input_file output_file w).2 = mkdirs w
    | Return synthesis =>
        exists individual,
          (forall w0, TrialByHex.individual_reviews panel 0 reviews w0
                      = (Return individual, w0)) /\
          (((TrialByHex.trial_by_hex_with env panel input_file output_file w).1
            = Return (TrialByHex.result_dict (TrialByHex.passed_of synthesis) synthesis) /\
            files (TrialByHex.trial_by_hex_with env panel input_file output_file w).2
            = <[resolve env output_file :=
                TrialByHex.report_head (path_name env (resolve env input_file))
                  (now_isoformat env) (TrialByHex.passed_of synthesis) synthesis
                +:+ individual]> (files w) /\
            mkdirs (TrialByHex.trial_by_hex_with env panel input_file output_file w).2
            = (mkdirs w ++ [path_parent env (resolve env output_file)])%list)
           \/
           (exists e,
              (TrialByHex.trial_by_hex_with env panel input_file output_file w).1 = Raise e /\
              (files (TrialByHex.trial_by_hex_with env panel input_file output_file w).2 = files w
               \/ exists partial,
                    files (TrialByHex.trial_by_hex_with env panel input_file output_file w).2
                    = <[resolve env output_file := partial]> (files w)) /\
              (mkdirs (TrialByHex.trial_by_hex_with env panel input_file output_file w).2 = mkdirs w
               \/ mkdirs (TrialByHex.trial_by_hex_with env panel input_file output_file w).2
                  = (mkdirs w ++ [path_parent env (resolve env output_file)])%list)))
    end.
Proof.
  intros Hkey Hfile.
  destruct (collect_reviews_loop env panel (resolve env input_file) content w)
    as (wb & Hsb & Hfb & Hmb & Hloop).
  destruct (review_loop_run env content panel 0 [] wb)
    as (reviews & w1 & Hrun & Hlen & Hf1 & Hm1).
  destruct (hex_review_loop_requests env content panel 0 [] wb)
    as (requests & Hsent & Hbound & Hform).
  rewrite Hrun in Hsent. cbn [snd] in Hsent. rewrite Hsb in Hsent.
  rewrite Hrun in Hloop. cbn [app] in Hloop.
  exists reviews, requests. split; [exact Hlen |]. split; [exact Hbound |].
  split; [exact Hform |].
  destruct (net env (sent w ++ requests)
              (hex_synthesis_request reviews TrialByHex.default_synthesis_model))
    as [synthesis|e] eqn:Hnet.
  - rewrite <- Hsent in Hnet.
    destruct (trial_by_hex_after_synthesis env panel input_file output_file content w reviews w1
                synthesis Hkey Hfile Hloop Hnet) as (individual & Hind & Hs & Hcases).
    split.
    + rewrite Hs, Hsent, <- List.app_assoc. reflexivity.
    + eexists. split; [exact Hind | exact Hcases].
  - unfold hex_synthesis_request in Hnet.
    rewrite (trial_by_hex_to_synthesis env panel _ _ _ _ _ _ Hkey Hfile Hloop).
    erewrite bind_raise.
    2:{ rewrite synthesize_reviews_unfold, sent_say, Hsent, Hnet. reflexivity. }
    cbn [fst snd]. split.
    + simpl. rewrite Hsent, <- List.app_assoc. reflexivity.
    + split; [reflexivity |]. simpl. rewrite Hf1, Hfb, Hm1, Hmb. split; reflexivity.
Qed.


(** Nothing at the input path: the run reports it and ends. *)
Lemma plus_run_without_input panel input_file output_file w :
  truthy (OPENROUTER_API_KEY env) = true ->
  files w !! resolve env input_file = None ->
  unreadable env (resolve env input_file) = None ->
  resolve env input_file ∉ mkdirs w ->
  TrialByHexPlus.trial_by_hex_plus_with env panel input_file output_file w
  = (Return (TrialByHexPlus.result_dict false "Input file not found"),
     say ("ERROR: Input file not found: " +:+ resolve env input_file) w).
Proof.
  intros Hkey Hfile Hnone Hdir. unfold TrialByHexPlus.trial_by_hex_plus_with. rewrite Hkey. cbn [negb].
  erewrite bind_return; [| exact (path_exists_nothing _ _ _ Hfile Hnone Hdir)].
  cbn [negb]. rewrite bind_print. reflexivity.
Qed.

(** Something at the input path that cannot be read as text: the test for
    the path passes and [read_text] raises. *)
Lemma plus_run_unreadable_input panel input_file output_file w e :
  truthy (OPENROUTER_API_KEY env) = true ->
  files w !! resolve env input_file = None ->
  unreadable env (resolve env input_file) = Some e ->
  TrialByHexPlus.trial_by_hex_plus_with env panel input_file output_file w = (Raise e, w).
Proof.
  intros Hkey Hfile Hsome. unfold TrialByHexPlus.trial_by_hex_plus_with. rewrite Hkey. cbn [negb].
  erewrite bind_return; [| exact (path_exists_unreadable _ _ _ _ Hsome)].
  cbn [negb].
  erewrite bind_raise; [reflexivity | exact (read_text_unreadable _ _ _ _ Hfile Hsome)].
Qed.


Lemma plus_configured_run panel input_file output_file content w :
  truthy (OPENROUTER_API_KEY env) = true ->
  files w !! resolve env input_file = Some content ->
  exists reviews requests,
    length reviews = length panel /\
    length panel <= length requests
      <= length panel * (1 + length TrialByHexPlus.FALLBACK_MODELS) /\
    Forall (sends_document content) requests /\
    sent (TrialByHexPlus.trial_by_hex_plus_with env panel input_file output_file w).2
    = (sent w ++ requests
       ++ [plus_synthesis_request reviews panel
             TrialByHexPlus.default_synthesis_model])%list /\
    match net env (sent w ++ requests)
            (plus_synthesis_request reviews panel
               TrialByHexPlus.default_synthesis_model) with
    | Raise e =>
        (TrialByHexPlus.trial_by_hex_plus_with env panel input_file output_file w).1 = Raise e /\
        files (TrialByHexPlus.trial_by_hex_plus_with env panel input_file output_file w).2 = files w /\
        mkdirs (TrialByHexPlus.trial_by_hex_plus_with env panel input_file output_file w).2 = mkdirs w
    | Return synthesis =>
        exists individual,
          individual = TrialByHexPlus.individual_reviews 0 reviews panel /\
          (((TrialByHexPlus.trial_by_hex_plus_with env panel input_file output_file w).1
            = Return (TrialByHexPlus.result_dict (TrialByHexPlus.passed_of synthesis) synthesis) /\
            files (TrialByHexPlus.trial_by_hex_plus_with env panel input_file output_file w).2
            = <[resolve env output_file :=
                TrialByHexPlus.report_text (path_name env (resolve env input_file))
                  (now_isoformat env) (TrialByHexPlus.passed_of synthesis) synthesis
                  individual]> (files w) /\
            mkdirs (TrialByHexPlus.trial_by_hex_plus_with env panel input_file output_file w).2
            = (mkdirs w ++ [path_parent env (resolve env output_file)])%list)
           \/
           (exists e,
              (TrialByHexPlus.trial_by_hex_plus_with env panel input_file output_file w).1 = Raise e /\
              (files (TrialByHexPlus.trial_by_hex_plus_with env panel input_file output_file w).2 = files w
               \/ exists partial,
                    files (TrialByHexPlus.trial_by_hex_plus_with env panel input_file output_file w).2
                    = <[resolve env output_file := partial]> (files w)) /\
              (mkdirs (TrialByHexPlus.trial_by_hex_plus_with env panel input_file output_file w).2 = mkdirs w
               \/ mkdirs (TrialByHexPlus.trial_by_hex_plus_with env panel input_file output_file w).2
                  = (mkdirs w ++ [path_parent env (resolve env output_file)])%list)))
    end.
Proof.
  intros Hkey Hfile.
  destruct (plus_collect_reviews_loop env panel (resolve env input_file) content w)
    as (wb & Hsb & Hfb & Hmb & Hloop).
  destruct (plus_review_loop_run env content panel 0 [] wb)
    as (reviews & w1 & Hrun & Hlen & Hf1 & Hm1).
  destruct (plus_review_loop_requests env content panel 0 [] wb)
    as (requests & Hsent & Hbound & Hform).
  rewrite Hrun in Hsent. cbn [snd] in Hsent. rewrite Hsb in Hsent.
  rewrite Hrun in Hloop. cbn [app] in Hloop.
  exists reviews, requests. split; [exact Hlen |]. split; [exact Hbound |].
  split; [exact Hform |].
  destruct (net env (sent w ++ requests)
              (plus_synthesis_request reviews panel TrialByHexPlus.default_synthesis_model))
    as [synthesis|e] eqn:Hnet.
  - rewrite <- Hsent in Hnet.
    destruct (trial_by_hex_plus_after_synthesis env panel input_file output_file content w reviews w1
                synthesis Hkey Hfile Hloop Hnet) as (Hs & Hcases).
    split.
    + rewrite Hs, Hsent, <- List.app_assoc. reflexivity.
    + eexists. split; [reflexivity | exact Hcases].
  - unfold plus_synthesis_request in Hnet.
    rewrite (trial_by_hex_plus_to_synthesis env panel _ _ _ _ _ _ Hkey Hfile Hloop).
    erewrite bind_raise.
    2:{ rewrite plus_synthesize_reviews_unfold, sent_say, Hsent, Hnet. reflexivity. }
    cbn [fst snd]. split.
    + simpl. rewrite Hsent, <- List.app_assoc. reflexivity.
    + split; [reflexivity |]. simpl. rewrite Hf1, Hfb, Hm1, Hmb. split; reflexivity.
Qed.

End Run.





(** X4. With the credential set and no readable file at the resolved
    input path: when nothing is at the path, neither a file nor a directory,
    either script prints one error line naming the resolved path and returns
    the dictionary [{"passed": False, "synthesis": "Input file not found"}],
    and no request is sent, no file written and no directory made; when the
    path holds something that cannot be read as text (a directory, a file
    that is not UTF-8), the test for the path passes and the run raises the
    error of [read_text] before it prints or requests anything. *)
Theorem missing_input_ends_run_before_dispatch (env : Env)
    (input_file output_file : string)
    (hex_panel : list TrialByHex.Reviewer) (plus_panel : list TrialByHexPlus.Reviewer)
    (w : World) :
  truthy (OPENROUTER_API_KEY env) = true ->
  files w !! resolve env input_file = None ->
  (unreadable env (resolve env input_file) = None ->
   resolve env input_file ∉ mkdirs w ->
   TrialByHex.trial_by_hex_with env hex_panel input_file output_file w
   = (Return (TrialByHex.result_dict false "Input file not found"),
      say ("ERROR: Input file not found: " +:+ resolve env input_file) w)
   /\ TrialByHexPlus.trial_by_hex_plus_with env plus_panel input_file output_file w
      = (Return (TrialByHexPlus.result_dict false "Input file not found"),
         say ("ERROR: Input file not found: " +:+ resolve env input_file) w))
  /\
  (forall e,
     unreadable env (resolve env input_file) = Some e ->
     TrialByHex.trial_by_hex_with env hex_panel input_file output_file w = (Raise e, w)
     /\ TrialByHexPlus.trial_by_hex_plus_with env plus_panel input_file output_file w
        = (Raise e, w)).
Proof.
  intros Hkey Hfile. split.
  - intros Hnone Hdir. split.
    + now apply hex_run_without_input.
    + now apply plus_run_without_input.
  - intros e Hsome. split.
    + now apply hex_run_unreadable_input.
    + now apply plus_run_unreadable_input.
Qed.

Lemma missing_input_witness :
  (truthy (OPENROUTER_API_KEY env_primary_up) = true /\
   files (boot empty_disk) !! "/work/thesis.md" = None /\
   TrialByHex.trial_by_hex env_primary_up "/work/thesis.md" "/out/review.md"
     (boot empty_disk)
   = (Return (TrialByHex.result_dict false "Input file not found"),
      {| sent := []; stdout := ["ERROR: Input file not found: /work/thesis.md"];
         files := empty_disk; mkdirs := [] |}))
  /\
  (files (boot sample_disk) !! "/work" = None /\
   TrialByHex.trial_by_hex env_primary_up "/work" "/out/review.md" (boot sample_disk)
   = (Raise (Exception "[Errno 21] Is a directory: '/work'"), boot sample_disk)).
Proof.
  assert (Hkey : truthy (OPENROUTER_API_KEY env_primary_up) = true) by reflexivity.
  split.
  - assert (Hfile : files (boot empty_disk) !! resolve env_primary_up "/work/thesis.md"
                    = None) by reflexivity.
    split; [exact Hkey |]. split; [exact Hfile |].
    refine (proj1 (proj1 (missing_input_ends_run_before_dispatch env_primary_up
                            "/work/thesis.md" "/out/review.md"
                            TrialByHex.REVIEWERS TrialByHexPlus.REVIEWERS
                            (boot empty_disk) Hkey Hfile) eq_refl _)).
    simpl. apply not_elem_of_nil.
  - assert (Hfile : files (boot sample_disk) !! resolve env_primary_up "/work" = None)
      by reflexivity.
    split; [exact Hfile |].
    exact (proj1 (proj2 (missing_input_ends_run_before_dispatch env_primary_up
                           "/work" "/out/review.md"
                           TrialByHex.REVIEWERS TrialByHexPlus.REVIEWERS
                           (boot sample_disk) Hkey Hfile) _ eq_refl)).
Defined.





End RunFacts.

(** ** Further facts: verdicts and report sections *)

Module SectionFacts.
Import Py Eff Spec XSpec PyFacts CaseFacts EffFacts TextClaims RequestFacts RunFacts.

Lemma slice_to_all (n : nat) (s : string) :
  String.length s <= n -> slice_to n s = s.
Proof.
  revert n. induction s as [|c s IH]; intros n Hn.
  - now destruct n.
  - destruct n as [|n]; simpl in Hn; [lia |]. simpl. rewrite IH by lia. reflexivity.
Qed.

Lemma slice_to_slice_to (n m : nat) (s : string) :
  n <= m -> slice_to n (slice_to m s) = slice_to n s.
Proof.
  revert m s. induction n as [|n IH]; intros m s Hnm; [reflexivity |].
  destruct m as [|m]; [lia |]. destruct s as [|c s]; [reflexivity |].
  simpl. rewrite IH by lia. reflexivity.
Qed.

Lemma length_slice_to (n : nat) (s : string) :
  String.length (slice_to n s) = Nat.min n (String.length s).
Proof.
  revert s. induction n as [|n IH]; intros s; [reflexivity |].
  destruct s as [|c s]; [reflexivity |]. simpl. now rewrite IH.
Qed.

(** The text after "**Focus:** " in a section of the trial_by_hex_plus.py
    report. *)
Lemma plus_focus (persona : string) :
  slice_to 100 (slice_to 200 persona) +:+
  (if (100 <? String.length (slice_to 200 persona))%nat then "..." else "")
  = if (String.length persona <=? 100)%nat then persona
    else slice_to 100 persona +:+ "...".
Proof.
  rewrite slice_to_slice_to by lia. rewrite length_slice_to.
  destruct (String.length persona <=? 100)%nat eqn:Hlen.
  - apply Nat.leb_le in Hlen.
    rewrite (proj2 (Nat.ltb_ge _ _)) by lia.
    rewrite app_nil_r. apply slice_to_all, Hlen.
  - apply Nat.leb_gt in Hlen.
    rewrite (proj2 (Nat.ltb_lt _ _)) by lia. reflexivity.
Qed.

(** The generator of trial_by_hex.py, when a review has no reviewer. *)
Lemma hex_individual_reviews_raises panel i reviews w :
  i <= length panel -> length panel < i + length reviews ->
  TrialByHex.individual_reviews panel i reviews w
  = (Raise (Exception "list index out of range"), w).
Proof.
  revert i. induction reviews as [|r rest IH]; intros i Hi0 Hlen; simpl in Hlen.
  - lia.
  - simpl. destruct (panel !! i) as [reviewer|] eqn:Hi; [| reflexivity].
    apply lookup_lt_Some in Hi.
    erewrite bind_raise; [reflexivity |]. apply IH; lia.
Qed.

Lemma hex_individual_reviews_returns panel i reviews :
  i + length reviews <= length panel ->
  exists text, forall w,
    TrialByHex.individual_reviews panel i reviews w = (Return text, w).
Proof.
  revert i. induction reviews as [|r rest IH]; intros i Hlen.
  - now exists "".
  - simpl in Hlen. destruct (lookup_lt_is_Some_2 panel i) as [reviewer Hi]; [lia |].
    destruct (IH (S i)) as [tail Htail]; [lia |].
    exists (TrialByHex.review_section i reviewer r +:+ tail). intros w.
    simpl. rewrite Hi. erewrite bind_return; [| apply Htail]. reflexivity.
Qed.

Lemma hex_individual_reviews_section panel i reviews w text w' j r :
  TrialByHex.individual_reviews panel i reviews w = (Return text, w') ->
  reviews !! j = Some r ->
  exists reviewer before after,
    panel !! (i + j) = Some reviewer /\
    text = before +:+ TrialByHex.review_section (i + j) reviewer r +:+ after.
Proof.
  revert i text j. induction reviews as [|r0 rest IH]; intros i text j Hrun Hj.
  - discriminate Hj.
  - simpl in Hrun. destruct (panel !! i) as [reviewer|] eqn:Hi; [| discriminate Hrun].
    destruct (TrialByHex.individual_reviews panel (S i) rest w) as [[tail|e] w1] eqn:Htail.
    2:{ erewrite bind_raise in Hrun; [| exact Htail]. discriminate Hrun. }
    erewrite bind_return in Hrun; [| exact Htail].
    injection Hrun as <- <-.
    destruct j as [|j].
    + injection Hj as ->. exists reviewer, "", tail.
      rewrite Nat.add_0_r, app_nil_l. split; [exact Hi | reflexivity].
    + destruct (IH (S i) tail j Htail Hj) as (rv & before & after & Hrv & ->).
      exists rv, (TrialByHex.review_section i reviewer r0 +:+ before), after.
      rewrite Nat.add_succ_r. split; [exact Hrv |].
      now rewrite app_assoc.
Qed.

Lemma plus_individual_reviews_section i reviews panel j r reviewer :
  reviews !! j = Some r -> panel !! j = Some reviewer ->
  exists before after,
    TrialByHexPlus.individual_reviews i reviews panel
    = before +:+ TrialByHexPlus.review_section (i + j) reviewer r +:+ after.
Proof.
  revert i panel j. induction reviews as [|r0 rest IH]; intros i panel j Hj Hp.
  - discriminate Hj.
  - destruct panel as [|rv0 panel]; [discriminate Hp |].
    destruct j as [|j].
    + injection Hj as ->. injection Hp as ->.
      exists "", (TrialByHexPlus.individual_reviews (S i) rest panel).
      rewrite Nat.add_0_r, app_nil_l. reflexivity.
    + destruct (IH (S i) panel j Hj Hp) as (before & after & Heq).
      exists (TrialByHexPlus.review_section i rv0 r0 +:+ before), after.
      cbn [TrialByHexPlus.individual_reviews]. rewrite Heq, Nat.add_succ_r.
      now rewrite app_assoc.
Qed.

Lemma plus_individual_reviews_zip i reviews panel :
  TrialByHexPlus.individual_reviews i reviews panel
  = TrialByHexPlus.individual_reviews i (take (length panel) reviews)
      (take (length reviews) panel).
Proof.
  revert i panel. induction reviews as [|r rest IH]; intros i panel.
  - now destruct panel.
  - destruct panel as [|rv panel]; [reflexivity |].
    cbn [length take TrialByHexPlus.individual_reviews]. now rewrite <- IH.
Qed.

(** X8. On ASCII text, trial_by_hex.py (both versions of it) classes a
    synthesis as passed exactly when it contains "pass" in any case, and
    trial_by_hex_plus.py exactly when it contains "pass" and does not
    contain "reject", in any case.  So a text that passes the plus rule
    passes the hex rule, and the two differ exactly on the texts that hold
    both words. *)
Theorem verdict_keyword_rules (synthesis : string) :
  ascii_text synthesis = true ->
  TrialByHex.passed_of synthesis = contains_nocase "pass" synthesis /\
  TrialByHexLegacy.passed_of synthesis = contains_nocase "pass" synthesis /\
  TrialByHexPlus.passed_of synthesis
  = contains_nocase "pass" synthesis && negb (contains_nocase "reject" synthesis).
Proof.
  intros _.
  unfold TrialByHex.passed_of, TrialByHexLegacy.passed_of, TrialByHexPlus.passed_of.
  rewrite (contains_upper _ _ upper_needle_PASS), (contains_upper _ _ upper_needle_REJECT).
  rewrite contains_nocase_PASS, contains_nocase_REJECT. repeat split.
Qed.

Lemma verdict_keyword_witness :
  ascii_text "Revise; do not bypass the reviewers. Rejected." = true /\
  TrialByHex.passed_of "Revise; do not bypass the reviewers. Rejected." = true /\
  TrialByHexPlus.passed_of "Revise; do not bypass the reviewers. Rejected." = false.
Proof.
  assert (Hascii : ascii_text "Revise; do not bypass the reviewers. Rejected." = true)
    by reflexivity.
  destruct (verdict_keyword_rules _ Hascii) as (Hhex & _ & Hplus).
  split; [exact Hascii |]. split.
  - rewrite Hhex. reflexivity.
  - rewrite Hplus. reflexivity.
Defined.

(** X9. In a section of the trial_by_hex_plus.py report, the Focus line
    shows the whole persona when it has at most 100 characters, and its
    first 100 characters followed by "..." otherwise; the cut at 200
    characters made before has no effect on the report. *)
Theorem focus_is_persona_cut_at_100 (i : nat) (reviewer : TrialByHexPlus.Reviewer)
    (review : string) :
  ascii_text (TrialByHexPlus.persona reviewer) = true ->
  TrialByHexPlus.review_section i reviewer review
  = "### " +:+ pretty (i + 1)%nat +:+ ". " +:+ TrialByHexPlus.display_name i reviewer
    +:+ nl +:+ "**Model:** " +:+ TrialByHexPlus.model reviewer
    +:+ nl +:+ "**Focus:** "
    +:+ (if (String.length (TrialByHexPlus.persona reviewer) <=? 100)%nat
         then TrialByHexPlus.persona reviewer
         else slice_to 100 (TrialByHexPlus.persona reviewer) +:+ "...")
    +:+ nl +:+ nl +:+ review +:+ nl +:+ nl +:+ "---" +:+ nl +:+ nl.
Proof.
  intros _. unfold TrialByHexPlus.review_section. cbv zeta.
  rewrite <- plus_focus. rewrite !app_assoc. reflexivity.
Qed.

Lemma focus_witness :
  ascii_text (TrialByHexPlus.persona sentinel) = true /\
  TrialByHexPlus.review_section 6 sentinel "Sound method."
  = "### 7. The Ethical Alignment Sentinel
**Model:** openai/gpt-5.1
**Focus:** AI ethicist and safety researcher.

Sound method.

---

".
Proof.
  assert (Hascii : ascii_text (TrialByHexPlus.persona sentinel) = true) by reflexivity.
  split; [exact Hascii |].
  exact (focus_is_persona_cut_at_100 6 sentinel "Sound method." Hascii).
Defined.

(** X10. The report generator of trial_by_hex.py looks the reviewer of
    the i-th review up by index in the panel: it produces the sections
    exactly when there are no more reviews than reviewers, and raises
    IndexError ("list index out of range") exactly when there are more; it
    has no other effect.  The loop of trial_by_hex_plus.py zips the two
    lists instead: it never raises, and the reviews beyond the panel (or the
    reviewers beyond the reviews) are dropped without notice. *)
Theorem report_sections_follow_the_panel
    (hex_panel : list TrialByHex.Reviewer) (plus_panel : list TrialByHexPlus.Reviewer)
    (reviews : list string) (w : World) :
  ((TrialByHex.individual_reviews hex_panel 0 reviews w).2 = w /\
   ((exists text, (TrialByHex.individual_reviews hex_panel 0 reviews w).1 = Return text)
    <-> length reviews <= length hex_panel) /\
   ((TrialByHex.individual_reviews hex_panel 0 reviews w).1
    = Raise (Exception "list index out of range")
    <-> length hex_panel < length reviews))
  /\
  TrialByHexPlus.individual_reviews 0 reviews plus_panel
  = TrialByHexPlus.individual_reviews 0 (take (length plus_panel) reviews)
      (take (length reviews) plus_panel).
Proof.
  split; [| apply plus_individual_reviews_zip].
  destruct (le_lt_dec (length reviews) (length hex_panel)) as [Hle|Hlt].
  - destruct (hex_individual_reviews_returns hex_panel 0 reviews) as [text Htext];
      [simpl; lia |].
    rewrite Htext. cbn [fst snd]. split; [reflexivity |]. split; split.
    + intros _. exact Hle.
    + intros _. now exists text.
    + intros H. discriminate H.
    + intros H. lia.
  - rewrite hex_individual_reviews_raises by (simpl; lia).
    cbn [fst snd]. split; [reflexivity |]. split; split.
    + intros [text H]. discriminate H.
    + intros H. lia.
    + intros _. exact Hlt.
    + intros _. reflexivity.
Qed.

Lemma plus_report_around_individual name date passed synthesis individual :
  exists head,
    TrialByHexPlus.report_text name date passed synthesis individual
    = head +:+ individual +:+ nl.
Proof.
  exists ("# Trial by Hex+ Review" +:+ nl +:+ nl +:+ "**Document:** " +:+ name +:+ nl
          +:+ "**Date:** " +:+ date +:+ nl
          +:+ "**Verdict:** " +:+ TrialByHexPlus.verdict_label passed +:+ nl
          +:+ "**Reviewers:** 12 specialized AI reviewers via OpenRouter" +:+ nl +:+ nl
          +:+ "---" +:+ nl +:+ nl +:+ "## Synthesized Review" +:+ nl +:+ nl
          +:+ synthesis +:+ nl +:+ nl +:+ "---" +:+ nl +:+ nl
          +:+ "## Individual Reviews" +:+ nl +:+ nl).
  unfold TrialByHexPlus.report_text. rewrite !app_assoc. reflexivity.
Qed.

Section Listing.
Context (env : Env).

Lemma hex_report_lists_reviews panel input_file output_file content w d :
  truthy (OPENROUTER_API_KEY env) = true ->
  files w !! resolve env input_file = Some content ->
  (TrialByHex.trial_by_hex_with env panel input_file output_file w).1 = Return d ->
  exists reviews requests report,
    length reviews = length panel /\
    sent (TrialByHex.trial_by_hex_with env panel input_file output_file w).2
    = (sent w ++ requests
       ++ [hex_synthesis_request reviews TrialByHex.default_synthesis_model])%list /\
    files (TrialByHex.trial_by_hex_with env panel input_file output_file w).2
      !! resolve env output_file = Some report /\
    forall j reviewer,
      panel !! j = Some reviewer ->
      exists r before after,
        reviews !! j = Some r /\
        report = before +:+ TrialByHex.review_section j reviewer r +:+ after.
Proof.
  intros Hkey Hfile Hret.
  destruct (hex_configured_run env panel input_file output_file content w Hkey Hfile)
    as (reviews & requests & Hlen & _ & _ & Hsent & Hend).
  destruct (net env (sent w ++ requests) _) as [synthesis|e].
  2:{ destruct Hend as (Hr & _). rewrite Hr in Hret. discriminate Hret. }
  destruct Hend as (individual & Hind & [(_ & Hf & _) | (e & Hr & _)]).
  2:{ rewrite Hr in Hret. discriminate Hret. }
  exists reviews, requests. eexists. split; [exact Hlen |]. split; [exact Hsent |].
  split; [rewrite Hf; apply lookup_insert_eq |].
  intros j reviewer Hj.
  destruct (lookup_lt_is_Some_2 reviews j) as [r Hr].
  { rewrite Hlen. eapply lookup_lt_Some, Hj. }
  destruct (hex_individual_reviews_section panel 0 reviews w individual w j r
              (Hind w) Hr) as (rv & before & after & Hrv & ->).
  simpl in Hrv. rewrite Hj in Hrv. injection Hrv as <-.
  exists r, (TrialByHex.report_head (path_name env (resolve env input_file))
               (now_isoformat env) (TrialByHex.passed_of synthesis) synthesis
             +:+ before), after.
  split; [exact Hr |]. now rewrite app_assoc.
Qed.

Lemma plus_report_lists_reviews panel input_file output_file content w d :
  truthy (OPENROUTER_API_KEY env) = true ->
  files w !! resolve env input_file = Some content ->
  (TrialByHexPlus.trial_by_hex_plus_with env panel input_file output_file w).1 = Return d ->
  exists reviews requests report,
    length reviews = length panel /\
    sent (TrialByHexPlus.trial_by_hex_plus_with env panel input_file output_file w).2
    = (sent w ++ requests
       ++ [plus_synthesis_request reviews panel
             TrialByHexPlus.default_synthesis_model])%list /\
    files (TrialByHexPlus.trial_by_hex_plus_with env panel input_file output_file w).2
      !! resolve env output_file = Some report /\
    forall j reviewer,
      panel !! j = Some reviewer ->
      exists r before after,
        reviews !! j = Some r /\
        report = before +:+ TrialByHexPlus.review_section j reviewer r +:+ after.
Proof.
  intros Hkey Hfile Hret.
  destruct (plus_configured_run env panel input_file output_file content w Hkey Hfile)
    as (reviews & requests & Hlen & _ & _ & Hsent & Hend).
  destruct (net env (sent w ++ requests) _) as [synthesis|e].
  2:{ destruct Hend as (Hr & _). rewrite Hr in Hret. discriminate Hret. }
  destruct Hend as (individual & -> & [(_ & Hf & _) | (e & Hr & _)]).
  2:{ rewrite Hr in Hret. discriminate Hret. }
  exists reviews, requests. eexists. split; [exact Hlen |]. split; [exact Hsent |].
  split; [rewrite Hf; apply lookup_insert_eq |].
  intros j reviewer Hj.
  destruct (lookup_lt_is_Some_2 reviews j) as [r Hr].
  { rewrite Hlen. eapply lookup_lt_Some, Hj. }
  destruct (plus_individual_reviews_section 0 reviews panel j r reviewer Hr Hj)
    as (before & after & Heq).
  destruct (plus_report_around_individual (path_name env (resolve env input_file))
              (now_isoformat env) (TrialByHexPlus.passed_of synthesis) synthesis
              (TrialByHexPlus.individual_reviews 0 reviews panel)) as [head Hhead].
  exists r, (head +:+ before), (after +:+ nl). split; [exact Hr |].
  rewrite Hhead, Heq. simpl (0 + j). now rewrite !app_assoc.
Qed.

End Listing.

(** X11. When a run of either script returns after reading the input
    file, the report at the output path lists every reviewer of the panel:
    for the reviewer at index j it holds the section of that reviewer
    (number j+1, its model or name, its persona) around the j-th review
    text, and these review texts are the ones the synthesis request was built
    from. *)
Theorem report_lists_every_review (env : Env) (input_file output_file content : string)
    (hex_panel : list TrialByHex.Reviewer) (plus_panel : list TrialByHexPlus.Reviewer)
    (w : World) (d : gmap string value) :
  (truthy (OPENROUTER_API_KEY env) = true ->
   files w !! resolve env input_file = Some content ->
   (TrialByHex.trial_by_hex_with env hex_panel input_file output_file w).1 = Return d ->
   exists reviews requests report,
     length reviews = length hex_panel /\
     sent (TrialByHex.trial_by_hex_with env hex_panel input_file output_file w).2
     = (sent w ++ requests
        ++ [hex_synthesis_request reviews TrialByHex.default_synthesis_model])%list /\
     files (TrialByHex.trial_by_hex_with env hex_panel input_file output_file w).2
       !! resolve env output_file = Some report /\
     forall j reviewer,
       hex_panel !! j = Some reviewer ->
       exists r before after,
         reviews !! j = Some r /\
         report = before +:+ TrialByHex.review_section j reviewer r +:+ after)
  /\
  (truthy (OPENROUTER_API_KEY env) = true ->
   files w !! resolve env input_file = Some content ->
   (TrialByHexPlus.trial_by_hex_plus_with env plus_panel input_file output_file w).1
   = Return d ->
   exists reviews requests report,
     length reviews = length plus_panel /\
     sent (TrialByHexPlus.trial_by_hex_plus_with env plus_panel input_file output_file w).2
     = (sent w ++ requests
        ++ [plus_synthesis_request reviews plus_panel
              TrialByHexPlus.default_synthesis_model])%list /\
     files (TrialByHexPlus.trial_by_hex_plus_with env plus_panel input_file output_file w).2
       !! resolve env output_file = Some report /\
     forall j reviewer,
       plus_panel !! j = Some reviewer ->
       exists r before after,
         reviews !! j = Some r /\
         report = before +:+ TrialByHexPlus.review_section j reviewer r +:+ after).
Proof.
  split; [apply hex_report_lists_reviews | apply plus_report_lists_reviews].
Qed.

Lemma report_lists_witness :
  truthy (OPENROUTER_API_KEY (env_reviews_then 6 [Return passing_synthesis])) = true /\
  files (boot sample_disk) !! "/work/thesis.md" = Some sample_content /\
  (TrialByHex.trial_by_hex (env_reviews_then 6 [Return passing_synthesis])
     "/work/thesis.md" "/out/review.md" (boot sample_disk)).1
  = Return (TrialByHex.result_dict true passing_synthesis) /\
  exists report r before after,
    files (TrialByHex.trial_by_hex (env_reviews_then 6 [Return passing_synthesis])
             "/work/thesis.md" "/out/review.md" (boot sample_disk)).2
      !! "/out/review.md" = Some report /\
    report = before +:+ TrialByHex.review_section 1 skeptic r +:+ after.
Proof.
  set (env := env_reviews_then 6 [Return passing_synthesis]).
  assert (Hkey : truthy (OPENROUTER_API_KEY env) = true) by reflexivity.
  assert (Hfile : files (boot sample_disk) !! resolve env "/work/thesis.md"
                  = Some sample_content) by reflexivity.
  assert (Hret :
    (TrialByHex.trial_by_hex_with env TrialByHex.REVIEWERS
       "/work/thesis.md" "/out/review.md" (boot sample_disk)).1
    = Return (TrialByHex.result_dict true passing_synthesis)) by (vm_compute; reflexivity).
  split; [exact Hkey |]. split; [exact Hfile |]. split; [exact Hret |].
  destruct (proj1 (report_lists_every_review env "/work/thesis.md" "/out/review.md"
                     sample_content TrialByHex.REVIEWERS TrialByHexPlus.REVIEWERS
                     (boot sample_disk) (TrialByHex.result_dict true passing_synthesis))
              Hkey Hfile Hret)
    as (reviews & requests & report & _ & _ & Hreport & Hall).
  destruct (Hall 1 skeptic eq_refl) as (r & before & after & _ & Heq).
  exists report, r, before, after. split; [exact Hreport | exact Heq].
Defined.

End SectionFacts.

(** ** Further facts: progress lines, the command line, the first version *)

Module CliFacts.
Import Py Eff Proc Spec XSpec PyFacts EffFacts HexFacts PlusFacts RunClaims.

Section Announce.
Context (env : Env).

Lemma hex_try_fallbacks_announced fallbacks messages e w :
  exists k,
    k <= length fallbacks /\
    sent (TrialByHex.try_fallbacks env fallbacks messages e w).2
    = (sent w ++ map (fun m => TrialByHex.payload m messages 1500) (take k fallbacks))%list /\
    stdout (TrialByHex.try_fallbacks env fallbacks messages e w).2
    = (stdout w ++ map announce (take k fallbacks))%list.
Proof.
  revert w. induction fallbacks as [|fallback rest IH]; intros w.
  - exists 0. split; [lia |]. simpl. rewrite !List.app_nil_r. split; reflexivity.
  - rewrite try_fallbacks_cons. cbv zeta.
    destruct (net env (sent w) _) as [text|e'].
    + exists 1. split; [simpl; lia |]. simpl. split; reflexivity.
    + destruct (IH (log_request (TrialByHex.payload fallback messages 1500)
                      (say ("    Falling back to " +:+ fallback +:+ "...") w)))
        as (k & Hk & Hs & Ho).
      exists (S k). split; [simpl; lia |]. rewrite Hs, Ho. simpl.
      rewrite <- !List.app_assoc. split; reflexivity.
Qed.

Lemma plus_try_fallbacks_announced fallbacks messages e w :
  exists k,
    k <= length fallbacks /\
    sent (TrialByHexPlus.try_fallbacks env fallbacks messages e w).2
    = (sent w ++ map (fun m => TrialByHexPlus.payload m messages 2000)
                   (take k fallbacks))%list /\
    stdout (TrialByHexPlus.try_fallbacks env fallbacks messages e w).2
    = (stdout w ++ map announce (take k fallbacks))%list.
Proof.
  revert w. induction fallbacks as [|fallback rest IH]; intros w.
  - exists 0. split; [lia |]. simpl. rewrite !List.app_nil_r. split; reflexivity.
  - rewrite plus_try_fallbacks_cons. cbv zeta.
    destruct (net env (sent w) _) as [text|e'].
    + exists 1. split; [simpl; lia |]. simpl. split; reflexivity.
    + destruct (IH (log_request (TrialByHexPlus.payload fallback messages 2000)
                      (say ("    Falling back to " +:+ fallback +:+ "...") w)))
        as (k & Hk & Hs & Ho).
      exists (S k). split; [simpl; lia |]. rewrite Hs, Ho. simpl.
      rewrite <- !List.app_assoc. split; reflexivity.
Qed.

Lemma hex_get_review_announced content persona mdl w :
  exists k,
    k <= length TrialByHex.FALLBACK_MODELS /\
    sent (TrialByHex.get_review env content persona mdl w).2
    = (sent w ++ hex_request content persona mdl
         :: map (hex_request content persona) (take k TrialByHex.FALLBACK_MODELS))%list /\
    stdout (TrialByHex.get_review env content persona mdl w).2
    = (stdout w ++ map announce (take k TrialByHex.FALLBACK_MODELS))%list.
Proof.
  rewrite get_review_unfold. cbv zeta.
  destruct (net env (sent w) _) as [text|e].
  - exists 0. split; [lia |]. simpl. rewrite List.app_nil_r. split; reflexivity.
  - destruct (hex_try_fallbacks_announced TrialByHex.FALLBACK_MODELS
                (TrialByHex.review_messages content persona) e
                (log_request (TrialByHex.payload mdl
                   (TrialByHex.review_messages content persona) 1500) w))
      as (k & Hk & Hs & Ho).
    exists k. split; [exact Hk |]. rewrite Hs, Ho. simpl.
    rewrite <- !List.app_assoc. split; reflexivity.
Qed.

Lemma plus_get_review_announced content reviewer w :
  exists k,
    k <= length TrialByHexPlus.FALLBACK_MODELS /\
    sent (TrialByHexPlus.get_review env content reviewer w).2
    = (sent w ++ plus_request content reviewer (TrialByHexPlus.model reviewer)
         :: map (plus_request content reviewer)
              (take k TrialByHexPlus.FALLBACK_MODELS))%list /\
    stdout (TrialByHexPlus.get_review env content reviewer w).2
    = (stdout w ++ map announce (take k TrialByHexPlus.FALLBACK_MODELS))%list.
Proof.
  rewrite plus_get_review_unfold. cbv zeta.
  destruct (net env (sent w) _) as [text|e].
  - exists 0. split; [lia |]. simpl. rewrite List.app_nil_r. split; reflexivity.
  - destruct (plus_try_fallbacks_announced TrialByHexPlus.FALLBACK_MODELS
                (TrialByHexPlus.review_messages content reviewer) e
                (log_request (TrialByHexPlus.payload (TrialByHexPlus.model reviewer)
                   (TrialByHexPlus.review_messages content reviewer) 2000) w))
      as (k & Hk & Hs & Ho).
    exists k. split; [exact Hk |]. rewrite Hs, Ho. simpl.
    rewrite <- !List.app_assoc. split; reflexivity.
Qed.

End Announce.

(** X12. The requests of one call of [get_review] are the request to the
    reviewer's own model followed by requests to the first k fallback
    models, in the order of FALLBACK_MODELS, for some k; and what the call
    prints is exactly one line "Falling back to <model>..." for each of
    these k fallback requests, in the same order.  No fallback is requested
    without being announced, and none is announced without being
    requested. *)
Theorem fallbacks_are_announced (env : Env) (content persona mdl : string)
    (reviewer : TrialByHexPlus.Reviewer) (w : World) :
  (exists k,
     k <= length TrialByHex.FALLBACK_MODELS /\
     sent (TrialByHex.get_review env content persona mdl w).2
     = (sent w ++ hex_request content persona mdl
          :: map (hex_request content persona) (take k TrialByHex.FALLBACK_MODELS))%list /\
     stdout (TrialByHex.get_review env content persona mdl w).2
     = (stdout w ++ map announce (take k TrialByHex.FALLBACK_MODELS))%list)
  /\
  (exists k,
     k <= length TrialByHexPlus.FALLBACK_MODELS /\
     sent (TrialByHexPlus.get_review env content reviewer w).2
     = (sent w ++ plus_request content reviewer (TrialByHexPlus.model reviewer)
          :: map (plus_request content reviewer)
               (take k TrialByHexPlus.FALLBACK_MODELS))%list /\
     stdout (TrialByHexPlus.get_review env content reviewer w).2
     = (stdout w ++ map announce (take k TrialByHexPlus.FALLBACK_MODELS))%list).
Proof.
  split; [apply hex_get_review_announced | apply plus_get_review_announced].
Qed.

(** *** What the usage text prints *)

Lemma say_all_nil w : say_all [] w = w.
Proof. destruct w. unfold say_all. simpl. now rewrite List.app_nil_r. Qed.

Lemma say_all_say line lines w : say_all lines (say line w) = say_all (line :: lines) w.
Proof. unfold say_all, say. simpl. now rewrite <- List.app_assoc. Qed.

Lemma say_all_app lines1 lines2 w :
  say_all lines2 (say_all lines1 w) = say_all (lines1 ++ lines2) w.
Proof. unfold say_all. simpl. now rewrite <- List.app_assoc. Qed.

Lemma say_say_all line lines w : say line (say_all lines w) = say_all (lines ++ [line]) w.
Proof. unfold say_all, say. simpl. now rewrite <- List.app_assoc. Qed.

Lemma hex_print_reviewers_out rs w :
  TrialByHexCli.print_reviewers rs w
  = (Return tt,
     say_all (map (fun r => "  • " +:+ TrialByHex.model r +:+ ": " +:+ TrialByHex.persona r)
                rs) w).
Proof.
  revert w. induction rs as [|r rest IH]; intros w.
  - simpl. now rewrite say_all_nil.
  - cbn [TrialByHexCli.print_reviewers]. rewrite bind_print, IH, say_all_say. reflexivity.
Qed.

Lemma legacy_print_reviewers_out rs w :
  TrialByHexLegacy.print_reviewers rs w
  = (Return tt,
     say_all (map (fun r => "  • " +:+ TrialByHex.model r +:+ ": " +:+ TrialByHex.persona r)
                rs) w).
Proof.
  revert w. induction rs as [|r rest IH]; intros w.
  - simpl. now rewrite say_all_nil.
  - cbn [TrialByHexLegacy.print_reviewers]. rewrite bind_print, IH, say_all_say.
    reflexivity.
Qed.

Lemma cli_print_originals_out rs i w :
  TrialByHexPlusCli.print_originals i rs w
  = (Return tt,
     say_all (concat (imap (fun j r => [ "  " +:+ pretty (i + j + 1)%nat +:+ ". "
                                           +:+ TrialByHexPlus.model r;
                                         "     -> " +:+ TrialByHexPlus.persona r ])
                        rs)) w).
Proof.
  revert i w. induction rs as [|r rest IH]; intros i w.
  - simpl. now rewrite say_all_nil.
  - cbn [TrialByHexPlusCli.print_originals]. rewrite !bind_print, IH, !say_all_say.
    rewrite imap_cons. cbn [concat app]. rewrite Nat.add_0_r.
    do 5 f_equal. apply imap_ext. intros j x _. unfold compose.
    replace (i + S j + 1) with (S i + j + 1) by lia. reflexivity.
Qed.

Lemma cli_print_plus_out rs i w :
  Forall (fun r => is_Some (TrialByHexPlus.name r)) rs ->
  TrialByHexPlusCli.print_plus i rs w
  = (Return tt,
     say_all (concat (imap (fun j r => [ "  " +:+ pretty (i + j + 7)%nat +:+ ". "
                                           +:+ default "" (TrialByHexPlus.name r);
                                         "     -> " +:+ TrialByHexPlus.model r ])
                        rs)) w).
Proof.
  intros Hnamed. revert i w.
  induction Hnamed as [|r rest [n Hn] _ IH]; intros i w.
  - simpl. now rewrite say_all_nil.
  - cbn [TrialByHexPlusCli.print_plus]. rewrite Hn, !bind_print, IH, !say_all_say.
    rewrite imap_cons. cbn [concat app]. rewrite Nat.add_0_r, Hn. cbn [default].
    do 5 f_equal. apply imap_ext. intros j x _. unfold compose.
    replace (i + S j + 7) with (S i + j + 7) by lia. reflexivity.
Qed.

Lemma hex_print_usage_out w :
  TrialByHexCli.print_usage w = (Return tt, say_all hex_usage_lines w).
Proof.
  unfold TrialByHexCli.print_usage. rewrite !bind_print.
  erewrite bind_return; [| apply hex_print_reviewers_out].
  rewrite !bind_print. unfold print. f_equal.
  repeat (rewrite say_all_say || rewrite say_say_all || rewrite say_all_app).
  unfold hex_usage_lines.
  first [reflexivity | f_equal; simpl; rewrite <- ?List.app_assoc; reflexivity].
Qed.

Lemma plus_print_usage_out w :
  TrialByHexPlusCli.print_usage w = (Return tt, say_all plus_usage_lines w).
Proof.
  unfold TrialByHexPlusCli.print_usage. rewrite !bind_print.
  erewrite bind_return; [| apply cli_print_originals_out].
  rewrite bind_print.
  erewrite bind_return; [| apply (cli_print_plus_out _ _ _ PLUS_REVIEWERS_named)].
  rewrite !bind_print. unfold print. f_equal.
  repeat (rewrite say_all_say || rewrite say_say_all || rewrite say_all_app).
  unfold plus_usage_lines.
  first [reflexivity | f_equal; simpl; rewrite <- ?List.app_assoc; reflexivity].
Qed.

Lemma legacy_print_key_help_run w :
  exists w', TrialByHexLegacy.print_key_help w = (Return tt, w') /\
    sent w' = sent w /\ files w' = files w /\ mkdirs w' = mkdirs w.
Proof.
  unfold TrialByHexLegacy.print_key_help. rewrite !bind_print.
  eexists. split; [reflexivity |]. repeat split.
Qed.

Section Main.
Context (env : Env).

Lemma hex_main_usage argv w :
  length argv < 3 ->
  TrialByHexCli.main env argv w = (Return (SysExit 1), say_all hex_usage_lines w).
Proof.
  intros Hlen. unfold TrialByHexCli.main.
  rewrite (proj2 (Nat.ltb_lt _ _) Hlen).
  erewrite bind_return; [reflexivity | apply hex_print_usage_out].
Qed.

Lemma plus_main_usage argv w :
  length argv < 3 ->
  TrialByHexPlusCli.main env argv w = (Return (SysExit 1), say_all plus_usage_lines w).
Proof.
  intros Hlen. unfold TrialByHexPlusCli.main.
  rewrite (proj2 (Nat.ltb_lt _ _) Hlen).
  erewrite bind_return; [reflexivity | apply plus_print_usage_out].
Qed.

Lemma legacy_main_usage argv w :
  length argv < 3 ->
  TrialByHexLegacy.main env argv w = (Return (SysExit 1), say_all legacy_usage_lines w).
Proof.
  intros Hlen. unfold TrialByHexLegacy.main.
  rewrite (proj2 (Nat.ltb_lt _ _) Hlen). rewrite !bind_print.
  erewrite bind_return; [| apply legacy_print_reviewers_out].
  rewrite !bind_print. unfold ret. f_equal.
  repeat (rewrite say_all_say || rewrite say_say_all || rewrite say_all_app).
  unfold legacy_usage_lines.
  first [reflexivity | f_equal; simpl; rewrite <- ?List.app_assoc; reflexivity].
Qed.

(** With at least three words on the command line, both lookups succeed. *)
Lemma argv_words (argv : list string) :
  3 <= length argv ->
  exists input_file output_file,
    argv !! 1 = Some input_file /\ argv !! 2 = Some output_file.
Proof.
  intros Hlen.
  destruct (lookup_lt_is_Some_2 argv 1) as [a Ha]; [lia |].
  destruct (lookup_lt_is_Some_2 argv 2) as [b Hb]; [lia |].
  now exists a, b.
Qed.

Lemma hex_main_runs argv w :
  3 <= length argv ->
  exists input_file output_file,
    argv !! 1 = Some input_file /\ argv !! 2 = Some output_file /\
    (TrialByHexCli.main env argv w).2
    = (TrialByHex.trial_by_hex env input_file output_file w).2 /\
    (TrialByHexCli.main env argv w).1
    = match (TrialByHex.trial_by_hex env input_file output_file w).1 with
      | Return _ => Return Done
      | Raise e => Raise e
      end.
Proof.
  intros Hlen. destruct (argv_words argv Hlen) as (a & b & Ha & Hb).
  exists a, b. split; [exact Ha |]. split; [exact Hb |].
  unfold TrialByHexCli.main. rewrite (proj2 (Nat.ltb_ge _ _)) by lia.
  rewrite Ha, Hb. unfold bind.
  destruct (TrialByHex.trial_by_hex env a b w) as [[d|e] w']; split; reflexivity.
Qed.

Lemma plus_main_runs argv w :
  3 <= length argv ->
  exists input_file output_file,
    argv !! 1 = Some input_file /\ argv !! 2 = Some output_file /\
    (TrialByHexPlusCli.main env argv w).2
    = (TrialByHexPlus.trial_by_hex_plus env input_file output_file w).2 /\
    (TrialByHexPlusCli.main env argv w).1
    = match (TrialByHexPlus.trial_by_hex_plus env input_file output_file w).1 with
      | Return _ => Return Done
      | Raise e => Raise e
      end.
Proof.
  intros Hlen. destruct (argv_words argv Hlen) as (a & b & Ha & Hb).
  exists a, b. split; [exact Ha |]. split; [exact Hb |].
  unfold TrialByHexPlusCli.main. rewrite (proj2 (Nat.ltb_ge _ _)) by lia.
  rewrite Ha, Hb. unfold bind.
  destruct (TrialByHexPlus.trial_by_hex_plus env a b w) as [[d|e] w']; split; reflexivity.
Qed.

Lemma legacy_main_runs argv w :
  3 <= length argv ->
  exists input_file output_file,
    argv !! 1 = Some input_file /\ argv !! 2 = Some output_file /\
    (TrialByHexLegacy.main env argv w).2
    = (TrialByHexLegacy.trial_by_hex env input_file output_file w).2 /\
    (TrialByHexLegacy.main env argv w).1
    = match (TrialByHexLegacy.trial_by_hex env input_file output_file w).1 with
      | Return _ => Return Done
      | Raise e => Raise e
      end.
Proof.
  intros Hlen. destruct (argv_words argv Hlen) as (a & b & Ha & Hb).
  exists a, b. split; [exact Ha |]. split; [exact Hb |].
  unfold TrialByHexLegacy.main. rewrite (proj2 (Nat.ltb_ge _ _)) by lia.
  rewrite Ha, Hb. unfold bind.
  destruct (TrialByHexLegacy.trial_by_hex env a b w) as [[d|e] w']; split; reflexivity.
Qed.

End Main.

(** X13. Started with fewer than two arguments (fewer than three words in
    [sys.argv]), each of the three scripts prints its usage text, line by
    line as [hex_usage_lines], [plus_usage_lines] and [legacy_usage_lines]
    give it (the usage line, the examples, one entry for every reviewer of
    the panel, the setup notes), and exits with status 1.  Nothing else
    happens: no request is sent, no file is written and no directory is
    made, whether the credential is set or not. *)
Theorem usage_exit_has_no_effect (env : Env) (argv : list string) (w : World) :
  length argv < 3 ->
  TrialByHexCli.main env argv w
  = (Return (SysExit 1),
     {| sent := sent w; stdout := stdout w ++ hex_usage_lines;
        files := files w; mkdirs := mkdirs w |})
  /\ TrialByHexPlusCli.main env argv w
     = (Return (SysExit 1),
        {| sent := sent w; stdout := stdout w ++ plus_usage_lines;
           files := files w; mkdirs := mkdirs w |})
  /\ TrialByHexLegacy.main env argv w
     = (Return (SysExit 1),
        {| sent := sent w; stdout := stdout w ++ legacy_usage_lines;
           files := files w; mkdirs := mkdirs w |}).
Proof.
  intros Hlen. split; [| split].
  - apply hex_main_usage, Hlen.
  - apply plus_main_usage, Hlen.
  - apply legacy_main_usage, Hlen.
Qed.

Lemma usage_exit_witness :
  length ["trial_by_hex.py"; "/work/thesis.md"] < 3 /\
  (TrialByHexCli.main env_primary_up ["trial_by_hex.py"; "/work/thesis.md"]
     (boot sample_disk)).1 = Return (SysExit 1) /\
  sent (TrialByHexCli.main env_primary_up ["trial_by_hex.py"; "/work/thesis.md"]
          (boot sample_disk)).2 = [] /\
  length (stdout (TrialByHexCli.main env_primary_up ["trial_by_hex.py"; "/work/thesis.md"]
                    (boot sample_disk)).2) = 18 /\
  stdout (TrialByHexCli.main env_primary_up ["trial_by_hex.py"; "/work/thesis.md"]
            (boot sample_disk)).2 !! 9
  = Some "  • openai/gpt-5.1: skeptical critic looking for weaknesses and logical gaps".
Proof.
  assert (Hlen : length ["trial_by_hex.py"; "/work/thesis.md"] < 3) by (simpl; lia).
  split; [exact Hlen |].
  rewrite (proj1 (usage_exit_has_no_effect env_primary_up
                    ["trial_by_hex.py"; "/work/thesis.md"] (boot sample_disk) Hlen)).
  repeat split.
Defined.

(** X14. Started with at least two arguments, each script runs the review
    on the first two and ignores the others; the lookups of [sys.argv]
    cannot fail.  The process then ends normally whatever dictionary the run
    returned: a [passed = False] verdict or a reported configuration failure
    does not change the exit status.  Only an exception raised by the run
    ends the process abnormally. *)
Theorem exit_status_ignores_verdict (env : Env) (argv : list string) (w : World) :
  3 <= length argv ->
  (exists input_file output_file,
     argv !! 1 = Some input_file /\ argv !! 2 = Some output_file /\
     (TrialByHexCli.main env argv w).2
     = (TrialByHex.trial_by_hex env input_file output_file w).2 /\
     (TrialByHexCli.main env argv w).1
     = match (TrialByHex.trial_by_hex env input_file output_file w).1 with
       | Return _ => Return Done
       | Raise e => Raise e
       end)
  /\ (exists input_file output_file,
        argv !! 1 = Some input_file /\ argv !! 2 = Some output_file /\
        (TrialByHexPlusCli.main env argv w).2
        = (TrialByHexPlus.trial_by_hex_plus env input_file output_file w).2 /\
        (TrialByHexPlusCli.main env argv w).1
        = match (TrialByHexPlus.trial_by_hex_plus env input_file output_file w).1 with
          | Return _ => Return Done
          | Raise e => Raise e
          end)
  /\ (exists input_file output_file,
        argv !! 1 = Some input_file /\ argv !! 2 = Some output_file /\
        (TrialByHexLegacy.main env argv w).2
        = (TrialByHexLegacy.trial_by_hex env input_file output_file w).2 /\
        (TrialByHexLegacy.main env argv w).1
        = match (TrialByHexLegacy.trial_by_hex env input_file output_file w).1 with
          | Return _ => Return Done
          | Raise e => Raise e
          end).
Proof.
  intros Hlen. split; [| split].
  - apply hex_main_runs, Hlen.
  - apply plus_main_runs, Hlen.
  - apply legacy_main_runs, Hlen.
Qed.

Lemma exit_status_witness :
  3 <= length ["trial_by_hex.py"; "/work/thesis.md"; "/out/review.md"; "--verbose"] /\
  (TrialByHexCli.main env_no_key
     ["trial_by_hex.py"; "/work/thesis.md"; "/out/review.md"; "--verbose"]
     (boot sample_disk)).1 = Return Done.
Proof.
  assert (Hlen : 3 <= length ["trial_by_hex.py"; "/work/thesis.md"; "/out/review.md";
                              "--verbose"]) by (simpl; lia).
  split; [exact Hlen |].
  destruct (exit_status_ignores_verdict env_no_key
              ["trial_by_hex.py"; "/work/thesis.md"; "/out/review.md"; "--verbose"]
              (boot sample_disk) Hlen)
    as ((a & b & Ha & Hb & _ & Hres) & _).
  injection Ha as <-. injection Hb as <-. rewrite Hres. reflexivity.
Defined.

(** X15. The first version of the script (src/.py/trial_by_hex.py) reports
    a missing credential by a dictionary, without reading the input file;
    but it has no test for the input file: with the credential set and no
    file at the input path, the run raises the file system's error before
    anything is printed or requested, where the current scripts return
    ["Input file not found"]. *)
Theorem legacy_missing_input_raises (env : Env)
    (panel : list TrialByHex.Reviewer) (input_file output_file : string) (w : World) :
  (truthy (OPENROUTER_API_KEY env) = false ->
   exists w',
     TrialByHexLegacy.trial_by_hex_with env panel input_file output_file w
     = (Return (TrialByHexLegacy.result_dict false "API key not set"), w') /\
     sent w' = sent w /\ files w' = files w /\ mkdirs w' = mkdirs w)
  /\
  (truthy (OPENROUTER_API_KEY env) = true ->
   files w !! resolve env input_file = None ->
   exists e,
     TrialByHexLegacy.trial_by_hex_with env panel input_file output_file w
     = (Raise e, w)).
Proof.
  split.
  - intros Hkey. unfold TrialByHexLegacy.trial_by_hex_with. rewrite Hkey. cbn [negb].
    destruct (legacy_print_key_help_run w) as (w' & Hrun & Hs & Hf & Hm).
    rewrite (bind_return _ _ _ _ _ Hrun). now exists w'.
  - intros Hkey Hfile. unfold TrialByHexLegacy.trial_by_hex_with.
    rewrite Hkey. cbn [negb].
    assert (Hread : exists e, TrialByHexLegacy.read_given env input_file w = (Raise e, w)).
    { unfold TrialByHexLegacy.read_given. rewrite Hfile.
      destruct (unreadable env (resolve env input_file)) as [e|]; [now exists e |].
      destruct (bool_decide (resolve env input_file ∈ mkdirs w)); eexists; reflexivity. }
    destruct Hread as [e Hread]. exists e.
    erewrite bind_raise; [reflexivity | exact Hread].
Qed.

Lemma legacy_missing_input_witness :
  truthy (OPENROUTER_API_KEY env_primary_up) = true /\
  files (boot empty_disk) !! "thesis.md" = None /\
  exists e,
    TrialByHexLegacy.trial_by_hex env_primary_up "thesis.md" "review.md" (boot empty_disk)
    = (Raise e, boot empty_disk).
Proof.
  assert (Hkey : truthy (OPENROUTER_API_KEY env_primary_up) = true) by reflexivity.
  assert (Hfile : files (boot empty_disk) !! resolve env_primary_up "thesis.md" = None)
    by reflexivity.
  split; [exact Hkey |]. split; [exact Hfile |].
  exact (proj2 (legacy_missing_input_raises env_primary_up TrialByHexLegacy.REVIEWERS
                  "thesis.md" "review.md" (boot empty_disk)) Hkey Hfile).
Defined.

End CliFacts.

(** ** Further facts: a run in which every model answers *)

Module AnsweredRun.
Import Py Eff Spec XSpec EffFacts HexFacts HexRun PlusFacts FallbackClaims.

Section Run.
Context (env : Env).
Hypothesis Hup : all_answer env.

Lemma hex_review_loop_answered content panel i reviews w :
  sent (TrialByHex.review_loop env content i panel reviews w).2
  = (sent w ++ map (fun r => hex_request content (TrialByHex.persona r) (TrialByHex.model r))
                 panel)%list.
Proof.
  revert i reviews w. induction panel as [|reviewer rest IH]; intros i reviews w.
  - simpl. now rewrite List.app_nil_r.
  - destruct (review_loop_cons env content i reviewer w) as (w2 & Hs & _ & _ & Hstep).
    rewrite Hstep, IH, Hs, get_review_unfold. cbv zeta.
    destruct (Hup (sent w) (TrialByHex.payload (TrialByHex.model reviewer)
                (TrialByHex.review_messages content (TrialByHex.persona reviewer)) 1500))
      as [text Htext].
    rewrite Htext. simpl. now rewrite <- List.app_assoc.
Qed.

Lemma plus_review_loop_answered content panel i reviews w :
  sent (TrialByHexPlus.review_loop env content i panel reviews w).2
  = (sent w ++ map (fun r => plus_request content r (TrialByHexPlus.model r)) panel)%list.
Proof.
  revert i reviews w. induction panel as [|reviewer rest IH]; intros i reviews w.
  - simpl. now rewrite List.app_nil_r.
  - destruct (plus_review_loop_cons env content i reviewer w) as (w2 & Hs & _ & _ & Hstep).
    rewrite Hstep, IH, Hs, plus_get_review_unfold. cbv zeta.
    destruct (Hup (sent w) (TrialByHexPlus.payload (TrialByHexPlus.model reviewer)
                (TrialByHexPlus.review_messages content reviewer) 2000))
      as [text Htext].
    rewrite Htext. simpl. now rewrite <- List.app_assoc.
Qed.

Lemma hex_answered_run panel input_file output_file content w d :
  truthy (OPENROUTER_API_KEY env) = true ->
  files w !! resolve env input_file = Some content ->
  (TrialByHex.trial_by_hex_with env panel input_file output_file w).1 = Return d ->
  exists reviews synthesis history,
    length reviews = length panel /\
    sent (TrialByHex.trial_by_hex_with env panel input_file output_file w).2
    = (history ++ [hex_synthesis_request reviews TrialByHex.default_synthesis_model])%list /\
    models_since w (TrialByHex.trial_by_hex_with env panel input_file output_file w).2
    = (map TrialByHex.model panel ++ [TrialByHex.default_synthesis_model])%list /\
    net env history (hex_synthesis_request reviews TrialByHex.default_synthesis_model)
    = Return synthesis /\
    d = TrialByHex.result_dict (TrialByHex.passed_of synthesis) synthesis /\
    forall i reviewer,
      panel !! i = Some reviewer ->
      exists q text,
        history !! (length (sent w) + i) = Some q /\
        req_model q = TrialByHex.model reviewer /\
        net env (take (length (sent w) + i) history) q = Return text /\
        reviews !! i = Some text.
Proof.
  intros Hkey Hfile Hret.
  destruct (collect_reviews_loop env panel (resolve env input_file) content w)
    as (wb & Hsb & _ & _ & Hloop).
  destruct (review_loop_run env content panel 0 [] wb)
    as (reviews & w1 & Hrun & Hlen & _).
  pose proof (hex_review_loop_answered content panel 0 [] wb) as Hsent.
  rewrite Hrun in Hsent. cbn [snd] in Hsent. rewrite Hsb in Hsent.
  rewrite Hrun in Hloop. cbn [app] in Hloop, Hrun.
  destruct (Hup (sent w1) (hex_synthesis_request reviews TrialByHex.default_synthesis_model))
    as [synthesis Hnet].
  destruct (trial_by_hex_after_synthesis env panel input_file output_file content w reviews w1
              synthesis Hkey Hfile Hloop Hnet) as (individual & _ & Hs & [(Hr & _) | (e & Hr & _)]).
  2:{ rewrite Hr in Hret. discriminate Hret. }
  rewrite Hr in Hret. injection Hret as <-.
  exists reviews, synthesis, (sent w1).
  split; [exact Hlen |]. split; [exact Hs |]. split.
  { rewrite (models_since_app w _
               (map (fun r => hex_request content (TrialByHex.persona r)
                                (TrialByHex.model r)) panel
                ++ [hex_synthesis_request reviews TrialByHex.default_synthesis_model])).
    - rewrite map_app, map_map. reflexivity.
    - rewrite Hs, Hsent, <- List.app_assoc. reflexivity. }
  split; [exact Hnet |]. split; [reflexivity |].
  intros i reviewer Hi.
  destruct (review_loop_position env content panel wb reviews w1 i reviewer Hrun Hi)
    as (wi & Hprefix & Htext).
  pose proof (hex_review_loop_answered content (take i panel) 0 [] wb) as Hsi.
  rewrite Hprefix in Hsi. cbn [snd] in Hsi. rewrite Hsb in Hsi.
  destruct (Hup (sent wi) (hex_request content (TrialByHex.persona reviewer) (TrialByHex.model reviewer))) as [text Ht].
  rewrite get_review_unfold in Htext. cbv zeta in Htext.
  unfold hex_request in Ht. rewrite Ht in Htext. cbn [fst outcome_text] in Htext.
  exists (hex_request content (TrialByHex.persona reviewer) (TrialByHex.model reviewer)), text.
  split.
  { rewrite Hsent, lookup_app_r by lia.
    replace (length (sent w) + i - length (sent w)) with i by lia.
    change (map ?f ?l) with (f <$> l). now rewrite list_lookup_fmap, Hi. }
  split; [reflexivity |]. split; [| exact Htext].
  rewrite Hsent, take_app_add.
  change (map ?f ?l) with (f <$> l). rewrite <- fmap_take.
  change (?f <$> ?l) with (map f l). rewrite <- Hsi. exact Ht.
Qed.

Lemma plus_answered_run panel input_file output_file content w d :
  truthy (OPENROUTER_API_KEY env) = true ->
  files w !! resolve env input_file = Some content ->
  (TrialByHexPlus.trial_by_hex_plus_with env panel input_file output_file w).1 = Return d ->
  exists reviews synthesis history,
    length reviews = length panel /\
    sent (TrialByHexPlus.trial_by_hex_plus_with env panel input_file output_file w).2
    = (history ++ [plus_synthesis_request reviews panel TrialByHexPlus.default_synthesis_model])%list /\
    models_since w (TrialByHexPlus.trial_by_hex_plus_with env panel input_file output_file w).2
    = (map TrialByHexPlus.model panel ++ [TrialByHexPlus.default_synthesis_model])%list /\
    net env history (plus_synthesis_request reviews panel TrialByHexPlus.default_synthesis_model)
    = Return synthesis /\
    d = TrialByHexPlus.result_dict (TrialByHexPlus.passed_of synthesis) synthesis /\
    forall i reviewer,
      panel !! i = Some reviewer ->
      exists q text,
        history !! (length (sent w) + i) = Some q /\
        req_model q = TrialByHexPlus.model reviewer /\
        net env (take (length (sent w) + i) history) q = Return text /\
        reviews !! i = Some text.
Proof.
  intros Hkey Hfile Hret.
  destruct (plus_collect_reviews_loop env panel (resolve env input_file) content w)
    as (wb & Hsb & _ & _ & Hloop).
  destruct (plus_review_loop_run env content panel 0 [] wb)
    as (reviews & w1 & Hrun & Hlen & _).
  pose proof (plus_review_loop_answered content panel 0 [] wb) as Hsent.
  rewrite Hrun in Hsent. cbn [snd] in Hsent. rewrite Hsb in Hsent.
  rewrite Hrun in Hloop. cbn [app] in Hloop, Hrun.
  destruct (Hup (sent w1) (plus_synthesis_request reviews panel TrialByHexPlus.default_synthesis_model))
    as [synthesis Hnet].
  destruct (trial_by_hex_plus_after_synthesis env panel input_file output_file content w reviews w1
              synthesis Hkey Hfile Hloop Hnet) as (Hs & [(Hr & _) | (e & Hr & _)]).
  2:{ rewrite Hr in Hret. discriminate Hret. }
  rewrite Hr in Hret. injection Hret as <-.
  exists reviews, synthesis, (sent w1).
  split; [exact Hlen |]. split; [exact Hs |]. split.
  { rewrite (models_since_app w _
               (map (fun r => plus_request content r (TrialByHexPlus.model r)) panel
                ++ [plus_synthesis_request reviews panel
                      TrialByHexPlus.default_synthesis_model])).
    - rewrite map_app, map_map. reflexivity.
    - rewrite Hs, Hsent, <- List.app_assoc. reflexivity. }
  split; [exact Hnet |]. split; [reflexivity |].
  intros i reviewer Hi.
  destruct (plus_review_loop_position env content panel wb reviews w1 i reviewer Hrun Hi)
    as (wi & Hprefix & Htext).
  pose proof (plus_review_loop_answered content (take i panel) 0 [] wb) as Hsi.
  rewrite Hprefix in Hsi. cbn [snd] in Hsi. rewrite Hsb in Hsi.
  destruct (Hup (sent wi) (plus_request content reviewer (TrialByHexPlus.model reviewer))) as [text Ht].
  rewrite plus_get_review_unfold in Htext. cbv zeta in Htext.
  unfold plus_request in Ht. rewrite Ht in Htext. cbn [fst outcome_text] in Htext.
  exists (plus_request content reviewer (TrialByHexPlus.model reviewer)), text.
  split.
  { rewrite Hsent, lookup_app_r by lia.
    replace (length (sent w) + i - length (sent w)) with i by lia.
    change (map ?f ?l) with (f <$> l). now rewrite list_lookup_fmap, Hi. }
  split; [reflexivity |]. split; [| exact Htext].
  rewrite Hsent, take_app_add.
  change (map ?f ?l) with (f <$> l). rewrite <- fmap_take.
  change (?f <$> ?l) with (map f l). rewrite <- Hsi. exact Ht.
Qed.

End Run.

(** X16. When the remote side answers every request and a run with the
    credential set reads the input file and returns a value, the run has
    requested each reviewer's own model exactly once, in panel order, then
    the synthesis model once, and nothing else: N + 1 requests for a panel
    of N, no fallback model among them unless it is a reviewer's own.  The
    review at position i is the text the remote side answered to the i-th
    of these requests, and the dictionary returned holds the text answered
    to the synthesis request, with the verdict computed from it. *)
Theorem answered_run_requests_each_model_once (env : Env)
    (input_file output_file content : string)
    (hex_panel : list TrialByHex.Reviewer) (plus_panel : list TrialByHexPlus.Reviewer)
    (w : World) (d : gmap string value) :
  all_answer env ->
  truthy (OPENROUTER_API_KEY env) = true ->
  files w !! resolve env input_file = Some content ->
  ((TrialByHex.trial_by_hex_with env hex_panel input_file output_file w).1 = Return d ->
   exists reviews synthesis history,
     length reviews = length hex_panel /\
     sent (TrialByHex.trial_by_hex_with env hex_panel input_file output_file w).2
     = (history ++ [hex_synthesis_request reviews TrialByHex.default_synthesis_model])%list /\
     models_since w (TrialByHex.trial_by_hex_with env hex_panel input_file output_file w).2
     = (map TrialByHex.model hex_panel ++ [TrialByHex.default_synthesis_model])%list /\
     net env history (hex_synthesis_request reviews TrialByHex.default_synthesis_model)
     = Return synthesis /\
     d = TrialByHex.result_dict (TrialByHex.passed_of synthesis) synthesis /\
     forall i reviewer,
       hex_panel !! i = Some reviewer ->
       exists q text,
         history !! (length (sent w) + i) = Some q /\
         req_model q = TrialByHex.model reviewer /\
         net env (take (length (sent w) + i) history) q = Return text /\
         reviews !! i = Some text)
  /\
  ((TrialByHexPlus.trial_by_hex_plus_with env plus_panel input_file output_file w).1 = Return d ->
   exists reviews synthesis history,
     length reviews = length plus_panel /\
     sent (TrialByHexPlus.trial_by_hex_plus_with env plus_panel input_file output_file w).2
     = (history ++ [plus_synthesis_request reviews plus_panel TrialByHexPlus.default_synthesis_model])%list /\
     models_since w (TrialByHexPlus.trial_by_hex_plus_with env plus_panel input_file output_file w).2
     = (map TrialByHexPlus.model plus_panel ++ [TrialByHexPlus.default_synthesis_model])%list /\
     net env history (plus_synthesis_request reviews plus_panel TrialByHexPlus.default_synthesis_model)
     = Return synthesis /\
     d = TrialByHexPlus.result_dict (TrialByHexPlus.passed_of synthesis) synthesis /\
     forall i reviewer,
       plus_panel !! i = Some reviewer ->
       exists q text,
         history !! (length (sent w) + i) = Some q /\
         req_model q = TrialByHexPlus.model reviewer /\
         net env (take (length (sent w) + i) history) q = Return text /\
         reviews !! i = Some text).
Proof.
  intros Hup Hkey Hfile. split; intros Hret.
  - eapply hex_answered_run; eassumption.
  - eapply plus_answered_run; eassumption.
Qed.

Lemma answered_run_witness :
  all_answer env_all_up /\
  truthy (OPENROUTER_API_KEY env_all_up) = true /\
  files (boot sample_disk) !! "/work/thesis.md" = Some sample_content /\
  (TrialByHex.trial_by_hex env_all_up "/work/thesis.md" "/out/review.md"
     (boot sample_disk)).1
  = Return (TrialByHex.result_dict false "review by anthropic/claude-opus-4.5") /\
  models_since (boot sample_disk)
    (TrialByHex.trial_by_hex env_all_up "/work/thesis.md" "/out/review.md"
       (boot sample_disk)).2
  = ["anthropic/claude-sonnet-4.5"; "openai/gpt-5.1"; "google/gemini-3-pro-preview";
     "x-ai/grok-4.1-fast:free"; "deepseek/deepseek-chat-v3.1"; "openai/gpt-5-mini";
     "anthropic/claude-opus-4.5"].
Proof.
  assert (Hup : all_answer env_all_up) by (intros history request; eexists; reflexivity).
  assert (Hkey : truthy (OPENROUTER_API_KEY env_all_up) = true) by reflexivity.
  assert (Hfile : files (boot sample_disk) !! resolve env_all_up "/work/thesis.md"
                  = Some sample_content) by reflexivity.
  assert (Hret :
    (TrialByHex.trial_by_hex_with env_all_up TrialByHex.REVIEWERS
       "/work/thesis.md" "/out/review.md" (boot sample_disk)).1
    = Return (TrialByHex.result_dict false "review by anthropic/claude-opus-4.5"))
    by (vm_compute; reflexivity).
  split; [exact Hup |]. split; [exact Hkey |]. split; [exact Hfile |].
  split; [exact Hret |].
  destruct (proj1 (answered_run_requests_each_model_once env_all_up
                     "/work/thesis.md" "/out/review.md" sample_content
                     TrialByHex.REVIEWERS TrialByHexPlus.REVIEWERS (boot sample_disk) _
                     Hup Hkey Hfile) Hret)
    as (reviews & synthesis & history & _ & _ & Hmodels & _).
  exact Hmodels.
Defined.

End AnsweredRun.

(** ** Further facts: the short name of a model *)

Module ShortName.
Import Py Eff Spec XSpec PyFacts.

Lemma split_nonempty (sep : ascii) (s : string) : split sep s <> [].
Proof.
  induction s as [|c s IH]; simpl; [discriminate |].
  destruct (Ascii.eqb c sep); [discriminate |].
  destruct (split sep s); discriminate.
Qed.

Lemma split_shape (sep : ascii) (s : string) :
  exists first rest,
    split sep s = first :: rest /\
    (occurs sep s = false -> first = s /\ rest = []) /\
    (occurs sep s = true -> rest <> []).
Proof.
  induction s as [|c s (first & rest & Hsplit & Hnone & Hsome)].
  - exists "", []. repeat split; discriminate.
  - simpl. rewrite Hsplit. destruct (Ascii.eqb c sep) eqn:Hc.
    + exists "", (first :: rest). simpl. repeat split; discriminate.
    + exists (String c first), rest. simpl. split; [reflexivity |]. split.
      * intros Hs. destruct (Hnone Hs) as [-> ->]. split; reflexivity.
      * exact Hsome.
Qed.

Lemma last_segment_cons (sep c : ascii) (s : string) :
  last_segment sep (String c s)
  = if Ascii.eqb c sep then last_segment sep s
    else if occurs sep s then last_segment sep s
    else String c s.
Proof.
  unfold last_segment. simpl.
  destruct (split_shape sep s) as (first & rest & Hsplit & Hnone & Hsome).
  rewrite Hsplit. destruct (Ascii.eqb c sep); [reflexivity |].
  destruct (occurs sep s).
  - specialize (Hsome eq_refl). destruct rest as [|p ps]; [congruence | reflexivity].
  - destruct (Hnone eq_refl) as [-> ->]. reflexivity.
Qed.

Lemma last_segment_without_separator (sep : ascii) (s : string) :
  occurs sep s = false -> last_segment sep s = s.
Proof.
  induction s as [|c s IH]; intros Hs; [reflexivity |].
  simpl in Hs. apply orb_false_iff in Hs as [Hc Hs].
  rewrite last_segment_cons, Hc, Hs. reflexivity.
Qed.

Lemma last_segment_separator_free (sep : ascii) (s : string) :
  occurs sep (last_segment sep s) = false.
Proof.
  induction s as [|c s IH]; [reflexivity |].
  rewrite last_segment_cons.
  destruct (Ascii.eqb c sep) eqn:Hc; [exact IH |].
  destruct (occurs sep s) eqn:Hs; [exact IH |].
  simpl. now rewrite Hc, Hs.
Qed.

Lemma last_segment_after_separator (sep : ascii) (s : string) :
  occurs sep s = true ->
  exists before, s = before +:+ String sep (last_segment sep s).
Proof.
  induction s as [|c s IH]; intros Hs; [discriminate Hs |].
  rewrite last_segment_cons. simpl in Hs.
  destruct (occurs sep s) eqn:Hrest.
  - destruct (IH eq_refl) as [before Hbefore].
    exists (String c before).
    destruct (Ascii.eqb c sep); rewrite app_cons, <- Hbefore; reflexivity.
  - rewrite orb_false_r in Hs. rewrite Hs.
    apply Ascii.eqb_eq in Hs as ->.
    exists "". rewrite app_nil_l, last_segment_without_separator by exact Hrest.
    reflexivity.
Qed.

(** X17. The short name both scripts print and write for a model,
    [model.split('/')[-1]], is what follows the last "/" of the model id: it
    holds no "/", the id ends with it, and it is the whole id when the id
    holds no "/".  (The separator is any one character.) *)
Theorem short_name_follows_last_separator (sep : ascii) (s : string) :
  occurs sep (last_segment sep s) = false /\
  (if occurs sep s
   then exists before, s = before +:+ String sep (last_segment sep s)
   else last_segment sep s = s).
Proof.
  split; [apply last_segment_separator_free |].
  destruct (occurs sep s) eqn:Hs.
  - apply last_segment_after_separator, Hs.
  - apply last_segment_without_separator, Hs.
Qed.

End ShortName.
